(* ===== verification/_CoqProject ===== *)
-Q . S2P
Prelude.v
PyFloat.v
PyStr.v
Format.v
Schema.v
Regex.v
Phone.v
Hours.v
OrderId.v
Effects.v
AntiAbuse.v
Notify.v
Templates.v
Handler.v
Request.v
Rendered.v
Related.v
Stateless.v
Replay.v
Secret.v
Machine.v
Calls.v
Interleave.v
