(* ===== verification/Prelude.v ===== *)
(** * Verification of the order-intake handler [src/lambda/Place-Order.py]

    ** The program

    One FastAPI endpoint, [POST /order], served through a serverless adapter.
    The request body is parsed by pydantic into [OrderRequest] (which nests
    [Cart] and [CartItem] and runs their validators); the handler
    [process_order] then reads the client's address, checks the business
    hours, draws an order identifier, evaluates the honeypot field, redeems
    the human-verification token, checks the email domain against a blocklist
    and the DNS, sends two emails through SES, and answers with a JSON
    response or an [HTTPException]. The process keeps no state between
    requests: what a request can observe of the others is what the clock, the
    verification service, the DNS and SES answer.

    ** Files, and the code they model

    - [Prelude] (this file): the [result] type (a value or an error) with its
      monad instances, the tactics and the hint databases, Python's [sum]
      over integers, shared list lemmas.
    - [PyFloat]: Python floats as binary64 values, with the operations the
      validators use ([+], [-], [abs], [>], [>=], [sum]) and the facts about
      signs, infinities and NaN that the price check rests on.
    - [PyStr]: the string methods the code calls ([lower], [upper], [split],
      [[:8]], [[-1]], [join], truth value), with their lemmas, and the
      occurrence of a text in another ([str_infix], decided by [str_in]).
    - [Format]: what the f-strings of the templates print for a number:
      [str_of_Z] for [{qty}] and [{total_qty}] (lines 146, 184, 249), and
      [format_2f] for [{price:.2f}] and [{total_price:.2f}] (lines 142, 185,
      250), computed on the mantissa and the exponent of the float by
      [round_half_even]; [parse_2f] reads the printed text back.
    - [Schema]: the pydantic models [CartItem], [Cart], [OrderRequest] (lines
      45-92) and the validation of a cart: [validate_CartItem],
      [validate_min_quantity], [validate_total_price], [validate_total_qty],
      and [validate_Cart], which runs them in pydantic's order. [cart_ok] is
      the specification of an accepted cart.
    - [Regex]: regular expressions, their language, a matcher by
      derivatives proved to decide the language, and the match up to [$].
    - [Phone]: [PHONE_PATTERN] (line 39) as a [Regex.regex] and
      [validate_phone_format] (lines 94-98); [phone_shape] is the reference
      description of the accepted texts.
    - [Hours]: [business_hours], the decision of [validate_business_hours]
      (lines 105-125) on a clock reading.
    - [OrderId]: [order_id_of_uuid], the expression
      [str(uuid.uuid4())[:8].upper()] of line 421 on a UUID given as a number.
    - [Effects]: the exceptions [exn], the external calls as [Event]s, the
      outside world as the class [Environment], the read-only configuration
      as the class [Config] with [load_config], the four [os.getenv] of
      lines 28-33, the computations [M] with [try_except], and the rules
      [runs] that derive a run of a computation step by step.
    - [AntiAbuse]: [verify_turnstile_token] (lines 387-398) and
      [is_domain_real] (lines 276-299).
    - [Notify]: [send_order_emails] (lines 302-382); the three template
      functions are the class [Renderer].
    - [Templates]: [create_product_html], [create_order_html] and
      [create_customer_confirmation_html] (lines 131-269), each the f-string
      of the source with its fixed text copied line by line (a backtick
      stands for the double quote, [html] puts the quote back) and the values
      written in as they are; [html_renderer] is the instance of [Renderer]
      they make.
    - [Handler]: [process_order] (lines 406-475), its decision table
      [outcome] with [answer] and [trace], and the theorems on the handler.
    - [Request]: the validation of [OrderRequest] (lines 85-98; the syntax
      check of [EmailStr] is the class [EmailSyntax]) and the route
      [post_order], which enters the handler only with a validated body.
    - [Rendered]: the route with the templates of the code: the two
      documents of an accepted order, from the body to the HTML given to SES.
    - [Related]: the computations of the code in two environments:
      [env_rel_upto], a condition under which the second environment gives
      the answers of the first, and [related_upto], proved for every
      function of the code up to the route by induction on the way it is
      built, also when the two runs have two secret keys; [env_rel] and
      [related] are the case of one configuration.
    - [Stateless]: environments that answer alike ([env_sim]);
      [env_after], the environment as it is after a history.
    - [Replay]: [env_replay], the environment that reads its answers from a
      list of events, and the route run in it.
    - [Secret]: two processes whose variables differ in [CLOUDFLARE_KEY]
      only, each with the configuration it loads ([Effects.load_config]) and
      the templates of the code for this configuration
      ([Templates.html_renderer]); [Effects.with_key] is the configuration of
      the second, and [rekey] the events of a run with the key replaced.
    - [Calls]: the events that a request allows ([allowed], [log_line]), the
      place of a call in the order of the gates ([phase]) and the number of
      the calls of a gate ([quota], [budget]), as invariants of the state
      machine.
    - [Machine]: the state machine of the specification (Received,
      StructurallyValid, HoursChecked, ...) as the step relation [step], its
      executions [steps], the same machine as the function [step_fn],
      [run], which computes an execution with fuel, and [rank], the number of
      transitions left.
    - [Interleave]: the concurrency model of the specification (section 5):
      a pool of requests ([Task]), each with the state of its own machine;
      [istep_fn], one transition of one request from the history they
      share; [isteps], the executions of the pool in any order of the
      transitions; [irun], the execution a schedule gives.

    ** How state and effects are modelled

    A computation of type [M A] is a function from the history (the list of
    external calls made so far in this process, with their answers) to a
    result ([Ok a] or [Err e], an exception) and the events it adds. The
    events of a raise are kept, as Python keeps the effects of the statements
    that ran. An [Environment] gives the answer of each external call as a
    function of the history, so the theorems cover clocks that advance,
    random UUIDs and services that fail at any call; they are stated for
    every environment, configuration and renderer (section variables). The
    [async]/[await] of the source adds no behaviour to one request, whose
    awaits are sequential. The requests of one process make their calls on
    one history: one after the other in [Stateless], which proves that an
    earlier request acts on a later one only through the answers of the
    environment, and at the same time in [Interleave], where the
    transitions of the machines of several requests are made in any order.
    A transition is the unit of interleaving and a call is recorded with its
    answer as one event. The pool lets any request move at any time; the
    event loop of the code allows fewer schedules (a request keeps the loop
    between two suspension points), so what holds of every execution of
    [Interleave.isteps] holds of its executions. The theorems on the pool
    are safety properties; the pool says nothing on waiting.

    ** What the theorems show

    - Cart validation ([Schema]): the validated cart is returned exactly for
      a consistent cart ([parse_Cart_Ok_iff]); each mismatch error is
      reported exactly under the stated conditions; errors accumulate over
      fields while a field's chain stops at its first error; accepted carts
      satisfy bounds on item count and quantities; the float price check
      accepts an infinite price ([infinite_price_accepted]).
    - Phone ([Phone]): the validator accepts exactly the texts of
      [phone_shape], with or without a final newline; an accepted phone has
      ten or eleven digits and holds no letter and no angle bracket; the
      country code needs a character after it, and that character may be any
      from the space to the dot.
    - Request ([Request]): the body is accepted exactly when phone, email
      and cart are; a refused body has no effect
      ([invalid_body_no_effect]); every email that leaves is for a valid
      order.
    - Business hours ([Hours]): open exactly Monday to Saturday, 8 to 20.
    - Order identifier ([OrderId]): 8 upper-case hexadecimal characters,
      determined by the top 32 bits of the UUID.
    - Anti-abuse ([AntiAbuse]): the domain check never raises and fails
      closed; which queries it makes; what the verification call sends and
      returns.
    - Dispatch ([Notify]): never raises, reports success exactly when both
      emails were accepted, and can leave one email sent on failure.
    - Handler ([Handler]): the six possible answers; success exactly when the
      gates passed; no email before every gate passed; the honeypot path; the
      precedence of the hours gate; what failures of the verification
      service, of SES and a missing client address turn into; the exact
      sequence of events of an accepted order.
    - Printing of numbers ([Format]): the text of a price read back gives
      the sign and the hundredths printed ([format_2f_roundtrip]); the amount
      printed is the hundredth nearest to the exact value of the float, the
      even one on a tie ([format_2f_nearest]).
    - Templates ([Templates], [Rendered]): the documents of an accepted order
      are the templates filled with the validated body
      ([accepted_order_documents]); the shipping text, the item names and the
      image addresses stand in the owner's notice unescaped
      ([request_text_reaches_owner]), so that an order of one item can print
      the notice of two ([owner_notice_forgeable]); both emails read [Items],
      and a valid price prints unsigned, as [inf] or as [-0.00].
    - Statelessness ([Stateless]): the route after a history is the route
      as a first request in the environment after that history
      ([post_order_stateless]); an order that is sent twice and accepted
      twice is dispatched twice, four emails with the two identifiers drawn
      ([repeated_order_dispatched_again]): there is no deduplication.
    - Replay ([Replay]): a run of the route is reproduced by replaying its
      events; two runs for the same request, in any environments and after
      any histories, are the same run as soon as the calls and answers of
      one are the beginning of those of the other
      ([answers_determine_run]).
    - Secret key ([Secret]): a process started with another key, running
      the route with the templates of the code on its own configuration and
      given the same answers, gives the same response and makes the same
      events, but for the value of the field [secret] of the verification
      POST ([secret_confined]): the key is in no log line, no DNS query, no
      email and no response. Templates that printed the key would not pass
      ([leaky_template_not_confined]).
    - State machine ([Machine]): the relation and the function agree, the
      machine is deterministic, and the route refines it: the executions
      from Received to Responded are exactly the runs of [post_order]; no
      state but Responded is stuck, every transition lowers [rank], and from
      every state the machine reaches Responded ([machine_live]).
    - Calls ([Calls]): on every path, every event of a run is allowed for
      the validated body: one URL with the secret and the token, one DNS
      name, the two emails of this request, five shapes of log line
      ([route_calls_allowed]); the calls are in the order of the gates
      ([calls_in_order]); and a run makes one POST, two DNS queries and two
      SES calls at most, eight events with its log lines: no call is
      retried ([route_calls_bounded]). The honeypot line prints the
      client's text as it is, line breaks included ([forged_log_line]).
    - Concurrency ([Interleave]): in every execution of a pool, every
      request is in a state its own machine reaches alone with the answers
      it got, and its response is the route's
      ([interleaved_request_isolated]); an accepted order has its two
      emails, with its own identifier, in the shared history
      ([concurrent_order_notified]); every email of the shared history is
      the notice or the confirmation of a valid request of the pool whose
      honeypot field is empty ([pool_emails_for_valid_orders]); every event
      of the shared history is allowed for a request of the pool
      ([pool_events_allowed]); with answers that do not depend on the
      history, the order of the transitions does not matter
      ([schedule_independent]).

    ** Assumptions and bounds

    - Strings are sequences of 8-bit characters; [lower] and [upper] are
      those of ASCII, which is what Python does on ASCII text. The order
      identifier is ASCII and so are the templates, but for one character of
      the confirmation's title, which is written as its four UTF-8 bytes;
      other input text is carried unchanged except by [email.lower()]. The
      strings of the code are Unicode: the theorems on the phone and on the
      lower-cased email are about requests whose text is ASCII. Outside
      ASCII the code does more than the model can say: [\d] matches every
      Unicode decimal digit, so a phone written in full-width or
      Arabic-Indic digits passes the pattern (a finding).
    - The items of a cart are a list of names with their items, in the order
      of the JSON object. A [dict] holds a name once; the theorems are stated
      for every list, so they hold for the lists that hold a name once.
    - [format_2f] prints the decimal nearest to the exact value of the
      float, ties to even, as CPython's correctly rounded conversion does;
      the model was compared with CPython on some hundreds of values, and the
      templates on sample orders, byte for byte.
    - Floats are [SpecFloat] values with precision 53 and maximal exponent
      1024 (binary64). [sum] adds left to right from 0, as CPython does
      before version 3.12 (later versions compensate the rounding error).
    - Integers are unbounded, as Python's.
    - pydantic's behaviour is that of the [validator] decorator of version 1,
      which the source uses: fields in declaration order, a field's type
      constraint before its validators, validators in definition order, and
      [values] holding the fields that passed. Coercion of JSON to the field
      types and missing fields are not modelled: validation starts from
      typed values.
    - A clock reading is a day of the week and an hour; the time-zone
      conversion is the library's.
    - The phone pattern uses no construct that cuts backtracking, so
      Python's matcher finds a match exactly when the text, up to [$], is in
      the language of the pattern; [\d] is the ASCII digits, the only
      decimal digits among 8-bit characters (see above for Unicode text).
    - The model of the code uses no fuel: every definition is a total
      structural function, so every theorem about a result is about a run
      that terminates. Only [Machine.run] takes fuel; the longest path of the
      machine has eight transitions, [machine_responds] proves that a fuel of
      eight reaches the response from every history, and [machine_live] that
      a fuel of [rank s] does from every state [s]. [Interleave.irun] is
      structural on the schedule.
    - In [Interleave] a transition of the machine is atomic. The code runs
      between two suspension points without interruption; it awaits inside
      the call of the verification service, which is inside one transition:
      its request and its answer are one event, recorded when the answer
      comes. The theorems on a pool hold for every environment, so for every
      answer the service may give after the other requests have moved.

    ** Not modelled

    The email-syntax check of the library (a parameter, [EmailSyntax]), the
    framework's translation of exceptions and validation errors into HTTP
    responses, the application object and the serverless adapter (lines
    20-23 and 482), the construction of the SES client (line 36), and the
    clients of SES, HTTP and DNS (they are the [Environment]). Time is not
    modelled: the timeouts of the calls, and how long a request waits while
    another makes a blocking call (the DNS queries and the two SES calls do
    not suspend), are outside the theorems, which are about the order of
    the calls and their answers. The order in which the event loop resumes
    the requests is not modelled either: [Interleave] allows every order, and
    a task of its pool can always move, so the development has no theorem
    of progress under load; that a request is answered is proved of one
    request ([Machine.machine_live]). The lines of the source outside the map
    are imports, comments and these objects of the libraries: every
    function, class and constant of the source is modelled. *)

From Stdlib Require Import ZArith List Bool Lia Permutation.
From stdpp Require Import base tactics option list.

(** ** Results: a value or an error *)

Inductive result (E A : Type) : Type :=
| Ok (a : A)
| Err (e : E).
Arguments Ok {E A} a.
Arguments Err {E A} e.

#[export] Instance result_ret {E} : MRet (result E) := fun _ a => Ok a.
#[export] Instance result_bind {E} : MBind (result E) :=
  fun _ _ f r => match r with Ok a => f a | Err e => Err e end.
#[export] Instance result_fmap {E} : FMap (result E) :=
  fun _ _ f r => match r with Ok a => Ok (f a) | Err e => Err e end.

Definition is_Ok {E A} (r : result E A) : bool :=
  match r with Ok _ => true | Err _ => false end.

(** The errors of a result, as the list a collector appends: none for [Ok]. *)
Definition errors_of {E A} (r : result (list E) A) : list E :=
  match r with Ok _ => [] | Err es => es end.

(** [not l] for a list: it is empty. *)
Definition is_nil {A} (l : list A) : bool :=
  match l with [] => true | _ => false end.

(** ** Python's [sum] over integers: a left fold from the integer 0 *)

Definition py_sum_int (l : list Z) : Z := foldl Z.add 0%Z l.

(** ** Tactics *)

(** [inv], [case_match], [simplify_eq] and [naive_solver] are stdpp's. The
    tactics below are the development's own. *)

(** Unfold the monadic bind and return of [result] in the goal and in the
    hypotheses. *)
Ltac unfold_res :=
  repeat (unfold mbind, mret, fmap, result_bind, result_ret, result_fmap in *;
          cbn beta iota in *).

(** Split the goal on the scrutinee of its first [if] or [match], keep the
    equation, and close the branches that are contradictory or trivial. *)
Ltac split_match :=
  case_match; simplify_eq; try done.

Create HintDb order discriminated.
Create Rewrite HintDb order_rw.

(** ** Lemmas on results *)

Section Results.
Context {E A B : Type}.
Implicit Types (r : result E A) (f : A -> result E B).

Lemma res_bind_Ok_inv r f b :
  r ≫= f = Ok b -> exists a, r = Ok a /\ f a = Ok b.
Proof. destruct r; simpl; [eauto | discriminate]. Qed.

Lemma res_bind_Err_inv r f e :
  r ≫= f = Err e -> r = Err e \/ exists a, r = Ok a /\ f a = Err e.
Proof. destruct r; simpl; [eauto | intros [= ->]; auto]. Qed.

Lemma is_Ok_true r : is_Ok r = true <-> exists a, r = Ok a.
Proof. destruct r; simpl; split; eauto; [discriminate | intros [? [=]]]. Qed.

End Results.

Lemma errors_of_nil_Ok {E A} (r : result (list E) A) :
  errors_of r = [] -> (forall es, r = Err es -> es = []).
Proof. intros H es ->. exact H. Qed.

(** ** Lemmas on folds and sums *)

Section Folds.
Context {A B : Type}.

(** An invariant of the accumulator that every step keeps holds at the end. *)
Lemma foldl_invariant (P : A -> Prop) (Q : B -> Prop) (f : A -> B -> A) l a :
  (forall a b, P a -> Q b -> P (f a b)) ->
  P a -> Forall Q l -> P (foldl f a l).
Proof.
  intros Hstep. revert a.
  induction l as [|b l IH]; intros a Ha Hl; simpl; [exact Ha|].
  inv Hl. apply IH; auto.
Qed.

End Folds.

Lemma foldl_add_shift (l : list Z) (a : Z) :
  foldl Z.add a l = (a + foldl Z.add 0 l)%Z.
Proof.
  revert a. induction l as [|x l IH]; intros a; simpl; [lia|].
  rewrite (IH (a + x)%Z), (IH (0 + x)%Z). lia.
Qed.

Lemma py_sum_int_nil : py_sum_int [] = 0%Z.
Proof. reflexivity. Qed.

Lemma py_sum_int_cons x l : py_sum_int (x :: l) = (x + py_sum_int l)%Z.
Proof. unfold py_sum_int. simpl. rewrite foldl_add_shift. lia. Qed.

Lemma py_sum_int_app l1 l2 :
  py_sum_int (l1 ++ l2) = (py_sum_int l1 + py_sum_int l2)%Z.
Proof.
  induction l1 as [|x l1 IH]; simpl; [rewrite py_sum_int_nil; lia|].
  rewrite !py_sum_int_cons, IH. lia.
Qed.

(** The integer sum does not depend on the order of the summands. *)
Lemma py_sum_int_Permutation l1 l2 :
  Permutation l1 l2 -> py_sum_int l1 = py_sum_int l2.
Proof.
  induction 1; rewrite ?py_sum_int_cons; try lia.
Qed.

(** A list of positive integers is no longer than its sum. *)
Lemma py_sum_int_ge_length l :
  Forall (fun x => 0 < x)%Z l -> (Z.of_nat (length l) <= py_sum_int l)%Z.
Proof.
  induction 1 as [|x l Hx _ IH]; [rewrite py_sum_int_nil; simpl; lia|].
  rewrite py_sum_int_cons. simpl length. lia.
Qed.

Lemma py_sum_int_nonneg l :
  Forall (fun x => 0 <= x)%Z l -> (0 <= py_sum_int l)%Z.
Proof.
  induction 1 as [|x l Hx _ IH]; [rewrite py_sum_int_nil; lia|].
  rewrite py_sum_int_cons. lia.
Qed.

#[export] Hint Rewrite py_sum_int_nil py_sum_int_cons py_sum_int_app : order_rw.
#[export] Hint Resolve py_sum_int_nonneg py_sum_int_ge_length : order.
