(* ===== verification/PyFloat.v ===== *)
(** * PyFloat: Python's [float] as IEEE 754 binary64

    The prices of the cart ([CartItem.price], [CartItem.pricePerUnit],
    [Cart.totalPrice]) are Python floats. They are modelled at their format:
    a value of the Standard Library's [spec_float] with precision 53 and
    maximal exponent 1024, with the library's executable round-to-nearest-even
    operations. This file holds the operations the validators use ([>=],
    [>], [-], [abs], [sum]) and the facts about them that do not depend on
    the magnitude of the operands: rounding never produces a NaN and keeps
    the sign, so a sum of non-negative floats is a non-negative float, and
    infinities absorb. *)

From Stdlib Require Import ZArith List Bool Lia.
From Stdlib Require Import SpecFloat.
From stdpp Require Import base tactics list.
From S2P Require Import Prelude.

#[local] Open Scope Z_scope.

(** ** The format and the operations *)

Definition prec : Z := 53.
Definition emax : Z := 1024.

Definition float : Type := spec_float.

Definition fzero : float := S754_zero false.
Definition finf : float := S754_infinity false.
Definition fnan : float := S754_nan.

(** A value of the format: the mantissa and exponent of a finite number are
    canonical. *)
Definition wf_float (x : float) : bool := valid_binary prec emax x.

Definition fadd : float -> float -> float := SFadd prec emax.
Definition fsub : float -> float -> float := SFsub prec emax.
Definition fdiv : float -> float -> float := SFdiv prec emax.
Definition fabs : float -> float := SFabs.
Definition flt : float -> float -> bool := SFltb.
Definition fle : float -> float -> bool := SFleb.

(** Python's [float(n)] for an integer [n]: rounded to nearest, ties to even. *)
Definition float_of_Z (n : Z) : float := binary_normalize prec emax n 0 false.

(** The float a decimal literal [n / 10^k] denotes (for [n] and [10^k] below
    2^53, the correctly rounded quotient is the nearest float). *)
Definition float_of_decimal (n : Z) (k : Z) : float :=
  fdiv (float_of_Z n) (float_of_Z (10 ^ k)).

(** Python's [x >= 0] and [x > y] on floats: false when an operand is NaN. *)
Definition ge0 (x : float) : bool := fle fzero x.
Definition gt (x y : float) : bool := flt y x.

(** Python's [sum] over floats: the integer 0, then one addition per element,
    left to right. (The integer 0 is converted to [0.0] by the first
    addition, and an empty sum is used as [0.0] by the subtraction that
    follows; CPython before 3.12 adds in this plain way.) *)
Definition py_sum_float (l : list float) : float := foldl fadd fzero l.

(** Truth value of a float: [x != 0.0] (a NaN is true). *)
Definition float_truthy (x : float) : bool :=
  match x with S754_zero _ => false | _ => true end.

(** ** Classes of values *)

Definition is_nan (x : float) : bool :=
  match x with S754_nan => true | _ => false end.

Definition is_inf (x : float) : bool :=
  match x with S754_infinity _ => true | _ => false end.

Definition is_finite (x : float) : bool :=
  match x with S754_zero _ | S754_finite _ _ _ => true | _ => false end.

(** Zero of either sign, a positive finite number or plus infinity. *)
Definition nonneg (x : float) : bool :=
  match x with
  | S754_zero _ | S754_finite false _ _ | S754_infinity false => true
  | _ => false
  end.

(** [x] is a zero, an infinity or a finite number of sign [s]. *)
Definition has_sign (s : bool) (x : float) : Prop :=
  match x with
  | S754_zero s' | S754_infinity s' | S754_finite s' _ _ => s' = s
  | S754_nan => False
  end.

(** ** Rounding never produces a NaN and keeps the sign *)

Section Rounding.

Definition mant_nonneg (mrs : shr_record) : Prop := 0 <= shr_m mrs.

Lemma shr_1_nonneg mrs : mant_nonneg mrs -> mant_nonneg (shr_1 mrs).
Proof.
  unfold mant_nonneg. destruct mrs as [m r s]; simpl.
  destruct m as [|p|p]; [simpl; lia | | lia].
  destruct p; simpl; lia.
Qed.

Lemma iter_pos_invariant {A} (P : A -> Prop) (f : A -> A) :
  (forall x, P x -> P (f x)) -> forall n x, P x -> P (SpecFloat.iter_pos f n x).
Proof. intros Hf. induction n; simpl; auto. Qed.

Lemma shr_nonneg mrs e n : mant_nonneg mrs -> mant_nonneg (fst (shr mrs e n)).
Proof.
  intros H. destruct n; simpl; auto.
  apply iter_pos_invariant; auto using shr_1_nonneg.
Qed.

Lemma shr_record_of_loc_m m l : shr_m (shr_record_of_loc m l) = m.
Proof. destruct l as [|[]]; reflexivity. Qed.

Lemma shr_fexp_nonneg m e l :
  0 <= m -> mant_nonneg (fst (shr_fexp prec emax m e l)).
Proof.
  intros H. unfold shr_fexp. apply shr_nonneg.
  unfold mant_nonneg. rewrite shr_record_of_loc_m. exact H.
Qed.

Lemma round_nearest_even_nonneg m l : 0 <= m -> 0 <= round_nearest_even m l.
Proof.
  intros H. destruct l as [|[]]; simpl; try lia.
  destruct (Z.even m); lia.
Qed.

Lemma binary_round_aux_sign s m e l :
  0 <= m -> has_sign s (binary_round_aux prec emax s m e l).
Proof.
  intros Hm. unfold binary_round_aux.
  pose proof (shr_fexp_nonneg m e l Hm) as H1.
  destruct (shr_fexp prec emax m e l) as [mrs' e'] eqn:E1. simpl in H1.
  pose proof (shr_fexp_nonneg
    (round_nearest_even (shr_m mrs') (loc_of_shr_record mrs')) e' loc_Exact
    (round_nearest_even_nonneg _ _ H1)) as H2.
  destruct (shr_fexp prec emax _ e' loc_Exact) as [mrs'' e''] eqn:E2.
  simpl in H2. unfold mant_nonneg in H2.
  destruct (shr_m mrs'') as [|p|p]; simpl; [reflexivity| |lia].
  destruct (e'' <=? emax - prec); reflexivity.
Qed.

Lemma binary_round_sign s m e : has_sign s (binary_round prec emax s m e).
Proof.
  unfold binary_round.
  destruct (shl_align m e _) as [mz ez].
  apply binary_round_aux_sign. lia.
Qed.

End Rounding.

(** ** Non-negative floats *)

Lemma ge0_nonneg x : ge0 x = nonneg x.
Proof. destruct x as [[]|[]| |[] m e]; reflexivity. Qed.

Lemma nonneg_not_nan x : nonneg x = true -> is_nan x = false.
Proof. destruct x; simpl; congruence. Qed.

Lemma has_sign_false_nonneg x : has_sign false x -> nonneg x = true.
Proof. destruct x as [s|s| |s m e]; simpl; intros H; subst; done. Qed.

(** The sum of two non-negative floats is a non-negative float: it is not a
    NaN and not negative, whatever the rounding and the overflow. *)
Lemma fadd_nonneg x y :
  nonneg x = true -> nonneg y = true -> nonneg (fadd x y) = true.
Proof.
  destruct x as [sx|[]| |[] mx ex]; simpl; try discriminate;
  destruct y as [sy|[]| |[] my ey]; simpl; try discriminate; intros _ _;
    try reflexivity.
  - destruct sx, sy; reflexivity.
  - apply has_sign_false_nonneg. unfold fadd, SFadd, binary_normalize.
    simpl cond_Zopp. apply binary_round_sign.
Qed.

Lemma py_sum_float_nonneg l :
  Forall (fun x => nonneg x = true) l -> nonneg (py_sum_float l) = true.
Proof.
  intros H. unfold py_sum_float.
  apply (foldl_invariant (fun a => nonneg a = true) (fun b => nonneg b = true));
    auto using fadd_nonneg.
Qed.

(** Plus infinity absorbs every non-negative float. *)
Lemma fadd_inf_l y : nonneg y = true -> fadd finf y = finf.
Proof. destruct y as [s|[]| |[] m e]; simpl; done. Qed.

Lemma fadd_inf_r x : nonneg x = true -> fadd x finf = finf.
Proof. destruct x as [s|[]| |[] m e]; simpl; done. Qed.

Lemma foldl_fadd_inf l :
  Forall (fun x => nonneg x = true) l -> foldl fadd finf l = finf.
Proof.
  induction 1 as [|x l Hx _ IH]; cbn [foldl]; [done|].
  by rewrite fadd_inf_l.
Qed.

(** A sum of non-negative floats one of which is plus infinity is plus
    infinity. *)
Lemma foldl_fadd_In_inf l a :
  nonneg a = true -> Forall (fun x => nonneg x = true) l -> In finf l ->
  foldl fadd a l = finf.
Proof.
  intros Ha Hl. revert a Ha.
  induction Hl as [|x l Hx Hl IH]; intros a Ha Hin; [destruct Hin|].
  cbn [foldl]. destruct Hin as [->|Hin].
  - rewrite fadd_inf_r by done. by apply foldl_fadd_inf.
  - apply IH; auto using fadd_nonneg.
Qed.

Lemma py_sum_float_inf l :
  Forall (fun x => nonneg x = true) l -> In finf l -> py_sum_float l = finf.
Proof. apply foldl_fadd_In_inf. reflexivity. Qed.

(** ** Differences and their absolute value *)

Lemma fabs_nonneg_or_nan x : is_nan (fabs x) = false -> nonneg (fabs x) = true.
Proof. destruct x; simpl; done. Qed.

(** The difference of two plus infinities is a NaN. *)
Lemma fsub_inf_inf : fsub finf finf = fnan.
Proof. reflexivity. Qed.

(** The distance between an infinity and a value that is not infinite is
    plus infinity. *)
Lemma fabs_fsub_inf_l y :
  is_inf y = false -> is_nan y = false -> fabs (fsub finf y) = finf.
Proof. destruct y; simpl; done. Qed.

Lemma fabs_fsub_inf_r x :
  is_inf x = false -> is_nan x = false -> fabs (fsub x finf) = finf.
Proof. destruct x; simpl; done. Qed.

(** No float is greater than a NaN, and plus infinity is greater than every
    finite float. *)
Lemma gt_nan_l y : gt fnan y = false.
Proof. destruct y as [|[]| |[]]; reflexivity. Qed.

Lemma gt_inf_finite y : is_finite y = true -> gt finf y = true.
Proof. destruct y as [|[]| |[]]; simpl; done. Qed.

#[export] Hint Resolve fadd_nonneg py_sum_float_nonneg nonneg_not_nan : order.
