(* ===== verification/PyStr.v ===== *)
(** * PyStr: the operations on Python strings the handler uses

    A Python [str] is modelled as a [string] of 8-bit characters, exact for
    ASCII text: truth value ([if s:]), [s.lower()], [s.upper()],
    [s.split(sep)], indexing the last part ([parts[-1]]), the prefix slice
    ([s[:n]]), concatenation and [sep.join(parts)]; with the facts the
    components share (splitting and joining are inverse, the last part holds
    no separator, case mapping keeps the length), and the occurrence of a
    text in another, which the theorems on the templates are stated with. *)

From Stdlib Require Import ZArith List Bool Lia Ascii String.
From stdpp Require Import base tactics list strings.
From S2P Require Import Prelude.

#[local] Open Scope string_scope.

(** ** Operations *)

(** [if s:] holds for every string but the empty one. *)
Definition str_truthy (s : string) : bool :=
  match s with EmptyString => false | String _ _ => true end.

Definition ascii_in_range (lo hi c : ascii) : bool :=
  (N_of_ascii lo <=? N_of_ascii c)%N && (N_of_ascii c <=? N_of_ascii hi)%N.

Definition ascii_lower (c : ascii) : ascii :=
  if ascii_in_range "A" "Z" c then ascii_of_N (N_of_ascii c + 32) else c.

Definition ascii_upper (c : ascii) : ascii :=
  if ascii_in_range "a" "z" c then ascii_of_N (N_of_ascii c - 32) else c.

Fixpoint str_map (f : ascii -> ascii) (s : string) : string :=
  match s with
  | EmptyString => EmptyString
  | String c s' => String (f c) (str_map f s')
  end.

Definition py_lower : string -> string := str_map ascii_lower.
Definition py_upper : string -> string := str_map ascii_upper.

(** [s.split(sep)] for a one-character separator: the parts between the
    occurrences of [sep], empty parts included; never the empty list. *)
Fixpoint py_split (sep : ascii) (s : string) : list string :=
  match s with
  | EmptyString => [EmptyString]
  | String c s' =>
      if Ascii.eqb c sep then EmptyString :: py_split sep s'
      else match py_split sep s' with
           | [] => [String c EmptyString]
           | w :: ws => String c w :: ws
           end
  end.

(** [parts[-1]]; the default stands for the [IndexError] of an empty list,
    which [py_split] never returns. *)
Definition py_last (parts : list string) : string := List.last parts EmptyString.

(** [s[:n]]: the first [n] characters, or all of [s] when it is shorter. *)
Fixpoint py_prefix (n : nat) (s : string) : string :=
  match n, s with
  | S n', String c s' => String c (py_prefix n' s')
  | _, _ => EmptyString
  end.

(** [sep.join(parts)]. *)
Fixpoint py_join (sep : string) (parts : list string) : string :=
  match parts with
  | [] => EmptyString
  | [w] => w
  | w :: ws => w +:+ sep +:+ py_join sep ws
  end.

(** [c in s] for a character. *)
Fixpoint str_contains (c : ascii) (s : string) : bool :=
  match s with
  | EmptyString => false
  | String c' s' => Ascii.eqb c' c || str_contains c s'
  end.

(** Every character of [s] satisfies [p]. *)
Fixpoint str_forall (p : ascii -> bool) (s : string) : bool :=
  match s with
  | EmptyString => true
  | String c s' => p c && str_forall p s'
  end.

(** [s.startswith(p)], [s.endswith(p)] and [p in s] for a text [p]. *)
Fixpoint str_startswith (p s : string) : bool :=
  match p, s with
  | EmptyString, _ => true
  | String a p', String b s' => Ascii.eqb a b && str_startswith p' s'
  | String _ _, EmptyString => false
  end.

Fixpoint str_endswith (p s : string) : bool :=
  String.eqb p s ||
  match s with
  | EmptyString => false
  | String _ s' => str_endswith p s'
  end.

Fixpoint str_in (p s : string) : bool :=
  str_startswith p s ||
  match s with
  | EmptyString => false
  | String _ s' => str_in p s'
  end.

(** [p] occurs in [s]: the text before it, [p], the text after it. *)
Definition str_infix (p s : string) : Prop := exists a b, s = a +:+ p +:+ b.

(** ** Facts *)

Lemma str_truthy_false s : str_truthy s = false <-> s = "".
Proof. destruct s; simpl; split; congruence. Qed.

(** [String.append] is never unfolded by [simpl]: its two equations. *)
Lemma str_append_nil_l (b : string) : "" +:+ b = b.
Proof. reflexivity. Qed.

Lemma str_append_cons c (a b : string) : String c a +:+ b = String c (a +:+ b).
Proof. reflexivity. Qed.

Ltac str_simpl :=
  simpl in *;
  repeat (progress (rewrite ?str_append_cons, ?str_append_nil_l in *; simpl in *)).

Lemma str_append_assoc (a b c : string) : (a +:+ b) +:+ c = a +:+ (b +:+ c).
Proof. induction a as [|x a IH]; str_simpl; [done|]. by f_equal. Qed.

Lemma str_append_nil_r (a : string) : a +:+ "" = a.
Proof. induction a as [|x a IH]; str_simpl; [done|]. by f_equal. Qed.

Lemma str_length_append (a b : string) :
  String.length (a +:+ b) = (String.length a + String.length b)%nat.
Proof. induction a as [|x a IH]; str_simpl; [done|]. by f_equal. Qed.

Lemma str_map_length f s : String.length (str_map f s) = String.length s.
Proof. induction s as [|c s IH]; simpl; [done|]. by f_equal. Qed.

Lemma str_map_append f (a b : string) :
  str_map f (a +:+ b) = str_map f a +:+ str_map f b.
Proof. induction a as [|x a IH]; str_simpl; [done|]. by f_equal. Qed.

Lemma str_forall_map p f s :
  (forall c, p (f c) = true) -> str_forall p (str_map f s) = true.
Proof. intros H. induction s as [|c s IH]; simpl; [done|]. by rewrite H, IH. Qed.

Lemma str_forall_append p (a b : string) :
  str_forall p (a +:+ b) = str_forall p a && str_forall p b.
Proof. induction a as [|x a IH]; str_simpl; [done|]. by rewrite IH, andb_assoc. Qed.

Lemma str_forall_impl (p q : ascii -> bool) s :
  (forall c, p c = true -> q c = true) ->
  str_forall p s = true -> str_forall q s = true.
Proof.
  intros H. induction s as [|c s IH]; simpl; [done|].
  intros [Hc Hs]%andb_true_iff. rewrite (H _ Hc). simpl. auto.
Qed.

Lemma str_contains_append c (a b : string) :
  str_contains c (a +:+ b) = str_contains c a || str_contains c b.
Proof. induction a as [|x a IH]; str_simpl; [done|]. by rewrite IH, orb_assoc. Qed.

(** *** Case mapping *)

Lemma ascii_lower_idemp c : ascii_lower (ascii_lower c) = ascii_lower c.
Proof. destruct c as [[] [] [] [] [] [] [] []]; reflexivity. Qed.

Lemma ascii_upper_idemp c : ascii_upper (ascii_upper c) = ascii_upper c.
Proof. destruct c as [[] [] [] [] [] [] [] []]; reflexivity. Qed.

Lemma str_map_idemp f s :
  (forall c, f (f c) = f c) -> str_map f (str_map f s) = str_map f s.
Proof.
  intros H. induction s as [|c s IH]; cbn [str_map]; [done|]. by rewrite H, IH.
Qed.

Lemma py_lower_idemp s : py_lower (py_lower s) = py_lower s.
Proof. apply str_map_idemp, ascii_lower_idemp. Qed.

(** Lowering a character never produces or removes a given character that
    is not a letter. *)
Lemma ascii_lower_eqb_nonletter c sep :
  ascii_in_range "A" "Z" sep = false -> ascii_in_range "a" "z" sep = false ->
  Ascii.eqb (ascii_lower c) sep = Ascii.eqb c sep.
Proof.
  intros H1 H2.
  destruct (Ascii.eqb_spec c sep) as [->|Hne].
  - unfold ascii_lower. rewrite H1. apply Ascii.eqb_refl.
  - apply Ascii.eqb_neq. intros <-. revert H1 H2 Hne. clear.
    destruct c as [[] [] [] [] [] [] [] []]; vm_compute; congruence.
Qed.

(** *** Prefix *)

Lemma py_prefix_length n s :
  String.length (py_prefix n s) = Nat.min n (String.length s).
Proof.
  revert s. induction n as [|n IH]; intros [|c s]; simpl; try done.
  by rewrite IH.
Qed.

Lemma py_prefix_append n (a b : string) :
  String.length a = n -> py_prefix n (a +:+ b) = a.
Proof.
  revert a. induction n as [|n IH]; intros [|c a] H; simplify_eq/=; [done|].
  by rewrite IH.
Qed.

Lemma py_prefix_map f n s : py_prefix n (str_map f s) = str_map f (py_prefix n s).
Proof.
  revert s. induction n as [|n IH]; intros [|c s]; simpl; try done.
  by rewrite IH.
Qed.

(** *** Split, last part, join *)

Lemma py_split_nonempty sep s : py_split sep s <> [].
Proof.
  destruct s as [|c s]; simpl; [done|].
  destruct (Ascii.eqb c sep); [done|]. by destruct (py_split sep s).
Qed.

(** Joining the parts with the separator gives the string back. *)
Lemma py_join_split sep s : py_join (String sep "") (py_split sep s) = s.
Proof.
  induction s as [|c s IH]; simpl; [done|].
  destruct (Ascii.eqb_spec c sep) as [->|Hne].
  - pose proof (py_split_nonempty sep s).
    destruct (py_split sep s) as [|w ws] eqn:E; [done|].
    change (py_join _ ("" :: w :: ws)) with
      (String sep (py_join (String sep "") (w :: ws))).
    by rewrite IH.
  - pose proof (py_split_nonempty sep s).
    destruct (py_split sep s) as [|w ws] eqn:E; [done|].
    destruct ws as [|w' ws]; simpl in *; by rewrite <- IH.
Qed.

(** No part holds the separator. *)
Lemma py_split_no_sep sep s :
  Forall (fun w => str_contains sep w = false) (py_split sep s).
Proof.
  induction s as [|c s IH]; simpl; [by repeat constructor|].
  destruct (Ascii.eqb_spec c sep) as [->|Hne]; [by constructor|].
  destruct (py_split sep s) as [|w ws]; inv IH; constructor; simpl; auto.
  - by apply orb_false_iff, conj; [apply Ascii.eqb_neq|].
  - apply orb_false_iff. split; [by apply Ascii.eqb_neq | done].
Qed.

Lemma py_last_cons w w' ws : py_last (w :: w' :: ws) = py_last (w' :: ws).
Proof. reflexivity. Qed.

Lemma py_last_in parts : parts <> [] -> In (py_last parts) parts.
Proof.
  induction parts as [|w [|w' ws] IH]; [done|by left|].
  intros _. right. rewrite py_last_cons. by apply IH.
Qed.

(** The last part of a split holds no separator. *)
Lemma py_last_split_no_sep sep s :
  str_contains sep (py_last (py_split sep s)) = false.
Proof.
  pose proof (py_split_no_sep sep s) as H.
  rewrite Forall_forall in H.
  apply H, list_elem_of_In, py_last_in, py_split_nonempty.
Qed.

(** A string without the separator is its only part. *)
Lemma py_split_no_occurrence sep s :
  str_contains sep s = false -> py_split sep s = [s].
Proof.
  induction s as [|c s IH]; simpl; [done|].
  intros [Hc Hs]%orb_false_iff. rewrite Hc, (IH Hs). done.
Qed.

(** A first part without the separator is the first part of the split. *)
Lemma py_split_append sep (a b : string) :
  str_contains sep a = false ->
  py_split sep (a +:+ String sep b) = a :: py_split sep b.
Proof.
  induction a as [|c a IH]; simpl; [by rewrite Ascii.eqb_refl|].
  intros [Hc Ha]%orb_false_iff. by rewrite Hc, (IH Ha).
Qed.

(** The last part of [a ++ sep ++ b] is the last part of [b]. *)
Lemma py_last_split_append sep (a b : string) :
  py_last (py_split sep (a +:+ String sep b)) = py_last (py_split sep b).
Proof.
  induction a as [|c a IH]; simpl.
  - rewrite Ascii.eqb_refl. pose proof (py_split_nonempty sep b).
    by destruct (py_split sep b).
  - pose proof (py_split_nonempty sep (a +:+ String sep b)) as Hne.
    destruct (Ascii.eqb c sep).
    + destruct (py_split sep (a +:+ String sep b)) eqn:E; [done|].
      rewrite py_last_cons. by rewrite <- IH.
    + rewrite <- IH.
      destruct (py_split sep (a +:+ String sep b)) as [|w [|w' ws]] eqn:E;
        [done| |done].
      (* one part only: impossible, the string holds a separator *)
      exfalso. pose proof (py_split_no_sep sep (a +:+ String sep b)) as Hf.
      pose proof (py_join_split sep (a +:+ String sep b)) as Hj.
      rewrite E in Hf, Hj. simpl in Hj. subst w. inv Hf.
      rewrite str_contains_append in *. simpl in *.
      rewrite Ascii.eqb_refl in *. simpl in *.
      by rewrite orb_true_r in *.
Qed.

(** Lowering commutes with taking the last part, for a separator that is
    not a letter. *)
Lemma py_split_lower sep s :
  ascii_in_range "A" "Z" sep = false -> ascii_in_range "a" "z" sep = false ->
  py_split sep (py_lower s) = map py_lower (py_split sep s).
Proof.
  intros H1 H2. induction s as [|c s IH]; simpl; [done|].
  rewrite ascii_lower_eqb_nonletter by done.
  destruct (Ascii.eqb c sep); simpl; [by rewrite <- IH|].
  unfold py_lower in *. simpl. rewrite IH.
  by destruct (py_split sep s).
Qed.

(** *** Occurrences of a text *)

Lemma str_startswith_spec p s : str_startswith p s = true <-> exists b, s = p +:+ b.
Proof.
  revert s. induction p as [|a p IH]; intros [|b s]; str_simpl;
    try (split; [eauto || done | by intros [? ?]]).
  rewrite andb_true_iff, IH. split.
  - intros [->%Ascii.eqb_eq [r ->]]. eauto.
  - intros [r [= -> ->]]. rewrite Ascii.eqb_refl. eauto.
Qed.

Lemma str_endswith_spec p s : str_endswith p s = true <-> exists a, s = a +:+ p.
Proof.
  induction s as [|c s IH]; simpl; rewrite orb_true_iff, String.eqb_eq.
  - split; [intros [-> | ?]; [by exists "" | done] | intros [[|? ?] H]; str_simpl; eauto].
    discriminate.
  - rewrite IH. split.
    + intros [-> | [a ->]]; [by exists "" | by exists (String c a)].
    + intros [[|x a] H]; str_simpl; [by left | injection H as -> ->; eauto].
Qed.

Lemma str_infix_refl s : str_infix s s.
Proof. exists "", "". by rewrite str_append_nil_r. Qed.

Lemma str_infix_here (p b : string) : str_infix p (p +:+ b).
Proof. by exists "", b. Qed.

Lemma str_infix_app_r (p a b : string) : str_infix p b -> str_infix p (a +:+ b).
Proof. intros (x & y & ->). exists (a +:+ x), y. by rewrite str_append_assoc. Qed.

Lemma str_infix_app_l (p a b : string) : str_infix p a -> str_infix p (a +:+ b).
Proof. intros (x & y & ->). exists x, (y +:+ b). by rewrite !str_append_assoc. Qed.

Lemma str_infix_trans (p q s : string) : str_infix p q -> str_infix q s -> str_infix p s.
Proof. intros Hp (x & y & ->). by apply str_infix_app_r, str_infix_app_l. Qed.

(** [p] between the end [l] of the text before it and the start [r] of the
    text after it. *)
Lemma str_infix_between (l r p a b : string) :
  str_endswith l a = true -> str_startswith r b = true ->
  str_infix (l +:+ p +:+ r) (a +:+ p +:+ b).
Proof.
  intros [a' ->]%str_endswith_spec [b' ->]%str_startswith_spec.
  exists a', b'. by rewrite !str_append_assoc.
Qed.

Lemma str_in_spec p s : str_in p s = true <-> str_infix p s.
Proof.
  induction s as [|c s IH]; simpl; rewrite orb_true_iff, str_startswith_spec.
  - split; [intros [[b ->] | ?]; [apply str_infix_here | done]|].
    intros ([|? ?] & b & H); str_simpl; [eauto | discriminate].
  - rewrite IH. split.
    + intros [[b ->] | H]; [apply str_infix_here|].
      by apply (str_infix_app_r p (String c "") s).
    + intros ([|x a] & b & H); str_simpl; [eauto|].
      injection H as -> ->. right. by exists a, b.
Qed.

(** An occurrence in one of the parts is an occurrence in the joined text. *)
Lemma str_infix_join (p sep w : string) parts :
  In w parts -> str_infix p w -> str_infix p (py_join sep parts).
Proof.
  induction parts as [|x [|y parts] IH]; [done| |].
  - by intros [-> | []].
  - change (py_join sep (x :: y :: parts))
      with (x +:+ sep +:+ py_join sep (y :: parts)).
    intros [-> | Hin] Hp.
    + by apply str_infix_app_l.
    + by apply str_infix_app_r, str_infix_app_r, IH.
Qed.

(** Shows that a text occurs in a concatenation, part by part. *)
Ltac infix_solve :=
  repeat first
    [ apply str_infix_refl
    | apply str_infix_here
    | apply str_infix_between; vm_compute; reflexivity
    | apply str_infix_app_r ].

#[export] Hint Rewrite str_append_assoc str_append_nil_r str_length_append
  str_map_length str_forall_append str_contains_append : order_rw.
#[export] Hint Resolve py_split_nonempty py_last_split_no_sep : order.
