(* ===== verification/Format.v ===== *)
(** * Format: how the templates print numbers

    The f-strings of the templates of [src/lambda/Place-Order.py] print an
    integer with [{qty}] and [{total_qty}] (lines 146 and 184), which is
    [str(n)], and a float with [{price:.2f}] and [{total_price:.2f}] (lines
    142 and 185): the decimal text with two digits after the point that is
    nearest to the exact value of the float, a tie going to the even digit;
    an infinity prints as [inf] and a NaN as [nan].

    [format_2f] computes that text from the mantissa and the exponent with
    integer arithmetic. [cents] is the number of hundredths it prints and
    [parse_cents] reads a printed text back; the theorems are the bound on the
    rounding error and the round trips between texts and numbers. *)

From Stdlib Require Import ZArith NArith List Bool Lia Ascii String SpecFloat.
From Stdlib Require Import DecimalString DecimalN DecimalZ DecimalPos.
From stdpp Require Import base tactics option list strings.
From S2P Require Import Prelude PyFloat PyStr.

#[local] Open Scope string_scope.

(** ** Integers *)

(** [str(n)] for a natural number and for an integer. *)
Definition str_of_N (n : N) : string := NilZero.string_of_uint (N.to_uint n).
Definition str_of_Z (z : Z) : string := NilZero.string_of_int (Z.to_int z).

(** [int(s)] on the texts [str] prints. *)
Definition parse_N (s : string) : option N := N.of_uint <$> NilZero.uint_of_string s.
Definition parse_Z (s : string) : option Z := Z.of_int <$> NilZero.int_of_string s.

(** ** Floats with two decimals *)

(** The integer nearest to [num / den], the even one when two are as near. *)
Definition round_half_even (num den : N) : N :=
  let q := (num / den)%N in
  let r := (num mod den)%N in
  match (2 * r ?= den)%N with
  | Lt => q
  | Gt => (q + 1)%N
  | Eq => if N.even q then q else (q + 1)%N
  end.

(** The hundredths of the absolute value of a finite float [m * 2^e],
    rounded. *)
Definition cents_of (m : positive) (e : Z) : N :=
  match e with
  | Z0 => (Npos m * 100)%N
  | Zpos p => (Npos m * 2 ^ Npos p * 100)%N
  | Zneg p => round_half_even (Npos m * 100) (2 ^ Npos p)
  end.

Definition cents (x : float) : option N :=
  match x with
  | S754_zero _ => Some 0%N
  | S754_finite _ m e => Some (cents_of m e)
  | S754_infinity _ | S754_nan => None
  end.

(** The sign that is printed: of a negative number, zero included. *)
Definition sign_bit (x : float) : bool :=
  match x with
  | S754_zero s | S754_infinity s | S754_finite s _ _ => s
  | S754_nan => false
  end.

Definition sign_str (s : bool) : string := if s then "-" else "".

(** Two digits, with a leading zero below ten. *)
Definition two_digits (n : N) : string :=
  if (n <? 10)%N then "0" +:+ str_of_N n else str_of_N n.

(** A number of hundredths as units, point, hundredths. *)
Definition format_cents (c : N) : string :=
  str_of_N (c / 100) +:+ "." +:+ two_digits (c mod 100).

(** [f"{x:.2f}"] *)
Definition format_2f (x : float) : string :=
  match cents x with
  | Some c => sign_str (sign_bit x) +:+ format_cents c
  | None =>
      match x with
      | S754_infinity s => sign_str s +:+ "inf"
      | _ => "nan"
      end
  end.

(** Reading back what [format_cents] prints: digits, a point, two digits. *)
Definition parse_cents (s : string) : option N :=
  match py_split "." s with
  | [units; hundredths] =>
      if (String.length hundredths =? 2)%nat then
        u ← parse_N units; h ← parse_N hundredths; Some (u * 100 + h)%N
      else None
  | _ => None
  end.

(** Reading back what [format_2f] prints for a finite float: the sign and
    the hundredths. *)
Definition parse_2f (s : string) : option (bool * N) :=
  match s with
  | String "-" s' => pair true <$> parse_cents s'
  | _ => pair false <$> parse_cents s
  end.

(** ** Integers: printing and reading are inverse *)

Lemma N_to_uint_nonnil n : N.to_uint n <> Decimal.Nil.
Proof. destruct n; [done|]. apply Unsigned.to_uint_nonnil. Qed.

Lemma parse_str_of_N n : parse_N (str_of_N n) = Some n.
Proof.
  unfold parse_N, str_of_N. rewrite NilZero.usu by apply N_to_uint_nonnil.
  simpl. by rewrite DecimalN.Unsigned.of_to.
Qed.

Lemma str_of_N_inj n n' : str_of_N n = str_of_N n' -> n = n'.
Proof.
  intros H. apply (f_equal parse_N) in H. rewrite !parse_str_of_N in H. by injection H.
Qed.

Lemma parse_str_of_Z z : parse_Z (str_of_Z z) = Some z.
Proof.
  unfold parse_Z, str_of_Z. rewrite NilZero.isi.
  - simpl. by rewrite DecimalZ.of_to.
  - destruct z; simpl; try done; intros [= H]; by apply Unsigned.to_uint_nonnil in H.
  - destruct z; simpl; try done; intros [= H]; by apply Unsigned.to_uint_nonnil in H.
Qed.

(** What [parse_N] reads is what [str_of_N] prints, up to leading zeros. *)
Lemma str_of_parse_N s n :
  parse_N s = Some n -> str_of_N n = s \/ exists s', s = String "0" s'.
Proof.
  unfold parse_N, str_of_N. destruct (NilZero.uint_of_string s) as [d|] eqn:E; [|done].
  intros [= <-]. rewrite DecimalN.Unsigned.to_of. apply NilZero.sus in E.
  destruct d; simpl in *; subst; eauto.
Qed.

(** The characters of a printed number are digits. *)
Definition is_digit_char (c : ascii) : bool := ascii_in_range "0" "9" c.

Lemma string_of_uint_digits d :
  str_forall is_digit_char (NilEmpty.string_of_uint d) = true.
Proof. induction d; simpl; try done. Qed.

Lemma str_of_N_digits n : str_forall is_digit_char (str_of_N n) = true.
Proof.
  unfold str_of_N, NilZero.string_of_uint.
  destruct (N.to_uint n) eqn:E; try done; rewrite <- E; apply string_of_uint_digits.
Qed.

Lemma str_of_N_nonempty n : str_of_N n <> "".
Proof.
  unfold str_of_N, NilZero.string_of_uint.
  pose proof (N_to_uint_nonnil n). by destruct (N.to_uint n).
Qed.

Lemma digits_no_char c s :
  is_digit_char c = false -> str_forall is_digit_char s = true ->
  str_contains c s = false.
Proof.
  intros Hc. induction s as [|x s IH]; simpl; [done|].
  intros [Hx Hs]%andb_true_iff. rewrite (IH Hs), orb_false_r.
  destruct (Ascii.eqb_spec x c) as [->|]; congruence.
Qed.

(** ** Two digits *)

Lemma two_digits_spec n :
  (n < 100)%N ->
  String.length (two_digits n) = 2%nat /\
  str_forall is_digit_char (two_digits n) = true /\
  parse_N (two_digits n) = Some n.
Proof.
  intros Hn.
  assert (forallb (fun k =>
            (String.length (two_digits k) =? 2)%nat &&
            str_forall is_digit_char (two_digits k) &&
            bool_decide (parse_N (two_digits k) = Some k))
          (map N.of_nat (seq 0 100)) = true) as Hall by (by vm_compute).
  rewrite forallb_forall in Hall. specialize (Hall n).
  rewrite !andb_true_iff, Nat.eqb_eq, bool_decide_eq_true in Hall.
  apply and_assoc, Hall, in_map_iff. exists (N.to_nat n).
  split; [lia|]. apply in_seq. lia.
Qed.

(** ** Rounding *)

(** The rounded quotient is within half a unit of the exact one, and it is
    even when the exact one lies halfway between two integers. *)
Lemma round_half_even_spec num den :
  (0 < den)%N ->
  let d := (2 * Z.abs (Z.of_N num - Z.of_N (round_half_even num den) * Z.of_N den))%Z in
  (d <= Z.of_N den)%Z /\
  (d = Z.of_N den -> N.even (round_half_even num den) = true).
Proof.
  intros Hd. unfold round_half_even. cbv zeta.
  pose proof (N.mod_lt num den ltac:(lia)) as Hlt.
  pose proof (N.div_mod num den ltac:(lia)) as Hdm.
  set (q := (num / den)%N) in *. set (r := (num mod den)%N) in *.
  assert (Z.of_N num = Z.of_N den * Z.of_N q + Z.of_N r)%Z as Hn by lia.
  assert (Z.of_N num - Z.of_N q * Z.of_N den = Z.of_N r)%Z
    as H0 by (rewrite Hn; ring).
  assert (Z.of_N num - Z.of_N (q + 1) * Z.of_N den = Z.of_N r - Z.of_N den)%Z
    as H1 by (rewrite Hn, N2Z.inj_add; change (Z.of_N 1) with 1%Z; ring).
  destruct (N.compare_spec (2 * r) den) as [He|Hl|Hg];
    [destruct (N.even q) eqn:Eq|..]; rewrite ?H0, ?H1; (split; [lia|]); try lia.
  - done.
  - intros _. by rewrite N.add_1_r, N.even_succ, <- N.negb_even, Eq.
Qed.

(** An exact quotient is kept. *)
Lemma round_half_even_exact q den :
  (0 < den)%N -> round_half_even (q * den) den = q.
Proof.
  intros Hd. unfold round_half_even. cbv zeta.
  rewrite N.div_mul, N.Div0.mod_mul by lia.
  destruct (N.compare_spec (2 * 0) den); lia.
Qed.

(** ** The printed text *)

Lemma format_cents_split c :
  py_split "." (format_cents c) = [str_of_N (c / 100); two_digits (c mod 100)].
Proof.
  unfold format_cents.
  destruct (two_digits_spec (c mod 100)) as (_ & Hd & _); [apply N.mod_lt; lia|].
  change ("." +:+ ?t) with (String "." t).
  rewrite py_split_append by (apply digits_no_char; [done | apply str_of_N_digits]).
  rewrite py_split_no_occurrence; [done|]. by apply digits_no_char.
Qed.

Lemma parse_format_cents c : parse_cents (format_cents c) = Some c.
Proof.
  unfold parse_cents. rewrite format_cents_split.
  destruct (two_digits_spec (c mod 100)) as (-> & _ & Hp); [apply N.mod_lt; lia|].
  simpl. rewrite parse_str_of_N, Hp. simpl. f_equal.
  pose proof (N.div_mod c 100 ltac:(lia)). lia.
Qed.

Lemma format_cents_no_minus c : exists x s, format_cents c = String x s /\ x <> "-"%char.
Proof.
  unfold format_cents. pose proof (str_of_N_nonempty (c / 100)) as Hn.
  pose proof (str_of_N_digits (c / 100)) as Hd.
  destruct (str_of_N (c / 100)) as [|x s]; [done|]. str_simpl.
  exists x, (s +:+ "." +:+ two_digits (c mod 100)). split; [done|].
  apply andb_true_iff in Hd as [Hx _]. by intros ->.
Qed.

(** A text that does not start with the minus sign is read as unsigned. *)
Lemma parse_2f_unsigned x s :
  x <> "-"%char -> parse_2f (String x s) = pair false <$> parse_cents (String x s).
Proof.
  intros Hx. unfold parse_2f.
  destruct x as [[|] [|] [|] [|] [|] [|] [|] [|]]; done.
Qed.

(** The hundredths printed for a finite float [m * 2^e], against its exact
    value, both scaled by [2^k] for [k] the larger of [0] and [-e]. *)
Lemma cents_of_spec m e :
  let k := Z.max 0 (- e) in
  let d := (2 * Z.abs (Z.pos m * 100 * 2 ^ (e + k) - Z.of_N (cents_of m e) * 2 ^ k))%Z in
  (d <= 2 ^ k)%Z /\ (d = 2 ^ k -> N.even (cents_of m e) = true)%Z.
Proof.
  destruct e as [|p|p]; cbv zeta; unfold cents_of.
  - rewrite Z.max_l by lia. simpl. lia.
  - rewrite Z.max_l, Z.add_0_r, !N2Z.inj_mul, N2Z.inj_pow by lia. simpl Z.of_N.
    change (2 ^ 0)%Z with 1%Z. lia.
  - rewrite Z.max_r by lia. change (- Z.neg p)%Z with (Z.pos p).
    replace (Z.neg p + Z.pos p)%Z with 0%Z by lia. change (2 ^ 0)%Z with 1%Z.
    pose proof (round_half_even_spec (N.pos m * 100) (2 ^ N.pos p)) as H.
    cbv zeta in H. rewrite N2Z.inj_mul, N2Z.inj_pow in H. simpl Z.of_N in H.
    rewrite Z.mul_1_r. apply H, N2Z.inj_lt. rewrite N2Z.inj_pow. simpl. lia.
Qed.

(** ** Theorems *)

(** C27. Reading back the text [format_2f] prints for a zero or a finite
    float gives the sign and the hundredths that were printed: the text is
    an optional minus sign, the digits of the units, a point and two digits,
    and nothing is lost between the number of hundredths and its text. *)
Theorem format_2f_roundtrip x c :
  cents x = Some c -> parse_2f (format_2f x) = Some (sign_bit x, c).
Proof.
  intros Hc. unfold format_2f. rewrite Hc.
  destruct (format_cents_no_minus c) as (a & s & Hf & Ha).
  destruct (sign_bit x); unfold sign_str; str_simpl.
  - by rewrite parse_format_cents.
  - rewrite Hf, parse_2f_unsigned, <- Hf, parse_format_cents; done.
Qed.

(** C29. The amount [format_2f] prints for a finite float is the multiple of
    one hundredth nearest to the exact value [m * 2^e] of the float: it
    differs from it by half a hundredth at most (both sides of the
    inequality are scaled by [2^k], [k] the larger of [0] and [-e], which
    makes them integers), and when the value lies halfway between two
    hundredths the even one is printed. *)
Theorem format_2f_nearest s m e :
  let x := S754_finite s m e in
  let k := Z.max 0 (- e) in
  exists c,
    format_2f x = sign_str s +:+ format_cents c /\
    (2 * Z.abs (Z.pos m * 100 * 2 ^ (e + k) - Z.of_N c * 2 ^ k) <= 2 ^ k)%Z /\
    ((2 * Z.abs (Z.pos m * 100 * 2 ^ (e + k) - Z.of_N c * 2 ^ k) = 2 ^ k)%Z ->
     N.even c = true).
Proof.
  cbv zeta. exists (cents_of m e). split; [done|]. apply cents_of_spec.
Qed.

(** The printed text of a float that passed [Field(ge=0)]: [inf], or an
    unsigned amount, or the amount of the negative zero with its sign. *)
Lemma format_2f_nonneg x :
  nonneg x = true ->
  x = S754_infinity false /\ format_2f x = "inf" \/
  x = S754_zero true /\ format_2f x = "-0.00" \/
  exists c, cents x = Some c /\ format_2f x = format_cents c.
Proof.
  destruct x as [[]|[]| |[] m e]; try done; intros _; eauto.
Qed.

(** ** Examples *)

(** Halfway cases go to the even hundredth; 2.675 is a float below the
    decimal 2.675. *)
Example format_2f_examples :
  format_2f (float_of_decimal 125 3) = "0.12" /\
  format_2f (float_of_decimal 375 3) = "0.38" /\
  format_2f (float_of_decimal 2675 3) = "2.67" /\
  format_2f (float_of_decimal 5 1) = "0.50" /\
  format_2f (float_of_Z 20) = "20.00" /\
  format_2f (float_of_decimal (-1) 3) = "-0.00" /\
  format_2f (S754_infinity false) = "inf" /\
  format_2f S754_nan = "nan".
Proof. by vm_compute. Qed.

Example str_of_Z_examples :
  str_of_Z 0 = "0" /\ str_of_Z 1203 = "1203" /\ str_of_Z (-45) = "-45".
Proof. by vm_compute. Qed.

Lemma format_2f_roundtrip_witness :
  parse_2f (format_2f (float_of_decimal 2675 3)) = Some (false, 267%N).
Proof. apply (format_2f_roundtrip (float_of_decimal 2675 3) 267%N). reflexivity. Defined.

(** 0.125 is [2^52 * 2^-55]: halfway between 0.12 and 0.13. *)
Lemma format_2f_nearest_witness :
  exists c,
    format_2f (S754_finite false 4503599627370496 (-55)) = "" +:+ format_cents c /\
    (2 * Z.abs (4503599627370496 * 100 * 2 ^ 0 - Z.of_N c * 2 ^ 55) <= 2 ^ 55)%Z /\
    ((2 * Z.abs (4503599627370496 * 100 * 2 ^ 0 - Z.of_N c * 2 ^ 55) = 2 ^ 55)%Z ->
     N.even c = true).
Proof. apply (format_2f_nearest false 4503599627370496 (-55)). Defined.
