(* ===== verification/Schema.v ===== *)
(** * Schema: the pydantic models [CartItem] and [Cart] and their validators

    Models lines 45-82 of [src/lambda/Place-Order.py]: the two models, their
    field constraints ([Field(gt=0)], [Field(ge=0)]) and the three validators
    of [Cart], composed the way pydantic runs them:
    - fields are validated in declaration order ([items], [totalQty],
      [totalPrice]); the errors of all fields are collected;
    - for one field, the constraint of its type runs first, then the
      validators of the class in definition order, and the first failure
      ends the chain of that field;
    - [values] holds the fields validated so far, and only those that passed.

    The values are those pydantic hands to the validators after coercion: an
    [int] is a [Z], a [float] a binary64 value ([PyFloat]), the dictionary
    [items] an association list in insertion order (the order in which
    [sum] adds the prices). Coercion from JSON and missing fields are not
    modelled. *)

From Stdlib Require Import ZArith List Bool Lia Permutation SpecFloat.
From stdpp Require Import base tactics option list strings.
From S2P Require Import Prelude PyFloat PyStr.

#[local] Open Scope Z_scope.

(** ** Data *)

Record CartItem := {
  qty : Z;
  price : float;
  pricePerUnit : float;
  imageUrl : string;
}.

Record Cart := {
  items : list (string * CartItem);
  totalQty : Z;
  totalPrice : float;
}.

Record OrderRequest := {
  phone : string;
  email : string;
  verification : string;
  shipping : string;
  order : Cart;
  cf_token : string;
}.

(** What was wrong with one field. *)
Inductive ErrorType :=
| NotGt (bound : Z)            (* Field(gt=bound) does not hold *)
| NotGe (bound : Z)            (* Field(ge=bound) does not hold *)
| ValueError (msg : string)    (* raised by a validator of the class *)
| InvalidEmail.                (* EmailStr does not hold *)

(** One entry of a [ValidationError]: where, and what. *)
Definition ErrorItem : Type := list string * ErrorType.

(** The fields of [Cart] validated so far, as a validator sees them in
    [values]. *)
Record CartValues := {
  values_items : option (list (string * CartItem));
  values_totalQty : option Z;
}.

(** ** Field constraints *)

Definition field_gt_int (bound v : Z) : result ErrorType Z :=
  if bound <? v then Ok v else Err (NotGt bound).

Definition field_ge_int (bound v : Z) : result ErrorType Z :=
  if bound <=? v then Ok v else Err (NotGe bound).

(** [Field(ge=0)] on a float: [v >= 0], false for a NaN. *)
Definition field_ge0_float (v : float) : result ErrorType float :=
  if ge0 v then Ok v else Err (NotGe 0).

(** The error of a field's chain, located. *)
Definition at_loc {A} (loc : list string) (r : result ErrorType A) :
  list ErrorItem :=
  match r with Ok _ => [] | Err e => [(loc, e)] end.

(** ** CartItem *)

Definition validate_CartItem (loc : list string) (it : CartItem) :
  list ErrorItem :=
  at_loc (loc ++ ["qty"]) (field_gt_int 0 (qty it)) ++
  at_loc (loc ++ ["price"]) (field_ge0_float (price it)) ++
  at_loc (loc ++ ["pricePerUnit"]) (field_ge0_float (pricePerUnit it)).

(** ** Cart: the validators of the source *)

(** The 0.01 of the price check, as the float the literal denotes. *)
Definition tolerance : float := S754_finite false 5764607523034235 (-59).

Definition validate_min_quantity (v : Z) : result ErrorType Z :=
  if v <? 3 then
    Err (ValueError "Our minimum order size for delivery is 3 items.")
  else Ok v.

Definition validate_total_price (v : float) (values : CartValues) :
  result ErrorType float :=
  match values_items values with
  | Some its =>
      let calculated_total := py_sum_float (map (fun kv => price kv.2) its) in
      if gt (fabs (fsub calculated_total v)) tolerance then
        Err (ValueError "Total price does not match sum of item prices")
      else Ok v
  | None => Ok v
  end.

Definition validate_total_qty (v : Z) (values : CartValues) :
  result ErrorType Z :=
  match values_items values with
  | Some its =>
      let calculated_qty := py_sum_int (map (fun kv => qty kv.2) its) in
      if negb (calculated_qty =? v) then
        Err (ValueError "Total quantity does not match sum of item quantities")
      else Ok v
  | None => Ok v
  end.

(** ** Cart: the fields in order *)

(** [items: Dict[str, CartItem]]: every value is validated, and the errors of
    all of them are collected under the item's key. *)
Definition validate_items (loc : list string) (its : list (string * CartItem)) :
  list ErrorItem :=
  flat_map (fun kv => validate_CartItem (loc ++ [kv.1]) kv.2) its.

(** [totalQty: int = Field(ge=0)], then [validate_min_quantity], then
    [validate_total_qty]. *)
Definition totalQty_chain (values : CartValues) (v : Z) : result ErrorType Z :=
  v ← field_ge_int 0 v;
  v ← validate_min_quantity v;
  validate_total_qty v values.

(** [totalPrice: float = Field(ge=0)], then [validate_total_price]. *)
Definition totalPrice_chain (values : CartValues) (v : float) :
  result ErrorType float :=
  v ← field_ge0_float v;
  validate_total_price v values.

Definition validate_Cart (loc : list string) (c : Cart) : list ErrorItem :=
  let e_items := validate_items (loc ++ ["items"]) (items c) in
  let values0 :=
    {| values_items := if is_nil e_items then Some (items c) else None;
       values_totalQty := None |} in
  let r_qty := totalQty_chain values0 (totalQty c) in
  let values1 :=
    {| values_items := values_items values0;
       values_totalQty := match r_qty with Ok v => Some v | Err _ => None end |} in
  let r_price := totalPrice_chain values1 (totalPrice c) in
  e_items ++ at_loc (loc ++ ["totalQty"]) r_qty
          ++ at_loc (loc ++ ["totalPrice"]) r_price.

(** The model is built when no field failed; otherwise the request is
    refused with every error found. *)
Definition parse_Cart (loc : list string) (c : Cart) :
  result (list ErrorItem) Cart :=
  match validate_Cart loc c with
  | [] => Ok c
  | es => Err es
  end.

(** ** What a valid cart is *)

Definition item_ok (it : CartItem) : Prop :=
  0 < qty it /\ nonneg (price it) = true /\ nonneg (pricePerUnit it) = true.

Definition quantities (c : Cart) : list Z := map (fun kv => qty kv.2) (items c).
Definition prices (c : Cart) : list float := map (fun kv => price kv.2) (items c).

(** [abs(calculated_total - v) > 0.01] *)
Definition price_mismatch (calculated_total v : float) : bool :=
  gt (fabs (fsub calculated_total v)) tolerance.

Definition cart_ok (c : Cart) : Prop :=
  Forall (fun kv => item_ok kv.2) (items c) /\
  3 <= totalQty c /\
  py_sum_int (quantities c) = totalQty c /\
  nonneg (totalPrice c) = true /\
  price_mismatch (py_sum_float (prices c)) (totalPrice c) = false.

(** The errors reported for one field. *)
Definition errors_at (loc : list string) (es : list ErrorItem) : list ErrorType :=
  map snd (filter (fun e => e.1 = loc) es).

Definition min_order_error : ErrorType :=
  ValueError "Our minimum order size for delivery is 3 items.".
Definition qty_mismatch_error : ErrorType :=
  ValueError "Total quantity does not match sum of item quantities".
Definition price_mismatch_error : ErrorType :=
  ValueError "Total price does not match sum of item prices".

(** ** Field chains: when they pass, and with what error they fail *)

Lemma at_loc_nil {A} loc (r : result ErrorType A) :
  at_loc loc r = [] <-> is_Ok r = true.
Proof. destruct r; simpl; split; congruence. Qed.

Lemma field_gt_int_Ok b v : is_Ok (field_gt_int b v) = true <-> b < v.
Proof. unfold field_gt_int. destruct (Z.ltb_spec b v); simpl; split; (lia || congruence). Qed.

Lemma field_ge_int_Ok b v : is_Ok (field_ge_int b v) = true <-> b <= v.
Proof. unfold field_ge_int. destruct (Z.leb_spec b v); simpl; split; (lia || congruence). Qed.

Lemma field_ge0_float_Ok v : is_Ok (field_ge0_float v) = true <-> nonneg v = true.
Proof.
  unfold field_ge0_float. rewrite ge0_nonneg.
  destruct (nonneg v); simpl; split; congruence.
Qed.

Lemma validate_CartItem_nil loc it : validate_CartItem loc it = [] <-> item_ok it.
Proof.
  unfold validate_CartItem, item_ok.
  rewrite !app_nil, !at_loc_nil.
  by rewrite field_gt_int_Ok, !field_ge0_float_Ok.
Qed.

Lemma validate_items_nil loc its :
  validate_items loc its = [] <-> Forall (fun kv => item_ok kv.2) its.
Proof.
  unfold validate_items. induction its as [|kv its IH]; simpl.
  - split; [constructor | done].
  - rewrite app_nil, validate_CartItem_nil, IH, Forall_cons. done.
Qed.

(** The chain of [totalQty], by cases: the constraint, then the minimum, then
    (when [items] passed) the sum. *)
Lemma totalQty_chain_cases values v :
  totalQty_chain values v =
    if v <? 0 then Err (NotGe 0)
    else if v <? 3 then Err min_order_error
    else match values_items values with
         | Some its =>
             if py_sum_int (map (fun kv => qty kv.2) its) =? v then Ok v
             else Err qty_mismatch_error
         | None => Ok v
         end.
Proof.
  unfold totalQty_chain, field_ge_int, validate_min_quantity, validate_total_qty.
  destruct (Z.leb_spec 0 v), (Z.ltb_spec v 0); try lia; simpl; [|done].
  destruct (v <? 3); simpl; [done|].
  destruct (values_items values); [|done]. by destruct (_ =? v).
Qed.

Lemma totalPrice_chain_cases values v :
  totalPrice_chain values v =
    if negb (nonneg v) then Err (NotGe 0)
    else match values_items values with
         | Some its =>
             if price_mismatch (py_sum_float (map (fun kv => price kv.2) its)) v
             then Err price_mismatch_error else Ok v
         | None => Ok v
         end.
Proof.
  unfold totalPrice_chain, field_ge0_float, validate_total_price, price_mismatch.
  rewrite ge0_nonneg. destruct (nonneg v); simpl; [|done].
  by destruct (values_items values).
Qed.

(** ** The cart is accepted exactly when it is consistent *)

Lemma validate_Cart_nil_iff loc c : validate_Cart loc c = [] <-> cart_ok c.
Proof.
  unfold validate_Cart, cart_ok, quantities, prices.
  rewrite !app_nil, !at_loc_nil, validate_items_nil.
  rewrite totalQty_chain_cases, totalPrice_chain_cases. cbn [values_items].
  split.
  - intros (Hit & Hq & Hp).
    rewrite (proj2 (validate_items_nil _ _) Hit) in Hq, Hp. cbn [is_nil] in *.
    repeat case_match; simplify_eq/=; try done.
    repeat split; try done; try lia. by destruct (nonneg (totalPrice c)).
  - intros (Hit & H3 & Hs & Hn & Hm).
    rewrite (proj2 (validate_items_nil _ _) Hit). cbn [is_nil].
    rewrite Hs, Hn, Hm, Z.eqb_refl.
    destruct (Z.ltb_spec (totalQty c) 0), (Z.ltb_spec (totalQty c) 3);
      try lia; done.
Qed.

Lemma parse_Cart_of_ok loc c : cart_ok c -> parse_Cart loc c = Ok c.
Proof.
  intros H%(validate_Cart_nil_iff loc). unfold parse_Cart. by rewrite H.
Qed.

(** C3. [Cart] builds the model exactly for a consistent cart, and returns
    the cart unchanged: every item has a positive quantity and non-negative
    prices, the declared quantity is at least 3 and is the sum of the item
    quantities, the declared price is non-negative and within 0.01 of the
    float sum of the item prices. *)
Theorem parse_Cart_Ok_iff loc c c' :
  parse_Cart loc c = Ok c' <-> c' = c /\ cart_ok c.
Proof.
  unfold parse_Cart. rewrite <- (validate_Cart_nil_iff loc).
  destruct (validate_Cart loc c) eqn:E; split; try done.
  - by intros [= ->].
  - by intros [-> _].
  - by intros [_ ?].
Qed.

(** ** Which errors are reported, field by field *)

Definition chain_error {A} (r : result ErrorType A) : list ErrorType :=
  match r with Ok _ => [] | Err e => [e] end.

(** The [values] the chains of [totalQty] and [totalPrice] see: [items] is
    there when every item passed. *)
Definition values_after_items (c : Cart) (items_passed : bool) : CartValues :=
  {| values_items := if items_passed then Some (items c) else None;
     values_totalQty := None |}.

Lemma errors_at_app loc es1 es2 :
  errors_at loc (es1 ++ es2) = errors_at loc es1 ++ errors_at loc es2.
Proof. unfold errors_at. by rewrite filter_app, map_app. Qed.

Lemma errors_at_at_loc {A} loc loc' (r : result ErrorType A) :
  errors_at loc (at_loc loc' r) = if decide (loc' = loc) then chain_error r else [].
Proof.
  destruct r as [a|e]; simpl; [by case_decide|].
  unfold errors_at. rewrite filter_cons, filter_nil. simpl.
  by repeat case_decide.
Qed.

Lemma errors_at_other loc es :
  Forall (fun e => e.1 <> loc) es -> errors_at loc es = [].
Proof.
  unfold errors_at. induction 1 as [|e es He _ IH]; [done|].
  rewrite filter_cons. by case_decide.
Qed.

(** Every error of an item is located strictly below the item's key. *)
Lemma validate_items_loc loc its e :
  e ∈ validate_items loc its -> length e.1 = (length loc + 2)%nat.
Proof.
  unfold validate_items. rewrite list_elem_of_In, in_flat_map.
  intros ([k it] & _ & Hin). unfold validate_CartItem in Hin.
  rewrite !in_app_iff in Hin.
  assert (forall A f (r : result ErrorType A),
    In e (at_loc ((loc ++ [k]) ++ [f]) r) -> length e.1 = (length loc + 2)%nat) as H.
  { intros A f [a|x]; simpl; [done|]. intros [<-|[]]. simpl.
    rewrite !length_app. simpl. lia. }
  destruct Hin as [Hin|[Hin|Hin]]; eapply H; exact Hin.
Qed.

Lemma errors_at_items loc f c :
  errors_at (loc ++ [f]) (validate_items (loc ++ ["items"]) (items c)) = [].
Proof.
  apply errors_at_other, Forall_forall. intros e He%validate_items_loc Heq.
  rewrite Heq, !length_app in He. simpl in He. lia.
Qed.

Lemma validate_Cart_errors_totalQty loc c :
  errors_at (loc ++ ["totalQty"]) (validate_Cart loc c) =
  chain_error (totalQty_chain
    (values_after_items c (is_nil (validate_items (loc ++ ["items"]) (items c))))
    (totalQty c)).
Proof.
  unfold validate_Cart. rewrite !errors_at_app, errors_at_items, !errors_at_at_loc.
  rewrite decide_True by done.
  rewrite decide_False by (intros [=]%app_inv_head).
  by rewrite app_nil_r.
Qed.

Lemma validate_Cart_errors_totalPrice loc c :
  errors_at (loc ++ ["totalPrice"]) (validate_Cart loc c) =
  chain_error (totalPrice_chain
    (values_after_items c (is_nil (validate_items (loc ++ ["items"]) (items c))))
    (totalPrice c)).
Proof.
  unfold validate_Cart. rewrite !errors_at_app, errors_at_items, !errors_at_at_loc.
  rewrite decide_False by (intros [=]%app_inv_head).
  rewrite decide_True by done.
  rewrite totalPrice_chain_cases. symmetry. rewrite totalPrice_chain_cases. done.
Qed.

Lemma is_nil_validate_items loc its :
  is_nil (validate_items loc its) = true <-> Forall (fun kv => item_ok kv.2) its.
Proof.
  rewrite <- validate_items_nil with (loc := loc).
  destruct (validate_items loc its); simpl; split; congruence.
Qed.

(** ** Properties of the cart checks *)

(** C13. A declared quantity of 0, 1 or 2 is answered with the minimum-order
    error, and with no other error for that field, whatever the items are:
    the minimum is checked before the sum. *)
Theorem min_order_error_reported loc c :
  0 <= totalQty c < 3 ->
  errors_at (loc ++ ["totalQty"]) (validate_Cart loc c) = [min_order_error].
Proof.
  intros H. rewrite validate_Cart_errors_totalQty, totalQty_chain_cases.
  destruct (Z.ltb_spec (totalQty c) 0), (Z.ltb_spec (totalQty c) 3); (lia || done).
Qed.

(** C5. The quantity-mismatch error is reported exactly when every item is
    valid, the declared quantity is at least 3, and it differs from the sum
    of the item quantities. (A declared quantity below 3, or an invalid item,
    hides the mismatch.) *)
Theorem qty_mismatch_reported_iff loc c :
  qty_mismatch_error ∈ errors_at (loc ++ ["totalQty"]) (validate_Cart loc c) <->
  Forall (fun kv => item_ok kv.2) (items c) /\ 3 <= totalQty c /\
  py_sum_int (quantities c) <> totalQty c.
Proof.
  rewrite validate_Cart_errors_totalQty, totalQty_chain_cases.
  rewrite <- (is_nil_validate_items (loc ++ ["items"])). unfold quantities.
  destruct (is_nil _); cbn [values_after_items values_items];
    destruct (Z.ltb_spec (totalQty c) 0), (Z.ltb_spec (totalQty c) 3);
    try destruct (Z.eqb_spec (py_sum_int (map (fun kv => qty kv.2) (items c)))
                   (totalQty c));
    cbn [chain_error]; rewrite ?list_elem_of_singleton, ?elem_of_nil;
    split; try done; try lia; intros (? & ? & ?); (done || lia).
Qed.

(** C6. The price-mismatch error is reported exactly when every item is
    valid, the declared price is not negative (and not a NaN), and the
    distance between the float sum of the item prices and the declared price
    compares greater than 0.01. *)
Theorem price_mismatch_reported_iff loc c :
  price_mismatch_error ∈ errors_at (loc ++ ["totalPrice"]) (validate_Cart loc c) <->
  Forall (fun kv => item_ok kv.2) (items c) /\ nonneg (totalPrice c) = true /\
  price_mismatch (py_sum_float (prices c)) (totalPrice c) = true.
Proof.
  rewrite validate_Cart_errors_totalPrice, totalPrice_chain_cases.
  rewrite <- (is_nil_validate_items (loc ++ ["items"])). unfold prices.
  destruct (is_nil _); cbn [values_after_items values_items];
    destruct (nonneg (totalPrice c)); cbn [negb];
    try destruct (price_mismatch _ _);
    cbn [chain_error]; rewrite ?list_elem_of_singleton, ?elem_of_nil;
    split; try done; intros (? & ? & ?); done.
Qed.

(** C12. Errors are collected, not cut at the first: a cart of valid items
    whose declared quantity and declared price are both wrong is answered
    with both errors, in field order. *)
Theorem errors_accumulate loc c :
  Forall (fun kv => item_ok kv.2) (items c) ->
  3 <= totalQty c -> py_sum_int (quantities c) <> totalQty c ->
  nonneg (totalPrice c) = true ->
  price_mismatch (py_sum_float (prices c)) (totalPrice c) = true ->
  validate_Cart loc c =
    [(loc ++ ["totalQty"], qty_mismatch_error);
     (loc ++ ["totalPrice"], price_mismatch_error)].
Proof.
  intros Hit H3 Hs Hn Hm. unfold validate_Cart.
  rewrite totalQty_chain_cases, totalPrice_chain_cases. cbn [values_items].
  rewrite (proj2 (validate_items_nil _ _) Hit). cbn [is_nil].
  fold (quantities c) (prices c). rewrite Hn, Hm.
  destruct (Z.ltb_spec (totalQty c) 0), (Z.ltb_spec (totalQty c) 3),
    (Z.eqb_spec (py_sum_int (quantities c)) (totalQty c)); (lia || done).
Qed.

(** Bounds of an accepted cart: it has at least one item and no more
    items than the declared quantity, and no item's quantity exceeds the
    declared quantity. *)
Theorem cart_ok_bounds c :
  cart_ok c ->
  (1 <= Z.of_nat (length (items c)) <= totalQty c) /\
  Forall (fun kv => 1 <= qty kv.2 <= totalQty c) (items c).
Proof.
  intros (Hit & H3 & Hs & _). unfold quantities in Hs.
  assert (Forall (fun x => 0 < x) (map (fun kv => qty kv.2) (items c))) as Hpos.
  { apply Forall_map. eapply Forall_impl; [exact Hit|]. by intros ? (? & _). }
  pose proof (py_sum_int_ge_length _ Hpos) as Hlen. rewrite length_map in Hlen.
  split.
  - split; [|lia]. destruct (items c); [|simpl; lia].
    cbn in Hs. lia.
  - rewrite <- Hs. clear -Hpos.
    induction (items c) as [|kv its IH]; simpl in *; [constructor|].
    inv Hpos. rewrite py_sum_int_cons.
    assert (0 <= py_sum_int (map (fun kv => qty kv.2) its)).
    { apply py_sum_int_nonneg. eapply Forall_impl; [eassumption|]. simpl. lia. }
    constructor; [lia|]. eapply Forall_impl; [by apply IH|]. simpl. lia.
Qed.

(** ** The price check on infinities *)

Lemma nonneg_inf_eq x : nonneg x = true -> is_inf x = true -> x = finf.
Proof. destruct x as [|[]| |]; simpl; done. Qed.

(** An infinite sum is never within the tolerance of a finite total, nor a
    finite sum of an infinite total. *)
Lemma price_mismatch_inf_l v :
  nonneg v = true -> is_inf v = false -> price_mismatch finf v = true.
Proof. destruct v as [|[]| |[]]; simpl; done. Qed.

Lemma price_mismatch_inf_r s :
  nonneg s = true -> is_inf s = false -> price_mismatch s finf = true.
Proof. destruct s as [|[]| |[]]; simpl; done. Qed.

(** Two infinities pass the check: their difference is a NaN, and no
    comparison with a NaN holds. *)
Lemma price_mismatch_inf_inf : price_mismatch finf finf = false.
Proof. reflexivity. Qed.

Lemma prices_nonneg c :
  Forall (fun kv => item_ok kv.2) (items c) ->
  Forall (fun x => nonneg x = true) (prices c).
Proof.
  intros H. apply Forall_map. eapply Forall_impl; [exact H|].
  by intros ? (_ & ? & _).
Qed.

(** In an accepted cart the float sum of the item prices is not a NaN
    and not negative, and it is infinite exactly when the declared price is:
    the tolerance check separates finite from infinite, and nothing else. *)
Theorem cart_ok_price_class c :
  cart_ok c ->
  nonneg (py_sum_float (prices c)) = true /\
  is_inf (py_sum_float (prices c)) = is_inf (totalPrice c).
Proof.
  intros (Hit & _ & _ & Hn & Hm).
  pose proof (py_sum_float_nonneg _ (prices_nonneg c Hit)) as Hs.
  split; [exact Hs|].
  destruct (is_inf (py_sum_float (prices c))) eqn:E1,
           (is_inf (totalPrice c)) eqn:E2; try done.
  - rewrite (nonneg_inf_eq _ Hs E1), price_mismatch_inf_l in Hm; done.
  - rewrite (nonneg_inf_eq _ Hn E2), price_mismatch_inf_r in Hm; done.
Qed.

(** C26. A cart with an infinite price is accepted: when an item's price is
    plus infinity (the other checks passing) and the declared price is plus
    infinity too, validation succeeds. *)
Theorem infinite_price_accepted loc c :
  Forall (fun kv => item_ok kv.2) (items c) ->
  3 <= totalQty c -> py_sum_int (quantities c) = totalQty c ->
  In finf (prices c) -> totalPrice c = finf ->
  parse_Cart loc c = Ok c.
Proof.
  intros Hit H3 Hs Hin Hp. apply parse_Cart_of_ok.
  repeat split; try done; rewrite Hp; [done|].
  rewrite (py_sum_float_inf _ (prices_nonneg c Hit) Hin).
  apply price_mismatch_inf_inf.
Qed.

(** ** The quantity check does not depend on the order of the items *)

Lemma quantities_Permutation c c' :
  Permutation (items c) (items c') ->
  py_sum_int (quantities c) = py_sum_int (quantities c').
Proof.
  intros H. apply py_sum_int_Permutation. unfold quantities.
  by apply Permutation_map.
Qed.

(** ** Concrete carts *)

Definition mk_item (q : Z) (p : float) : CartItem :=
  {| qty := q; price := p; pricePerUnit := p; imageUrl := "img" |}.

(** Three items of quantity 1 at 10.00, 5.00 and 5.00; 3 items, 20.00. *)
Definition cart_three : Cart :=
  {| items := [("a", mk_item 1 (float_of_Z 10));
               ("b", mk_item 1 (float_of_Z 5));
               ("c", mk_item 1 (float_of_Z 5))];
     totalQty := 3;
     totalPrice := float_of_Z 20 |}.

(** The same items with a declared quantity of 2 and a declared price of 21. *)
Definition cart_two : Cart :=
  {| items := items cart_three; totalQty := 2; totalPrice := float_of_Z 21 |}.

(** The same items with a declared quantity of 4 and a declared price of 21. *)
Definition cart_four : Cart :=
  {| items := items cart_three; totalQty := 4; totalPrice := float_of_Z 21 |}.

(** One item of quantity 3 and infinite price, declared at an infinite price. *)
Definition cart_inf : Cart :=
  {| items := [("a", mk_item 3 finf)]; totalQty := 3; totalPrice := finf |}.

Lemma cart_three_items_ok : Forall (fun kv => item_ok kv.2) (items cart_three).
Proof. repeat constructor. Qed.

Lemma cart_three_ok : cart_ok cart_three.
Proof. apply (validate_Cart_nil_iff []). vm_compute. reflexivity. Defined.

Example tolerance_is_0_01 : tolerance = float_of_decimal 1 2.
Proof. vm_compute. reflexivity. Qed.

Example cart_three_accepted : parse_Cart [] cart_three = Ok cart_three.
Proof. vm_compute. reflexivity. Qed.

(** The quantity mismatch of [cart_two] is hidden by the minimum-order error. *)
Example cart_two_errors :
  validate_Cart [] cart_two =
    [(["totalQty"], min_order_error); (["totalPrice"], price_mismatch_error)].
Proof. vm_compute. reflexivity. Qed.

Lemma min_order_error_reported_witness :
  errors_at ([] ++ ["totalQty"]) (validate_Cart [] cart_two) = [min_order_error].
Proof. apply min_order_error_reported. simpl. lia. Defined.

Lemma errors_accumulate_witness :
  validate_Cart [] cart_four =
    [([] ++ ["totalQty"], qty_mismatch_error);
     ([] ++ ["totalPrice"], price_mismatch_error)].
Proof.
  apply errors_accumulate.
  - exact cart_three_items_ok.
  - simpl. lia.
  - vm_compute. discriminate.
  - reflexivity.
  - vm_compute. reflexivity.
Defined.

Lemma cart_ok_bounds_witness :
  (1 <= Z.of_nat (length (items cart_three)) <= totalQty cart_three) /\
  Forall (fun kv => 1 <= qty kv.2 <= totalQty cart_three) (items cart_three).
Proof. apply cart_ok_bounds. exact cart_three_ok. Defined.

Lemma cart_ok_price_class_witness :
  nonneg (py_sum_float (prices cart_three)) = true /\
  is_inf (py_sum_float (prices cart_three)) = is_inf (totalPrice cart_three).
Proof. apply cart_ok_price_class. exact cart_three_ok. Defined.

Lemma infinite_price_accepted_witness : parse_Cart [] cart_inf = Ok cart_inf.
Proof.
  apply infinite_price_accepted.
  - repeat constructor.
  - simpl. lia.
  - reflexivity.
  - left. reflexivity.
  - reflexivity.
Defined.
