(* ===== verification/Regex.v ===== *)
(** * Regex: regular expressions and their matching

    The phone pattern of [src/lambda/Place-Order.py] (line 39) is a regular
    expression in the strict sense: characters, classes, sequence,
    alternatives through [?], and repetition; no group is referred to and
    nothing looks around. For such a pattern the question the code asks,
    whether [pattern.match(v)] found a match, is a question about the
    pattern's language, and Python's backtracking matcher answers it.

    This file holds the syntax ([regex]), the language ([lang], the
    reference), an executable matcher by derivatives ([re_fullmatch]), the
    proof that the matcher decides the language, and the inversion lemmas on
    languages that the analysis of a concrete pattern uses. [re_match_dollar]
    is a match that must reach [$]: the end of the text, or the newline that
    ends it. *)

From Stdlib Require Import List Bool Lia Ascii String.
From stdpp Require Import base tactics list strings.
From S2P Require Import Prelude PyStr.

#[local] Open Scope string_scope.

(** ** Syntax *)

(** An element of a character class: [c] or [lo-hi]. *)
Inductive class_item :=
| CChar (c : ascii)
| CRange (lo hi : ascii).

Inductive regex :=
| Empty                            (* matches nothing *)
| Eps                              (* the empty pattern *)
| Class (items : list class_item)  (* [...] *)
| Seq (r1 r2 : regex)              (* r1 r2 *)
| Alt (r1 r2 : regex)              (* r1|r2 *)
| Star (r : regex).                (* r* *)

(** A literal character, [r?], [r{n}], [\d]. *)
Definition Chr (c : ascii) : regex := Class [CChar c].
Definition Opt (r : regex) : regex := Alt r Eps.
Fixpoint Rep (n : nat) (r : regex) : regex :=
  match n with
  | O => Eps
  | S n' => Seq r (Rep n' r)
  end.
Definition Digit : regex := Class [CRange "0" "9"].

Definition item_matches (c : ascii) (i : class_item) : bool :=
  match i with
  | CChar c' => Ascii.eqb c c'
  | CRange lo hi => ascii_in_range lo hi c
  end.

Definition class_matches (items : list class_item) (c : ascii) : bool :=
  existsb (item_matches c) items.

(** ** The language of a pattern *)

Inductive lang : regex -> string -> Prop :=
| lang_eps : lang Eps ""
| lang_class items c :
    class_matches items c = true -> lang (Class items) (String c "")
| lang_seq r1 r2 s1 s2 :
    lang r1 s1 -> lang r2 s2 -> lang (Seq r1 r2) (s1 +:+ s2)
| lang_alt_l r1 r2 s : lang r1 s -> lang (Alt r1 r2) s
| lang_alt_r r1 r2 s : lang r2 s -> lang (Alt r1 r2) s
| lang_star_nil r : lang (Star r) ""
| lang_star_cons r s1 s2 :
    lang r s1 -> lang (Star r) s2 -> lang (Star r) (s1 +:+ s2).

(** ** Matching by derivatives *)

Fixpoint nullable (r : regex) : bool :=
  match r with
  | Empty => false
  | Eps => true
  | Class _ => false
  | Seq r1 r2 => nullable r1 && nullable r2
  | Alt r1 r2 => nullable r1 || nullable r2
  | Star _ => true
  end.

Fixpoint deriv (c : ascii) (r : regex) : regex :=
  match r with
  | Empty => Empty
  | Eps => Empty
  | Class items => if class_matches items c then Eps else Empty
  | Seq r1 r2 =>
      if nullable r1 then Alt (Seq (deriv c r1) r2) (deriv c r2)
      else Seq (deriv c r1) r2
  | Alt r1 r2 => Alt (deriv c r1) (deriv c r2)
  | Star r' => Seq (deriv c r') (Star r')
  end.

(** The whole text matches the pattern. *)
Fixpoint re_fullmatch (r : regex) (s : string) : bool :=
  match s with
  | EmptyString => nullable r
  | String c s' => re_fullmatch (deriv c r) s'
  end.

(** [s] without the newline that ends it, when one does. *)
Fixpoint strip_newline (s : string) : option string :=
  match s with
  | EmptyString => None
  | String c EmptyString => if Ascii.eqb c "010" then Some EmptyString else None
  | String c s' => String c <$> strip_newline s'
  end.

(** [re.compile('^r$').match(s)] found a match: the pattern matches from the
    start of [s] to its end or to the newline that ends it. *)
Definition re_match_dollar (r : regex) (s : string) : bool :=
  re_fullmatch r s ||
  match strip_newline s with
  | Some s' => re_fullmatch r s'
  | None => false
  end.

(** The characters a match of [r] can hold. *)
Fixpoint alphabet (r : regex) (c : ascii) : bool :=
  match r with
  | Empty | Eps => false
  | Class items => class_matches items c
  | Seq r1 r2 | Alt r1 r2 => alphabet r1 c || alphabet r2 c
  | Star r' => alphabet r' c
  end.

(** ** Inversion of languages *)

Lemma str_append_eq_nil (a b : string) : a +:+ b = "" -> a = "" /\ b = "".
Proof. destruct a; str_simpl; [done|]. discriminate. Qed.

Lemma str_append_eq_cons (a b : string) c s :
  a +:+ b = String c s ->
  (a = "" /\ b = String c s) \/ (exists a', a = String c a' /\ s = a' +:+ b).
Proof.
  destruct a as [|x a]; str_simpl; [by left|].
  intros [= -> <-]. right. eauto.
Qed.

Lemma lang_empty_inv s : lang Empty s <-> False.
Proof. split; [|done]. intros H. inv H. Qed.

Lemma lang_eps_inv s : lang Eps s <-> s = "".
Proof. split; [intros H; by inv H | intros ->; constructor]. Qed.

Lemma lang_class_inv items s :
  lang (Class items) s <-> exists c, s = String c "" /\ class_matches items c = true.
Proof.
  split; [intros H; inv H; eauto|]. intros (c & -> & H). by constructor.
Qed.

Lemma lang_seq_inv r1 r2 s :
  lang (Seq r1 r2) s <-> exists s1 s2, s = s1 +:+ s2 /\ lang r1 s1 /\ lang r2 s2.
Proof.
  split; [intros H; inv H; eauto|]. intros (s1 & s2 & -> & H1 & H2). by constructor.
Qed.

Lemma lang_alt_inv r1 r2 s : lang (Alt r1 r2) s <-> lang r1 s \/ lang r2 s.
Proof.
  split; [intros H; inv H; eauto|]. intros [H|H]; [by apply lang_alt_l | by apply lang_alt_r].
Qed.

Lemma lang_opt_inv r s : lang (Opt r) s <-> lang r s \/ s = "".
Proof. unfold Opt. by rewrite lang_alt_inv, lang_eps_inv. Qed.

Lemma lang_chr_inv c s : lang (Chr c) s <-> s = String c "".
Proof.
  unfold Chr. rewrite lang_class_inv. unfold class_matches. simpl. split.
  - intros (c' & -> & H). rewrite orb_false_r in H. by apply Ascii.eqb_eq in H as ->.
  - intros ->. exists c. by rewrite Ascii.eqb_refl.
Qed.

(** A non-empty match of [r*] starts with a non-empty match of [r]. *)
Lemma lang_star_cons_inv r c s :
  lang (Star r) (String c s) ->
  exists s1 s2, s = s1 +:+ s2 /\ lang r (String c s1) /\ lang (Star r) s2.
Proof.
  intros H. remember (Star r) as r' eqn:Er. remember (String c s) as w eqn:Ew.
  revert c s Ew. induction H as [| | | | | |r0 s1 s2 H1 _ H2 IH2]; try done.
  intros c s Ew. injection Er as ->.
  apply str_append_eq_cons in Ew as [[-> ->]|(a' & -> & ->)]; [by eapply IH2 | eauto].
Qed.

(** ** The matcher decides the language *)

Lemma nullable_spec r : nullable r = true <-> lang r "".
Proof.
  induction r as [| | |r1 IH1 r2 IH2|r1 IH1 r2 IH2|r IH]; simpl.
  - by rewrite lang_empty_inv.
  - by rewrite lang_eps_inv.
  - rewrite lang_class_inv. split; [done | by intros (? & ? & _)].
  - rewrite andb_true_iff, IH1, IH2, lang_seq_inv. split.
    + intros [H1 H2]. by exists "", "".
    + intros (s1 & s2 & E & H1 & H2). symmetry in E.
      by apply str_append_eq_nil in E as [-> ->].
  - by rewrite orb_true_iff, IH1, IH2, lang_alt_inv.
  - split; [constructor | done].
Qed.

Lemma deriv_seq_spec c r1 r2 s :
  (forall s, lang (deriv c r1) s <-> lang r1 (String c s)) ->
  (forall s, lang (deriv c r2) s <-> lang r2 (String c s)) ->
  lang (deriv c (Seq r1 r2)) s <-> lang (Seq r1 r2) (String c s).
Proof.
  intros IH1 IH2. rewrite (lang_seq_inv r1 r2). simpl. split.
  - intros H.
    assert (lang (Seq (deriv c r1) r2) s \/ (nullable r1 = true /\ lang (deriv c r2) s))
      as [H'|[Hn H']].
    { destruct (nullable r1); [|by left]. apply lang_alt_inv in H as [?|?]; eauto. }
    + apply lang_seq_inv in H' as (s1 & s2 & -> & H1 & H2).
      exists (String c s1), s2. by rewrite <- IH1.
    + exists "", (String c s). by rewrite <- nullable_spec, <- IH2.
  - intros (s1 & s2 & E & H1 & H2). symmetry in E.
    apply str_append_eq_cons in E as [[-> ->]|(a' & -> & ->)].
    + apply nullable_spec in H1 as ->. apply lang_alt_r. by apply IH2.
    + assert (lang (Seq (deriv c r1) r2) (a' +:+ s2)) as H.
      { apply lang_seq; [by apply IH1 | done]. }
      destruct (nullable r1); [by apply lang_alt_l | done].
Qed.

Lemma deriv_spec c r s : lang (deriv c r) s <-> lang r (String c s).
Proof.
  revert s. induction r as [| | |r1 IH1 r2 IH2|r1 IH1 r2 IH2|r IH]; intros s.
  - simpl. by rewrite !lang_empty_inv.
  - simpl. by rewrite lang_empty_inv, lang_eps_inv.
  - simpl. rewrite lang_class_inv. destruct (class_matches items c) eqn:E.
    + rewrite lang_eps_inv. split; [intros ->; eauto | by intros (? & [= <- ->] & _)].
    + rewrite lang_empty_inv. split; [done|]. intros (? & [= <- ->] & ?). congruence.
  - by apply deriv_seq_spec.
  - simpl. by rewrite !lang_alt_inv, IH1, IH2.
  - simpl. rewrite lang_seq_inv. split.
    + intros (s1 & s2 & -> & H1 & H2). apply IH in H1.
      by apply (lang_star_cons r (String c s1) s2).
    + intros (s1 & s2 & -> & H1 & H2)%lang_star_cons_inv.
      exists s1, s2. by rewrite IH.
Qed.

(** The matcher by derivatives accepts exactly the language of the pattern. *)
Lemma re_fullmatch_spec r s : re_fullmatch r s = true <-> lang r s.
Proof.
  revert r. induction s as [|c s IH]; intros r; simpl.
  - apply nullable_spec.
  - by rewrite IH, deriv_spec.
Qed.

Lemma str_snoc_eq_cons (w : string) x c s :
  String c s = w +:+ String x "" <->
  (w = "" /\ c = x /\ s = "") \/ (exists w', w = String c w' /\ s = w' +:+ String x "").
Proof.
  destruct w as [|y w]; str_simpl; split.
  - intros [= -> ->]. by left.
  - intros [(_ & -> & ->)|(? & ? & _)]; done.
  - intros [= <- ->]. right. eauto.
  - intros [(? & _)|(w' & [= <- <-] & ->)]; done.
Qed.

Lemma strip_newline_spec s s' : strip_newline s = Some s' <-> s = s' +:+ String "010" "".
Proof.
  revert s'. induction s as [|c s IH]; intros s'.
  - split; [done|]. by destruct s'.
  - rewrite str_snoc_eq_cons. cbn [strip_newline]. destruct s as [|c' s].
    + destruct (Ascii.eqb_spec c "010") as [->|Hc]; split; try done.
      * intros [= <-]. by left.
      * intros [(-> & _)|(w' & -> & E)]; [done | by destruct w'].
      * intros [(_ & -> & _)|(w' & -> & E)]; [done | by destruct w'].
    + destruct (strip_newline (String c' s)) as [w|] eqn:E; simpl.
      * split.
        -- intros [= <-]. right. exists w. split; [done|]. by apply IH.
        -- intros [(_ & _ & ?)|(w' & -> & E')]; [done|].
           by apply IH in E' as [= ->].
      * split; [done|]. intros [(_ & _ & ?)|(w' & -> & E')]; [done|].
        by apply IH in E'.
Qed.

(** A match up to [$] is a match of the whole text, or of the text before
    the newline that ends it. *)
Lemma re_match_dollar_spec r s :
  re_match_dollar r s = true <->
  lang r s \/ exists s', s = s' +:+ String "010" "" /\ lang r s'.
Proof.
  unfold re_match_dollar. rewrite orb_true_iff, re_fullmatch_spec.
  destruct (strip_newline s) as [w|] eqn:E.
  - apply strip_newline_spec in E as ->. rewrite re_fullmatch_spec. split.
    + intros [?|?]; eauto.
    + intros [?|(s' & E & ?)]; [by left|]. right.
      apply strip_newline_spec in E. rewrite (proj2 (strip_newline_spec _ w)) in E by done.
      by injection E as ->.
  - split; [intros [?|?]; [by left | done]|].
    intros [?|(s' & E' & ?)]; [by left|]. apply strip_newline_spec in E'. congruence.
Qed.

(** ** Shapes of common sub-patterns *)

(** [n] copies of a character. *)
Fixpoint str_repeat (c : ascii) (n : nat) : string :=
  match n with
  | O => ""
  | S n' => String c (str_repeat c n')
  end.

Lemma lang_star_chr_inv c s : lang (Star (Chr c)) s <-> exists n, s = str_repeat c n.
Proof.
  split.
  - induction s as [|x s IH]; [by exists O|].
    intros (s1 & s2 & -> & H1 & H2)%lang_star_cons_inv.
    apply lang_chr_inv in H1 as [= -> ->]. str_simpl.
    destruct (IH H2) as [n ->]. by exists (S n).
  - intros [n ->]. induction n as [|n IH]; [constructor|].
    apply (lang_star_cons _ (String c "") (str_repeat c n)); [by apply lang_chr_inv | done].
Qed.

(** [r{n}] of a class: [n] characters of the class. *)
Lemma lang_rep_class_inv items n s :
  lang (Rep n (Class items)) s <->
  String.length s = n /\ str_forall (class_matches items) s = true.
Proof.
  revert s. induction n as [|n IH]; intros s; simpl.
  - rewrite lang_eps_inv. split; [by intros ->|]. destruct s; [done|]. by intros [? _].
  - rewrite lang_seq_inv. split.
    + intros (s1 & s2 & -> & (c & -> & Hc)%lang_class_inv & (<- & H2)%IH).
      str_simpl. by rewrite Hc.
    + destruct s as [|c s]; simpl; [by intros [? _]|].
      intros [[= Hl] [Hc Hs]%andb_true_iff].
      exists (String c ""), s. split; [done|]. split; [by constructor | by apply IH].
Qed.

(** Every character of a match is in the alphabet of the pattern. *)
Lemma lang_alphabet r s : lang r s -> str_forall (alphabet r) s = true.
Proof.
  induction 1 as [|items c Hc|r1 r2 s1 s2 _ IH1 _ IH2|r1 r2 s _ IH|r1 r2 s _ IH
                 | |r s1 s2 _ IH1 _ IH2]; try done.
  - simpl. by rewrite Hc.
  - rewrite str_forall_append. apply andb_true_intro. split.
    + apply (str_forall_impl (alphabet r1)); [|done]. by intros c; simpl; intros ->.
    + apply (str_forall_impl (alphabet r2)); [|done]. intros c; simpl; intros ->.
      apply orb_true_r.
  - apply (str_forall_impl (alphabet r1)); [|done]. by intros c; simpl; intros ->.
  - apply (str_forall_impl (alphabet r2)); [|done]. intros c; simpl; intros ->.
    apply orb_true_r.
  - rewrite str_forall_append. by apply andb_true_intro.
Qed.
