(* ===== verification/Phone.v ===== *)
(** * Phone: the phone pattern and the validator of [OrderRequest.phone]

    Models [PHONE_PATTERN] (line 39 of [src/lambda/Place-Order.py]) and
    [validate_phone_format] (lines 94-98). The pattern is

      ^(\+?1 *[ -.])?(\d{3}) *[ .-]?(\d{3}) *[ .-]?(\d{4}) *$

    written here as a [Regex.regex], group by group. Two points of the
    syntax matter: in the first class, [ -.] is the range from the space to
    the dot (fifteen characters), while in the two others [ .-] is the three
    characters space, dot and hyphen; and [$] also matches before a newline
    that ends the text.

    [phone_shape] describes the texts the pattern accepts without regular
    expressions: the reference the matcher is compared with. The digits are
    the ASCII digits; Python's [\d] also accepts the decimal digits of other
    scripts, which a text of 8-bit characters does not hold. *)

From Stdlib Require Import ZArith List Bool Lia Ascii String.
From stdpp Require Import base tactics list strings.
From S2P Require Import Prelude PyStr Schema Regex.

#[local] Open Scope string_scope.

(** ** The pattern *)

Definition Space : regex := Chr " ".

(** [\+?1 *[ -.]] *)
Definition country_code : regex :=
  Seq (Opt (Chr "+")) (Seq (Chr "1") (Seq (Star Space) (Class [CRange " " "."]))).

(** [[ .-]?] *)
Definition separator : regex := Opt (Class [CChar " "; CChar "."; CChar "-"]).

Definition PHONE_PATTERN : regex :=
  Seq (Opt country_code)
    (Seq (Rep 3 Digit) (Seq (Star Space) (Seq separator
    (Seq (Rep 3 Digit) (Seq (Star Space) (Seq separator
    (Seq (Rep 4 Digit) (Star Space)))))))).

(** [PHONE_PATTERN.match(v)] is not [None]. *)
Definition phone_pattern_match (v : string) : bool := re_match_dollar PHONE_PATTERN v.

Definition phone_error : ErrorType := ValueError "Please enter a valid phone number.".

Definition validate_phone_format (v : string) : result ErrorType string :=
  if negb (phone_pattern_match v) then Err phone_error else Ok v.

(** ** The accepted texts, described directly *)

Definition is_digit (c : ascii) : bool := ascii_in_range "0" "9" c.

(** [n] ASCII digits. *)
Definition digits (n : nat) (s : string) : Prop :=
  String.length s = n /\ str_forall is_digit s = true.

(** Nothing, or one of space, dot, hyphen. *)
Definition sep_ok (s : string) : Prop := s = "" \/ s = " " \/ s = "." \/ s = "-".

(** Nothing, or an optional [+], a [1], spaces, and one character from the
    space to the dot. *)
Definition prefix_ok (s : string) : Prop :=
  s = "" \/
  exists plus n c,
    s = plus +:+ "1" +:+ str_repeat " " n +:+ String c "" /\
    (plus = "" \/ plus = "+") /\ ascii_in_range " " "." c = true.

Record phone_parts := {
  pp_prefix : string;
  pp_area : string;
  pp_gap1 : nat;
  pp_sep1 : string;
  pp_exchange : string;
  pp_gap2 : nat;
  pp_sep2 : string;
  pp_line : string;
  pp_gap3 : nat;
}.

Definition parts_ok (p : phone_parts) : Prop :=
  prefix_ok (pp_prefix p) /\
  digits 3 (pp_area p) /\ sep_ok (pp_sep1 p) /\
  digits 3 (pp_exchange p) /\ sep_ok (pp_sep2 p) /\
  digits 4 (pp_line p).

Definition render (p : phone_parts) : string :=
  pp_prefix p +:+ pp_area p +:+ str_repeat " " (pp_gap1 p) +:+ pp_sep1 p +:+
  pp_exchange p +:+ str_repeat " " (pp_gap2 p) +:+ pp_sep2 p +:+
  pp_line p +:+ str_repeat " " (pp_gap3 p).

Definition phone_shape (s : string) : Prop :=
  exists p, parts_ok p /\ s = render p.

(** The number of characters of [s] that satisfy [f]. *)
Fixpoint str_count (f : ascii -> bool) (s : string) : nat :=
  match s with
  | EmptyString => 0
  | String c s' => (if f c then 1 else 0) + str_count f s'
  end.

(** The characters an accepted phone can hold: from the space to the dot,
    the digits, and the newline. *)
Definition phone_char (c : ascii) : bool :=
  ascii_in_range " " "." c || is_digit c || Ascii.eqb c "010".

(** ** The language of each group *)

Lemma class_digit c : class_matches [CRange "0" "9"] c = is_digit c.
Proof. unfold class_matches. simpl. apply orb_false_r. Qed.

Lemma str_forall_ext (f g : ascii -> bool) s :
  (forall c, f c = g c) -> str_forall f s = str_forall g s.
Proof. intros H. induction s as [|c s IH]; simpl; [done|]. by rewrite H, IH. Qed.

Lemma lang_digits n s : lang (Rep n Digit) s <-> digits n s.
Proof.
  unfold Digit, digits. rewrite lang_rep_class_inv.
  by rewrite (str_forall_ext _ _ s class_digit).
Qed.

Lemma lang_spaces s : lang (Star Space) s <-> exists n, s = str_repeat " " n.
Proof. apply lang_star_chr_inv. Qed.

Lemma lang_separator s : lang separator s <-> sep_ok s.
Proof.
  unfold separator, sep_ok. rewrite lang_opt_inv, lang_class_inv. split.
  - intros [(c & -> & H) | ->]; [|by left]. unfold class_matches in H. simpl in H.
    repeat (apply orb_true_iff in H as [H|H]; [apply Ascii.eqb_eq in H as ->; tauto|]).
    done.
  - intros [-> | [-> | [-> | ->]]]; [by right|left; by eexists..].
Qed.

Lemma lang_country_code s : lang (Opt country_code) s <-> prefix_ok s.
Proof.
  unfold country_code, prefix_ok. rewrite lang_opt_inv. split.
  - intros [H| ->]; [right | by left].
    apply lang_seq_inv in H as (plus & s1 & -> & Hp%lang_opt_inv & H).
    apply lang_seq_inv in H as (one & s2 & -> & ->%lang_chr_inv & H).
    apply lang_seq_inv in H as (sp & s3 & -> & [n ->]%lang_spaces & H).
    apply lang_class_inv in H as (c & -> & Hc).
    exists plus, n, c. split; [done|]. split.
    + destruct Hp as [->%lang_chr_inv| ->]; tauto.
    + unfold class_matches in Hc. simpl in Hc. by rewrite orb_false_r in Hc.
  - intros [-> | (plus & n & c & -> & Hp & Hc)]; [by right | left].
    apply lang_seq; [apply lang_opt_inv; destruct Hp as [->| ->];
                     [by right | left; by apply lang_chr_inv]|].
    apply (lang_seq _ _ "1"); [by apply lang_chr_inv|].
    apply lang_seq; [apply lang_spaces; eauto|].
    apply lang_class. unfold class_matches. simpl. by rewrite Hc.
Qed.

Ltac parts_simpl :=
  unfold render;
  cbn [pp_prefix pp_area pp_gap1 pp_sep1 pp_exchange pp_gap2 pp_sep2 pp_line pp_gap3]
    in *.

(** The pattern accepts exactly the texts of the shape. *)
Lemma lang_PHONE_PATTERN s : lang PHONE_PATTERN s <-> phone_shape s.
Proof.
  unfold PHONE_PATTERN, phone_shape. split.
  - intros (p0 & ? & -> & H0%lang_country_code & H)%lang_seq_inv.
    apply lang_seq_inv in H as (d1 & ? & -> & H1%lang_digits & H).
    apply lang_seq_inv in H as (? & ? & -> & [n1 ->]%lang_spaces & H).
    apply lang_seq_inv in H as (s1 & ? & -> & Hs1%lang_separator & H).
    apply lang_seq_inv in H as (d2 & ? & -> & H2%lang_digits & H).
    apply lang_seq_inv in H as (? & ? & -> & [n2 ->]%lang_spaces & H).
    apply lang_seq_inv in H as (s2 & ? & -> & Hs2%lang_separator & H).
    apply lang_seq_inv in H as (d3 & ? & -> & H3%lang_digits & [n3 ->]%lang_spaces).
    by exists {| pp_prefix := p0; pp_area := d1; pp_gap1 := n1; pp_sep1 := s1;
                 pp_exchange := d2; pp_gap2 := n2; pp_sep2 := s2;
                 pp_line := d3; pp_gap3 := n3 |}.
  - intros ([p0 d1 n1 s1 d2 n2 s2 d3 n3] & (H0 & H1 & Hs1 & H2 & Hs2 & H3) & ->).
    parts_simpl.
    repeat (apply lang_seq;
            [first [by apply lang_country_code | by apply lang_digits
                   | by apply lang_separator | apply lang_spaces; by eexists]|]).
    apply lang_spaces. by eexists.
Qed.

(** ** Counting digits *)

Lemma str_count_append f (a b : string) :
  str_count f (a +:+ b) = (str_count f a + str_count f b)%nat.
Proof. induction a as [|c a IH]; str_simpl; [done|]. rewrite IH. lia. Qed.

Lemma str_count_repeat f c n :
  f c = false -> str_count f (str_repeat c n) = 0%nat.
Proof. intros H. induction n as [|n IH]; simpl; [done|]. by rewrite H, IH. Qed.

Lemma str_count_forall f s :
  str_forall f s = true -> str_count f s = String.length s.
Proof.
  induction s as [|c s IH]; simpl; [done|].
  intros [-> ->%IH]%andb_true_iff. done.
Qed.

Lemma range_not_digit c : ascii_in_range " " "." c = true -> is_digit c = false.
Proof.
  unfold is_digit, ascii_in_range.
  change (N_of_ascii " ") with 32%N. change (N_of_ascii ".") with 46%N.
  change (N_of_ascii "0") with 48%N. change (N_of_ascii "9") with 57%N.
  intros [_ H%N.leb_le]%andb_true_iff.
  apply andb_false_iff. left. apply N.leb_gt. lia.
Qed.

Lemma digits_count n s : digits n s -> str_count is_digit s = n.
Proof. intros [<- H]. by apply str_count_forall. Qed.

Lemma sep_ok_count s : sep_ok s -> str_count is_digit s = 0%nat.
Proof. by intros [-> | [-> | [-> | ->]]]. Qed.

Lemma prefix_ok_count s : prefix_ok s -> (str_count is_digit s <= 1)%nat.
Proof.
  intros [-> | (plus & n & c & -> & Hp & Hc)]; [simpl; lia|].
  rewrite !str_count_append, str_count_repeat by done. simpl.
  rewrite (range_not_digit c Hc). destruct Hp as [->| ->]; simpl; lia.
Qed.

Lemma phone_shape_count s :
  phone_shape s -> (10 <= str_count is_digit s <= 11)%nat.
Proof.
  intros ([p0 d1 n1 s1 d2 n2 s2 d3 n3] & (H0 & H1 & Hs1 & H2 & Hs2 & H3) & ->).
  parts_simpl.
  rewrite !str_count_append, !str_count_repeat by done.
  rewrite (digits_count _ _ H1), (digits_count _ _ H2), (digits_count _ _ H3).
  rewrite (sep_ok_count _ Hs1), (sep_ok_count _ Hs2).
  pose proof (prefix_ok_count _ H0). lia.
Qed.

(** ** The characters of an accepted phone *)

Lemma alphabet_PHONE_PATTERN c :
  alphabet PHONE_PATTERN c = true -> phone_char c = true.
Proof. by destruct c as [[] [] [] [] [] [] [] []]. Qed.

(** ** The validator *)

Definition newline : string := String "010" "".

Lemma phone_pattern_match_spec v :
  phone_pattern_match v = true <->
  phone_shape v \/ exists w, v = w +:+ newline /\ phone_shape w.
Proof.
  unfold phone_pattern_match. rewrite re_match_dollar_spec, lang_PHONE_PATTERN.
  by setoid_rewrite lang_PHONE_PATTERN.
Qed.

Lemma validate_phone_format_Ok v v' :
  validate_phone_format v = Ok v' <-> v' = v /\ phone_pattern_match v = true.
Proof.
  unfold validate_phone_format. destruct (phone_pattern_match v); simpl; split;
    try done; [by intros [= ->] | by intros [-> _] | by intros [_ ?]].
Qed.

Lemma prefix_ok_length s :
  prefix_ok s -> s = "" \/ (str_count is_digit s < String.length s)%nat.
Proof.
  intros [-> | (plus & n & c & -> & Hp & Hc)]; [by left | right].
  rewrite !str_count_append, !str_length_append, str_count_repeat by done. simpl.
  rewrite (range_not_digit c Hc). destruct Hp as [->| ->]; simpl; lia.
Qed.

Lemma str_count_le f s : (str_count f s <= String.length s)%nat.
Proof. induction s as [|c s IH]; simpl; [done|]. destruct (f c); lia. Qed.

Lemma str_length_repeat c n : String.length (str_repeat c n) = n.
Proof. induction n as [|n IH]; simpl; [done|]. by rewrite IH. Qed.

(** A text of the shape made of digits only is ten digits long. *)
Lemma phone_shape_all_digits s :
  phone_shape s -> str_forall is_digit s = true -> String.length s = 10%nat.
Proof.
  intros ([p0 d1 n1 s1 d2 n2 s2 d3 n3] & (H0 & H1 & Hs1 & H2 & Hs2 & H3) & ->) Hd.
  apply str_count_forall in Hd. revert Hd. parts_simpl.
  rewrite !str_count_append, !str_length_append, !str_count_repeat,
    !str_length_repeat by done.
  rewrite (digits_count _ _ H1), (digits_count _ _ H2), (digits_count _ _ H3).
  rewrite (sep_ok_count _ Hs1), (sep_ok_count _ Hs2).
  destruct H1 as [-> _], H2 as [-> _], H3 as [-> _].
  destruct (prefix_ok_length _ H0) as [-> | Hp]; simpl; lia.
Qed.

(** C31. The validator returns the phone unchanged exactly when it has the
    shape of the pattern, possibly followed by one newline: an optional
    country code (an optional plus sign, a 1, spaces and one character from
    the space to the dot), three digits, three digits and four digits, each
    group followed by spaces, and at most one of space, dot and hyphen
    between two groups. The matcher by derivatives agrees with this
    description on every text. *)
Theorem validate_phone_format_Ok_iff v v' :
  validate_phone_format v = Ok v' <->
  v' = v /\ (phone_shape v \/ exists w, v = w +:+ newline /\ phone_shape w).
Proof. by rewrite validate_phone_format_Ok, phone_pattern_match_spec. Qed.

(** An accepted phone holds ten digits, or eleven with the country
    code. *)
Theorem phone_digit_count v v' :
  validate_phone_format v = Ok v' -> (10 <= str_count is_digit v' <= 11)%nat.
Proof.
  intros [-> [H | (w & -> & H)]%phone_pattern_match_spec]%validate_phone_format_Ok.
  - by apply phone_shape_count.
  - rewrite str_count_append. simpl. pose proof (phone_shape_count _ H). lia.
Qed.

(** An accepted phone holds only digits, characters from the space to
    the dot, and the final newline: no letter and no angle bracket reaches
    the emails through this field. *)
Theorem phone_charset v v' :
  validate_phone_format v = Ok v' -> str_forall phone_char v' = true.
Proof.
  intros [-> [H | (w & -> & H)]%phone_pattern_match_spec]%validate_phone_format_Ok.
  - apply lang_PHONE_PATTERN, lang_alphabet in H.
    by apply (str_forall_impl _ _ _ alphabet_PHONE_PATTERN).
  - apply lang_PHONE_PATTERN, lang_alphabet in H. rewrite str_forall_append.
    by rewrite (str_forall_impl _ _ _ alphabet_PHONE_PATTERN H).
Qed.

(** C34. A phone made of digits only is accepted only with ten digits: the
    country code cannot be written without a character of its class after
    it, so the eleven digits of [15551234567] are refused. *)
Theorem all_digit_phone_has_ten v v' :
  validate_phone_format v = Ok v' -> str_forall is_digit v = true ->
  String.length v = 10%nat.
Proof.
  intros [-> [H | (w & -> & H)]%phone_pattern_match_spec]%validate_phone_format_Ok Hd.
  - by apply phone_shape_all_digits.
  - rewrite str_forall_append in Hd. by apply andb_true_iff in Hd as [_ ?].
Qed.

(** C35. The character after the country code may be any of the fifteen
    characters from the space to the dot, a quote or an ampersand included,
    and a newline may end the phone: both are accepted and kept in the
    validated value. *)
Theorem phone_accepts_range_and_newline c d :
  ascii_in_range " " "." c = true -> digits 10 d ->
  let v := "1" +:+ String c "" +:+ d +:+ newline in
  validate_phone_format v = Ok v.
Proof.
  intros Hc [Hl Hd]. cbv zeta. apply validate_phone_format_Ok. split; [done|].
  apply phone_pattern_match_spec. right. exists ("1" +:+ String c "" +:+ d).
  split; [by rewrite <- !str_append_assoc|].
  do 10 (destruct d as [|? d]; [done|]). destruct d; [|done].
  simpl in Hd. repeat (apply andb_true_iff in Hd as [? Hd]).
  eexists {| pp_prefix := "1" +:+ String c ""; pp_area := String _ (String _ (String _ ""));
             pp_gap1 := 0; pp_sep1 := "";
             pp_exchange := String _ (String _ (String _ "")); pp_gap2 := 0; pp_sep2 := "";
             pp_line := String _ (String _ (String _ (String _ ""))); pp_gap3 := 0 |}.
  split; [|reflexivity]. unfold parts_ok, digits, sep_ok. parts_simpl. simpl.
  repeat split; try tauto;
    try (by repeat (apply andb_true_intro; split; [assumption|])).
  right. exists "", 0%nat, c. by eauto.
Qed.

(** ** Examples *)

Lemma phone_digit_count_witness :
  (10 <= str_count is_digit "+1 555.123.4567" <= 11)%nat.
Proof. apply (phone_digit_count "+1 555.123.4567"). reflexivity. Defined.

Lemma phone_charset_witness : str_forall phone_char "555-123-4567" = true.
Proof. apply (phone_charset "555-123-4567"). reflexivity. Defined.

Lemma all_digit_phone_has_ten_witness : String.length "5551234567" = 10%nat.
Proof.
  apply (all_digit_phone_has_ten "5551234567" "5551234567"); reflexivity.
Defined.

Lemma phone_accepts_range_and_newline_witness :
  validate_phone_format ("1" +:+ String "&" "" +:+ "5551234567" +:+ newline) =
    Ok ("1" +:+ String "&" "" +:+ "5551234567" +:+ newline).
Proof.
  apply (phone_accepts_range_and_newline "&" "5551234567"); [reflexivity | by split].
Defined.

Example phone_plain : phone_pattern_match "555-123-4567" = true.
Proof. reflexivity. Qed.

Example phone_no_separator : phone_pattern_match "5551234567" = true.
Proof. reflexivity. Qed.

Example phone_country_code : phone_pattern_match "+1 555.123.4567" = true.
Proof. reflexivity. Qed.

(** The country code must be followed by a character of its class: the
    eleven digits alone are refused. *)
Example phone_eleven_digits_refused : phone_pattern_match "15551234567" = false.
Proof. reflexivity. Qed.

(** The class after the country code is a range: it holds the characters
    between the space and the dot. *)
Example phone_country_code_hash : phone_pattern_match "1#5551234567" = true.
Proof. reflexivity. Qed.

Example phone_country_code_quote :
  phone_pattern_match (String "1" (String "034" "5551234567")) = true.
Proof. reflexivity. Qed.

(** A newline at the end is accepted, and stays in the validated value. *)
Example phone_trailing_newline :
  validate_phone_format ("555-123-4567" +:+ String "010" "") =
    Ok ("555-123-4567" +:+ String "010" "").
Proof. reflexivity. Qed.

(** One separator at most between two groups, and before it only spaces. *)
Example phone_spaced_hyphen_refused : phone_pattern_match "555 - 123 - 4567" = false.
Proof. reflexivity. Qed.

Example phone_space_then_hyphen : phone_pattern_match "555 -123 -4567" = true.
Proof. reflexivity. Qed.

Example phone_parentheses_refused : phone_pattern_match "(555) 123-4567" = false.
Proof. reflexivity. Qed.

Example phone_letters_refused : phone_pattern_match "555-CALL-NOW" = false.
Proof. reflexivity. Qed.
