(* ===== verification/Hours.v ===== *)
(** * Hours: the business-hours gate

    Models [validate_business_hours] (lines 105-125 of
    [src/lambda/Place-Order.py]). The function reads the wall clock in the
    zone America/New_York and looks at two things only: the English name of
    the day ([strftime('%A')]) and the hour (0 to 23). [business_hours] is
    the decision on such a reading; the clock read itself is an event of the
    environment ([Effects]). The conversion of an instant to Eastern time is
    the time-zone library's and is not modelled. *)

From Stdlib Require Import ZArith List Bool Lia.
From stdpp Require Import base tactics list strings.
From S2P Require Import Prelude PyStr.

#[local] Open Scope Z_scope.

(** ** Data *)

Inductive Weekday :=
| Monday | Tuesday | Wednesday | Thursday | Friday | Saturday | Sunday.

#[export] Instance Weekday_eq_dec : EqDecision Weekday.
Proof. solve_decision. Defined.

(** The fields of [datetime.now(eastern)] the gate reads. *)
Record datetime := {
  weekday : Weekday;
  hour : Z;
}.

(** [now.strftime('%A')] *)
Definition strftime_A (d : Weekday) : string :=
  match d with
  | Monday => "Monday" | Tuesday => "Tuesday" | Wednesday => "Wednesday"
  | Thursday => "Thursday" | Friday => "Friday" | Saturday => "Saturday"
  | Sunday => "Sunday"
  end.

(** A reading of a clock: the hour is one of the 24 of a day. *)
Definition wf_datetime (now : datetime) : Prop := 0 <= hour now < 24.

Definition hours_message : string := "Our business hours are Mon-Sat 8am-8pm.".

(** ** The gate *)

Definition business_hours (now : datetime) : bool * string :=
  let current_day := strftime_A (weekday now) in
  let current_hour := hour now in
  if String.eqb current_day "Sunday" then (false, hours_message)
  else if (current_hour <? 8) || (20 <=? current_hour) then (false, hours_message)
  else (true, "").

(** The readings of one week, hour by hour. *)
Definition all_weekdays : list Weekday :=
  [Monday; Tuesday; Wednesday; Thursday; Friday; Saturday; Sunday].

Definition week_readings : list datetime :=
  d ← all_weekdays; h ← seqZ 0 24; [{| weekday := d; hour := h |}].

(** ** Properties *)

Lemma strftime_A_Sunday d : String.eqb (strftime_A d) "Sunday" = bool_decide (d = Sunday).
Proof. by destruct d. Qed.

(** C8. Intake is open exactly from Monday to Saturday, from 8 o'clock
    included to 20 o'clock excluded. *)
Theorem business_hours_open_iff now :
  (business_hours now).1 = true <-> weekday now <> Sunday /\ 8 <= hour now < 20.
Proof.
  unfold business_hours. rewrite strftime_A_Sunday.
  case_bool_decide; [simpl; split; [done | by intros [? _]]|].
  destruct (Z.ltb_spec (hour now) 8), (Z.leb_spec 20 (hour now)); simpl;
    split; try done; try lia; intros [_ ?]; lia.
Qed.

(** The answer carries the fixed message exactly when intake is closed, and
    the empty message when it is open. *)
Lemma business_hours_message now :
  (business_hours now).2 = if (business_hours now).1 then "" else hours_message.
Proof. unfold business_hours. by repeat case_match. Qed.

Lemma business_hours_closed_message now :
  (business_hours now).1 = false -> (business_hours now).2 = hours_message.
Proof. intros H. by rewrite business_hours_message, H. Qed.

(** Of the 168 hours of a week, intake is open during 72. *)
Example open_hours_per_week :
  length (filter (fun now => (business_hours now).1 = true) week_readings) = 72%nat.
Proof. vm_compute. reflexivity. Qed.

Example sunday_noon_closed :
  business_hours {| weekday := Sunday; hour := 12 |} = (false, hours_message).
Proof. reflexivity. Qed.

Example tuesday_21_closed :
  business_hours {| weekday := Tuesday; hour := 21 |} = (false, hours_message).
Proof. reflexivity. Qed.

Example monday_8_open : business_hours {| weekday := Monday; hour := 8 |} = (true, "").
Proof. reflexivity. Qed.

Example saturday_19_open : business_hours {| weekday := Saturday; hour := 19 |} = (true, "").
Proof. reflexivity. Qed.

Example saturday_20_closed :
  business_hours {| weekday := Saturday; hour := 20 |} = (false, hours_message).
Proof. reflexivity. Qed.
