(* ===== verification/OrderId.v ===== *)
(** * OrderId: the order identifier

    Models [str(uuid.uuid4())[:8].upper()] (line 421 of
    [src/lambda/Place-Order.py]). A UUID is its 128-bit integer; [str] prints
    it as 32 lowercase hexadecimal digits in groups of 8, 4, 4, 4 and 12
    separated by hyphens. The identifier is the first group in upper case:
    the top 32 bits of the UUID, so there are 2^32 identifiers. The random
    draw is the environment's ([Effects]). *)

From Stdlib Require Import ZArith NArith List Bool Lia Ascii String.
From stdpp Require Import base tactics list strings.
From S2P Require Import Prelude PyStr.

#[local] Open Scope N_scope.

(** ** Definitions *)

Definition hex_digit (d : N) : ascii :=
  match d with
  | 0 => "0" | 1 => "1" | 2 => "2" | 3 => "3" | 4 => "4" | 5 => "5"
  | 6 => "6" | 7 => "7" | 8 => "8" | 9 => "9" | 10 => "a" | 11 => "b"
  | 12 => "c" | 13 => "d" | 14 => "e" | _ => "f"
  end%char.

(** ['%0<digits>x' % n] for [n] below [16^digits]: the digits of [n], most
    significant first. *)
Fixpoint hex_fixed (digits : nat) (n : N) : string :=
  match digits with
  | O => EmptyString
  | S d => String (hex_digit ((n / 16 ^ N.of_nat d) mod 16)) (hex_fixed d n)
  end.

(** [str(u)] for a UUID of integer [u]. *)
Definition uuid_str (u : N) : string :=
  let h := hex_fixed 32 u in
  (substring 0 8 h +:+ "-" +:+ substring 8 4 h +:+ "-" +:+ substring 12 4 h
   +:+ "-" +:+ substring 16 4 h +:+ "-" +:+ substring 20 12 h)%string.

(** [str(u)[:8].upper()] *)
Definition order_id_of_uuid (u : N) : string := py_upper (py_prefix 8 (uuid_str u)).

(** A digit or a capital letter from A to F. *)
Definition is_upper_hex (c : ascii) : bool :=
  ascii_in_range "0" "9" c || ascii_in_range "A" "F" c.

(** The top 32 bits of a 128-bit integer. *)
Definition top32 (u : N) : N := (u / 2 ^ 96) mod 2 ^ 32.

(** ** Hexadecimal digits *)

Lemma hex_fixed_length d n : String.length (hex_fixed d n) = d.
Proof. induction d as [|d IH]; simpl; [done|]. by rewrite IH. Qed.

(** The sixteen digits. *)
Definition hex_values : list N := N.of_nat <$> seq 0 16.

Lemma hex_value_elem d : d < 16 -> d ∈ hex_values.
Proof.
  intros H. apply list_elem_of_fmap. exists (N.to_nat d). split; [lia|].
  apply elem_of_seq. lia.
Qed.

(** A property of the sixteen digits is checked on each of them. *)
Lemma hex_values_ind (P : N -> Prop) :
  Forall P hex_values -> forall d, d < 16 -> P d.
Proof. intros H d Hd. by eapply Forall_forall in H; [|apply hex_value_elem]. Qed.

Lemma mod_16_lt n : n mod 16 < 16.
Proof. by apply N.mod_lt. Qed.

Lemma hex_digit_upper d : d < 16 -> is_upper_hex (ascii_upper (hex_digit d)) = true.
Proof. revert d. apply hex_values_ind. by repeat constructor. Qed.

Lemma hex_digit_upper_inj a b :
  a < 16 -> b < 16 ->
  ascii_upper (hex_digit a) = ascii_upper (hex_digit b) -> a = b.
Proof.
  intros Ha Hb. revert b Hb. revert a Ha.
  apply (hex_values_ind (fun a => forall b, b < 16 ->
    ascii_upper (hex_digit a) = ascii_upper (hex_digit b) -> a = b)).
  repeat constructor; intros b Hb; revert b Hb;
    refine (hex_values_ind (fun b => _ -> _ = b) _); repeat constructor; done.
Qed.

(** ** The digits of a number *)

Lemma substring_0_prefix n s : substring 0 n s = py_prefix n s.
Proof.
  revert s. induction n as [|n IH]; intros [|c s]; simpl; try done.
  by rewrite IH.
Qed.

(** The first [a] of [a + b] digits are the digits of the quotient by
    [16^b]. *)
Lemma hex_fixed_prefix a b n :
  py_prefix a (hex_fixed (a + b) n) = hex_fixed a (n / 16 ^ N.of_nat b).
Proof.
  induction a as [|a IH]; simpl; [by destruct (hex_fixed b n)|].
  rewrite IH. do 2 f_equal.
  rewrite N.Div0.div_div, <- N.pow_add_r. do 3 f_equal. lia.
Qed.

(** The [d] digits of a number are those of its remainder by [16^d]. *)
Lemma hex_fixed_mod d e n : (d <= e)%nat ->
  hex_fixed d (n mod 16 ^ N.of_nat e) = hex_fixed d n.
Proof.
  induction d as [|d IH]; intros Hde; simpl; [done|].
  rewrite IH by lia. do 2 f_equal.
  replace (N.of_nat e) with (N.of_nat d + N.of_nat (e - d)) by lia.
  rewrite N.pow_add_r, N.Div0.mod_mul_r.
  rewrite N.mul_comm, N.div_add by (apply N.pow_nonzero; lia).
  rewrite (N.div_small (_ mod _)) by (apply N.mod_lt, N.pow_nonzero; lia).
  rewrite N.add_0_l.
  replace (N.of_nat (e - d)) with (1 + N.of_nat (e - d - 1)) by lia.
  rewrite N.pow_add_r, N.pow_1_r, N.Div0.mod_mul_r.
  rewrite N.mul_comm, N.Div0.mod_add. apply N.Div0.mod_mod.
Qed.

(** Numbers below [16^d] with the same upper-case digits are equal. *)
Lemma upper_hex_fixed_inj d a b :
  a < 16 ^ N.of_nat d -> b < 16 ^ N.of_nat d ->
  py_upper (hex_fixed d a) = py_upper (hex_fixed d b) -> a = b.
Proof.
  revert a b. induction d as [|d IH]; intros a b Ha Hb H.
  { simpl in Ha, Hb. lia. }
  unfold py_upper in H. cbn [hex_fixed str_map] in H. injection H as Hc Hs.
  apply hex_digit_upper_inj in Hc; [|apply mod_16_lt..].
  assert (16 ^ N.of_nat d <> 0) as Hnz by (apply N.pow_nonzero; lia).
  replace (N.of_nat (S d)) with (1 + N.of_nat d) in Ha, Hb by lia.
  rewrite N.pow_add_r, N.pow_1_r in Ha, Hb.
  rewrite !N.mod_small in Hc by (apply N.Div0.div_lt_upper_bound; lia).
  rewrite <- (hex_fixed_mod d d a), <- (hex_fixed_mod d d b) in Hs by lia.
  apply IH in Hs; [|by apply N.mod_lt..].
  rewrite (N.div_mod a (16 ^ N.of_nat d)), (N.div_mod b (16 ^ N.of_nat d)) by done.
  by rewrite Hc, Hs.
Qed.

Lemma upper_hex_fixed_charset d n :
  str_forall is_upper_hex (py_upper (hex_fixed d n)) = true.
Proof.
  induction d as [|d IH]; [done|].
  unfold py_upper in *. cbn [hex_fixed str_map str_forall].
  by rewrite hex_digit_upper, IH by apply mod_16_lt.
Qed.

(** ** The identifier *)

Lemma uuid_str_prefix u : py_prefix 8 (uuid_str u) = hex_fixed 8 (u / 2 ^ 96).
Proof.
  unfold uuid_str. rewrite py_prefix_append.
  - rewrite substring_0_prefix. apply (hex_fixed_prefix 8 24).
  - by rewrite substring_0_prefix, py_prefix_length, hex_fixed_length.
Qed.

Lemma order_id_digits u : order_id_of_uuid u = py_upper (hex_fixed 8 (top32 u)).
Proof.
  unfold order_id_of_uuid, top32. rewrite uuid_str_prefix.
  by rewrite (hex_fixed_mod 8 8).
Qed.

(** C22. The identifier has 8 characters, each a digit or a capital letter
    from A to F. *)
Theorem order_id_wellformed u :
  String.length (order_id_of_uuid u) = 8%nat /\
  str_forall is_upper_hex (order_id_of_uuid u) = true.
Proof.
  rewrite order_id_digits. split; [|apply upper_hex_fixed_charset].
  unfold py_upper. by rewrite str_map_length, hex_fixed_length.
Qed.

(** C23. Two UUIDs give the same identifier exactly when their top 32 bits
    agree: the other 96 bits of the draw are discarded, and identifiers
    collide for any two draws that share the 32. *)
Theorem order_id_eq_iff u v :
  order_id_of_uuid u = order_id_of_uuid v <-> top32 u = top32 v.
Proof.
  rewrite !order_id_digits. split; [|by intros ->].
  apply (upper_hex_fixed_inj 8); by apply N.mod_lt.
Qed.

Example order_id_example :
  order_id_of_uuid 0x3f2b9c40a1d24e5f8b7c0123456789ab = "3F2B9C40"%string.
Proof. vm_compute. reflexivity. Qed.

Example uuid_str_example :
  uuid_str 0x3f2b9c40a1d24e5f8b7c0123456789ab =
  "3f2b9c40-a1d2-4e5f-8b7c-0123456789ab"%string.
Proof. vm_compute. reflexivity. Qed.

(** Two different UUIDs with one identifier. *)
Example order_id_collision :
  order_id_of_uuid 0x3f2b9c40a1d24e5f8b7c0123456789ab =
  order_id_of_uuid 0x3f2b9c40ffff4fff8fffffffffffffff.
Proof. vm_compute. reflexivity. Qed.
