(* ===== verification/Effects.v ===== *)
(** * Effects: exceptions, external calls and their trace

    The handler reads a clock, draws a UUID, prints log lines, posts to the
    human-verification service, resolves DNS records and sends emails. This
    file holds the model of these effects, shared by the components that
    perform them:
    - [exn]: the exceptions the code raises or catches;
    - [Event]: one external call, with what the outside answered;
    - [Environment]: the outside world, as the answers it gives. An answer
      may depend on everything that happened before (the history), so the
      class covers clocks that advance and services that fail the second
      time; theorems quantify over every environment;
    - [M]: computations that may raise and that record their events. A
      computation is run from a history and returns its result and the events
      it added, in order. Events are kept when an exception is raised, as
      Python keeps the effects of the statements already run;
    - [try_except]: Python's [try]/[except] with a choice of handled
      exceptions;
    - [meq]: equality of computations on every history, with the monad laws
      and the [Proper] instances that let [rewrite] work under [bind]. *)

From Stdlib Require Import ZArith List Bool Lia.
From stdpp Require Import base tactics option list strings pretty gmap.
From S2P Require Import Prelude PyFloat PyStr Hours.

(** ** Exceptions *)

Inductive exn :=
| HTTPException (status_code : Z) (detail : string)
| NoAnswer (msg : string)         (* dns.resolver.NoAnswer *)
| NXDOMAIN (msg : string)         (* dns.resolver.NXDOMAIN *)
| OtherException (msg : string).  (* any other subclass of Exception *)

(** [isinstance(e, HTTPException)] *)
Definition is_HTTPException (e : exn) : bool :=
  match e with HTTPException _ _ => true | _ => false end.

(** The classes an [except] clause can name. *)
Inductive exn_class :=
| ClsHTTPException | ClsNoAnswer | ClsNXDOMAIN | ClsException.

(** [isinstance(e, cls)]: every exception is an [Exception]. *)
Definition isinstance (e : exn) (cls : exn_class) : bool :=
  match cls, e with
  | ClsException, _ => true
  | ClsHTTPException, HTTPException _ _ => true
  | ClsNoAnswer, NoAnswer _ => true
  | ClsNXDOMAIN, NXDOMAIN _ => true
  | _, _ => false
  end.

(** [str(e)]: the message of the exception; for an [HTTPException], the
    status and the detail. *)
Definition exn_str (e : exn) : string :=
  match e with
  | HTTPException status_code detail => pretty status_code +:+ ": " +:+ detail
  | NoAnswer msg | NXDOMAIN msg | OtherException msg => msg
  end.

(** ** JSON values, as [response.json()] returns them *)

Inductive json :=
| JNull
| JBool (b : bool)
| JInt (n : Z)
| JFloat (x : float)
| JString (s : string)
| JArray (xs : list json)
| JObject (fields : list (string * json)).

(** The truth value Python gives a parsed JSON value. *)
Definition json_truthy (j : json) : bool :=
  match j with
  | JNull => false
  | JBool b => b
  | JInt n => negb (n =? 0)%Z
  | JFloat x => float_truthy x
  | JString s => str_truthy s
  | JArray xs => negb (is_nil xs)
  | JObject fields => negb (is_nil fields)
  end.

(** [type(j).__name__] *)
Definition json_type_name (j : json) : string :=
  match j with
  | JNull => "NoneType"
  | JBool _ => "bool"
  | JInt _ => "int"
  | JFloat _ => "float"
  | JString _ => "str"
  | JArray _ => "list"
  | JObject _ => "dict"
  end.

(** The [AttributeError] of [j.attr] on a value without that attribute. *)
Definition attribute_error (type_name attr : string) : exn :=
  OtherException ("'" +:+ type_name +:+ "' object has no attribute '" +:+ attr +:+ "'").

(** [d.get(key, default)] on the items of a dictionary. *)
Fixpoint dict_get {V} (fields : list (string * V)) (key : string) (default : V) : V :=
  match fields with
  | [] => default
  | (k, v) :: rest => if String.eqb k key then v else dict_get rest key default
  end.

(** ** External calls *)

Inductive rdtype := MX | NS.

Inductive dns_outcome :=
| DnsAnswer (records : list string)
| DnsNoAnswer (msg : string)
| DnsNXDOMAIN (msg : string)
| DnsError (msg : string).          (* timeout, no name servers, ... *)

Inductive http_outcome :=
| HttpBody (body : json)            (* a response whose body is JSON *)
| HttpNotJson (msg : string)        (* a response whose body is not JSON *)
| HttpError (msg : string).         (* no response: connection error, timeout *)

(** The arguments of one [ses_client.send_email] call. An address is [None]
    when the environment variable it is read from is not set. *)
Record SesEmail := {
  Source : option string;
  ToAddresses : list (option string);
  Subject : string;
  Html : string;
}.

Inductive ses_outcome :=
| SesSent
| SesError (msg : string).

#[export] Instance exn_eq_dec : EqDecision exn.
Proof. solve_decision. Defined.
#[export] Instance rdtype_eq_dec : EqDecision rdtype.
Proof. solve_decision. Defined.
#[export] Instance dns_outcome_eq_dec : EqDecision dns_outcome.
Proof. solve_decision. Defined.
#[export] Instance ses_outcome_eq_dec : EqDecision ses_outcome.
Proof. solve_decision. Defined.

Inductive Event :=
| EvNow (now : datetime)
| EvUuid4 (u : N)
| EvPrint (line : string)
| EvHttpPost (url : string) (data : list (string * option string)) (out : http_outcome)
| EvDnsResolve (domain : string) (ty : rdtype) (out : dns_outcome)
| EvSesSendEmail (msg : SesEmail) (out : ses_outcome).

(** The outside world: what it answers to a call, given the history. *)
Class Environment := {
  env_now : list Event -> datetime;
  env_uuid4 : list Event -> N;
  env_http_post :
    list Event -> string -> list (string * option string) -> http_outcome;
  env_dns_resolve : list Event -> string -> rdtype -> dns_outcome;
  env_ses_send_email : list Event -> SesEmail -> ses_outcome;
}.

(** ** Computations *)

Definition M (A : Type) : Type := list Event -> result exn A * list Event.

#[export] Instance M_ret : MRet M := fun _ a _ => (Ok a, []).

#[export] Instance M_bind : MBind M := fun _ _ f m t =>
  match m t with
  | (Ok a, evs) => let r := f a (t ++ evs) in (r.1, evs ++ r.2)
  | (Err e, evs) => (Err e, evs)
  end.

Definition raise {A} (e : exn) : M A := fun _ => (Err e, []).

(** [try: body except ...: handler]. The handler of an exception the clauses
    do not name is [None]: the exception goes on. *)
Definition try_except {A} (body : M A) (handler : exn -> option (M A)) : M A :=
  fun t =>
    match body t with
    | (Ok a, evs) => (Ok a, evs)
    | (Err e, evs) =>
        match handler e with
        | Some h => let r := h (t ++ evs) in (r.1, evs ++ r.2)
        | None => (Err e, evs)
        end
    end.

(** The clauses of a [try] statement, in order: [except (c1, c2) as e: h e].
    The first clause that names a class of the exception handles it. *)
Fixpoint except_clauses {A} (clauses : list (list exn_class * (exn -> M A)))
  (e : exn) : option (M A) :=
  match clauses with
  | [] => None
  | (classes, h) :: rest =>
      if existsb (isinstance e) classes then Some (h e)
      else except_clauses rest e
  end.

(** ** Configuration

    Read once when the module is loaded, never written: the environment
    variables (absent ones are [None]) and the blocklist of disposable
    domains. *)
Class Config := {
  BUSINESS_EMAIL : option string;
  NO_REPLY_EMAIL : option string;
  SUPPORT_EMAIL : option string;
  CLOUDFLARE_KEY : option string;
  blocklist : gset string;
}.

(** [os.getenv(name)] in the variables [environ] of the process: [None] for
    a variable that is not set. *)
Definition getenv (environ : gmap string string) (name : string) : option string :=
  environ !! name.

(** The configuration the module computes when it is loaded, from the
    variables of the process and the blocklist of the library. *)
Definition load_config (environ : gmap string string) (disposable : gset string) :
  Config :=
  {| BUSINESS_EMAIL := getenv environ "BUSINESS_EMAIL";
     NO_REPLY_EMAIL := getenv environ "NO_REPLY_EMAIL";
     SUPPORT_EMAIL := getenv environ "SUPPORT_EMAIL";
     CLOUDFLARE_KEY := getenv environ "CLOUDFLARE_KEY";
     blocklist := disposable |}.

(** The configuration with another secret key, and the rest as it is. *)
Definition with_key (cfg : Config) (key : option string) : Config :=
  {| BUSINESS_EMAIL := @BUSINESS_EMAIL cfg;
     NO_REPLY_EMAIL := @NO_REPLY_EMAIL cfg;
     SUPPORT_EMAIL := @SUPPORT_EMAIL cfg;
     CLOUDFLARE_KEY := key;
     blocklist := @blocklist cfg |}.

Lemma with_key_id (cfg : Config) : with_key cfg (@CLOUDFLARE_KEY cfg) = cfg.
Proof. by destruct cfg. Qed.

(** It is the configuration of a process started with another value of the
    variable [CLOUDFLARE_KEY] ([None]: without the variable) and the other
    variables as they are. *)
Lemma load_config_with_key environ disposable key :
  load_config (partial_alter (fun _ => key) "CLOUDFLARE_KEY" environ) disposable =
  with_key (load_config environ disposable) key.
Proof.
  unfold load_config, with_key, getenv. simpl.
  by rewrite lookup_partial_alter_eq, !lookup_partial_alter_ne.
Qed.

(** Two processes whose variables differ in [CLOUDFLARE_KEY] at most. *)
Lemma load_config_agree environ environ' disposable :
  (forall name, name <> "CLOUDFLARE_KEY" -> environ' !! name = environ !! name) ->
  load_config environ' disposable =
  with_key (load_config environ disposable) (environ' !! "CLOUDFLARE_KEY").
Proof.
  intros H. unfold load_config, with_key, getenv. simpl.
  by rewrite (H "BUSINESS_EMAIL"), (H "NO_REPLY_EMAIL"), (H "SUPPORT_EMAIL").
Qed.

(** *** The calls *)

Section Calls.
Context {env : Environment}.

Definition datetime_now : M datetime :=
  fun t => (Ok (env_now t), [EvNow (env_now t)]).

Definition uuid4 : M N :=
  fun t => (Ok (env_uuid4 t), [EvUuid4 (env_uuid4 t)]).

Definition print (line : string) : M unit :=
  fun _ => (Ok (), [EvPrint line]).

(** [client.post(url, data=...)] followed by [response.json()]. *)
Definition http_post_json (url : string) (data : list (string * option string)) :
  M json :=
  fun t =>
    let out := env_http_post t url data in
    (match out with
     | HttpBody j => Ok j
     | HttpNotJson msg | HttpError msg => Err (OtherException msg)
     end, [EvHttpPost url data out]).

(** [dns.resolver.resolve(domain, ty)] *)
Definition dns_resolve (domain : string) (ty : rdtype) : M (list string) :=
  fun t =>
    let out := env_dns_resolve t domain ty in
    (match out with
     | DnsAnswer rs => Ok rs
     | DnsNoAnswer msg => Err (NoAnswer msg)
     | DnsNXDOMAIN msg => Err (NXDOMAIN msg)
     | DnsError msg => Err (OtherException msg)
     end, [EvDnsResolve domain ty out]).

(** [ses_client.send_email(...)] *)
Definition ses_send_email (msg : SesEmail) : M unit :=
  fun t =>
    let out := env_ses_send_email t msg in
    (match out with
     | SesSent => Ok ()
     | SesError e => Err (OtherException e)
     end, [EvSesSendEmail msg out]).

End Calls.

(** ** Kinds of events *)

Definition is_print (ev : Event) : bool :=
  match ev with EvPrint _ => true | _ => false end.
Definition is_http_post (ev : Event) : bool :=
  match ev with EvHttpPost _ _ _ => true | _ => false end.
Definition is_dns (ev : Event) : bool :=
  match ev with EvDnsResolve _ _ _ => true | _ => false end.
Definition is_ses (ev : Event) : bool :=
  match ev with EvSesSendEmail _ _ => true | _ => false end.

(** A call that leaves the process: the three network services. *)
Definition is_network (ev : Event) : bool := is_http_post ev || is_dns ev || is_ses ev.

(** The emails handed to SES that it accepted. *)
Definition emails_sent (evs : list Event) : list SesEmail :=
  omap (fun ev => match ev with EvSesSendEmail msg SesSent => Some msg | _ => None end) evs.

Lemma emails_sent_app evs1 evs2 :
  emails_sent (evs1 ++ evs2) = emails_sent evs1 ++ emails_sent evs2.
Proof. apply omap_app. Qed.

Lemma emails_sent_cons_other ev evs :
  is_ses ev = false -> emails_sent (ev :: evs) = emails_sent evs.
Proof. by destruct ev. Qed.

Lemma emails_sent_no_ses evs : forallb (fun ev => negb (is_ses ev)) evs = true ->
  emails_sent evs = [].
Proof.
  induction evs as [|ev evs IH]; [done|]. simpl. intros [Hev Hevs]%andb_true_iff.
  rewrite <- IH by done. apply emails_sent_cons_other. by destruct (is_ses ev).
Qed.

(** ** Equality of computations *)

Definition meq {A} (m1 m2 : M A) : Prop := forall t, m1 t = m2 t.

Infix "≃" := meq (at level 70) : stdpp_scope.

#[export] Instance meq_equiv {A} : Equivalence (@meq A).
Proof.
  split.
  - by intros m t.
  - by intros m1 m2 H t.
  - intros m1 m2 m3 H1 H2 t. by rewrite H1.
Qed.

#[export] Instance mbind_proper {A B} :
  Proper (pointwise_relation A meq ==> meq ==> meq) (@mbind M _ A B).
Proof.
  intros f g Hfg m1 m2 Hm t. unfold mbind, M_bind. rewrite Hm.
  destruct (m2 t) as [[a|e] evs]; [|done]. by rewrite Hfg.
Qed.

#[export] Instance try_except_proper {A} :
  Proper (meq ==> eq ==> meq) (@try_except A).
Proof. intros m1 m2 Hm h ? <- t. unfold try_except. by rewrite Hm. Qed.

(** *** The monad laws *)

Section Laws.
Context {A B C : Type}.

Lemma M_bind_ret_l (a : A) (f : A -> M B) : (mret a ≫= f) ≃ f a.
Proof.
  intros t. unfold mbind, mret, M_bind, M_ret. simpl.
  rewrite app_nil_r. by destruct (f a t).
Qed.

Lemma M_bind_ret_r (m : M A) : (m ≫= mret) ≃ m.
Proof.
  intros t. unfold mbind, mret, M_bind, M_ret.
  destruct (m t) as [[a|e] evs]; simpl; [|done]. by rewrite app_nil_r.
Qed.

Lemma M_bind_assoc (m : M A) (f : A -> M B) (g : B -> M C) :
  ((m ≫= f) ≫= g) ≃ (m ≫= fun a => f a ≫= g).
Proof.
  intros t. unfold mbind, M_bind.
  destruct (m t) as [[a|e] evs]; simpl; [|done].
  destruct (f a (t ++ evs)) as [[b|e] evs']; simpl; [|done].
  by rewrite !app_assoc.
Qed.

Lemma M_bind_raise (e : exn) (f : A -> M B) : (raise e ≫= f) ≃ raise e.
Proof. by intros t. Qed.

Lemma try_except_ret (a : A) h : try_except (mret a) h ≃ mret a.
Proof. by intros t. Qed.

Lemma try_except_raise_handled (e : exn) h (k : M A) :
  h e = Some k -> try_except (raise e) h ≃ k.
Proof.
  intros Hh t. unfold try_except, raise. rewrite Hh. simpl.
  rewrite app_nil_r. by destruct (k t).
Qed.

Lemma try_except_raise_unhandled (e : exn) (h : exn -> option (M A)) :
  h e = None -> try_except (raise e) h ≃ raise e.
Proof. intros Hh t. unfold try_except, raise. by rewrite Hh. Qed.

End Laws.

(** ** Running a computation: result and events *)

Section Run.
Context {A B : Type}.
Implicit Types (m : M A) (f : A -> M B) (t : list Event).

Lemma run_bind_Ok m f t a evs :
  m t = (Ok a, evs) ->
  (m ≫= f) t = ((f a (t ++ evs)).1, evs ++ (f a (t ++ evs)).2).
Proof. intros H. unfold mbind, M_bind. by rewrite H. Qed.

Lemma run_bind_Err m f t e evs :
  m t = (Err e, evs) -> (m ≫= f) t = (Err e, evs).
Proof. intros H. unfold mbind, M_bind. by rewrite H. Qed.

(** The events of a sequence start with the events of its first part. *)
Lemma run_bind_events_prefix m f t :
  (m t).2 `prefix_of` ((m ≫= f) t).2.
Proof.
  unfold mbind, M_bind. destruct (m t) as [[a|e] evs]; simpl; [|done].
  by apply prefix_app_r.
Qed.

(** A sequence fails when its first part fails, with the same exception. *)
Lemma run_bind_Err_inv m f t e :
  ((m ≫= f) t).1 = Err e ->
  (m t).1 = Err e \/ exists a, (m t).1 = Ok a /\ (f a (t ++ (m t).2)).1 = Err e.
Proof.
  unfold mbind, M_bind. destruct (m t) as [[a|e'] evs]; simpl; intros He.
  - right. eauto.
  - injection He as ->. by left.
Qed.

End Run.

(** ** Runs, step by step

    [runs m t r evs]: from history [t], [m] ends with [r] after the events
    [evs]. The rules below follow the structure of a computation, so that a
    run of a handler is derived call by call. *)

Definition runs {A} (m : M A) (t : list Event) (r : result exn A)
  (evs : list Event) : Prop := m t = (r, evs).

Section Runs.
Context {A B : Type}.
Implicit Types (m : M A) (f : A -> M B) (t : list Event).

Lemma runs_ret (a : A) t : runs (mret a) t (Ok a) [].
Proof. done. Qed.

Lemma runs_raise (e : exn) t : runs (@raise A e) t (Err e) [].
Proof. done. Qed.

(** A computation runs to whatever it computes. *)
Lemma runs_self m t : runs m t (m t).1 (m t).2.
Proof. unfold runs. by destruct (m t). Qed.

Lemma runs_of_fst m t r : (m t).1 = r -> runs m t r (m t).2.
Proof. intros <-. apply runs_self. Qed.

Lemma runs_bind_Ok m f t a evs r evs' :
  runs m t (Ok a) evs -> runs (f a) (t ++ evs) r evs' ->
  runs (m ≫= f) t r (evs ++ evs').
Proof. unfold runs, mbind, M_bind. by intros -> ->. Qed.

Lemma runs_bind_Err m f t e evs :
  runs m t (Err e) evs -> runs (m ≫= f) t (Err e) evs.
Proof. unfold runs, mbind, M_bind. by intros ->. Qed.

Lemma runs_try_Ok m h t a evs :
  runs m t (Ok a) evs -> runs (try_except m h) t (Ok a) evs.
Proof. unfold runs, try_except. by intros ->. Qed.

Lemma runs_try_handled m h t e evs k r evs' :
  runs m t (Err e) evs -> h e = Some k -> runs k (t ++ evs) r evs' ->
  runs (try_except m h) t r (evs ++ evs').
Proof. unfold runs, try_except. by intros -> -> ->. Qed.

Lemma runs_try_unhandled m h t e evs :
  runs m t (Err e) evs -> h e = None -> runs (try_except m h) t (Err e) evs.
Proof. unfold runs, try_except. by intros -> ->. Qed.

(** A run is a function of the computation and the history. *)
Lemma runs_inj m t r evs r' evs' :
  runs m t r evs -> runs m t r' evs' -> r = r' /\ evs = evs'.
Proof. unfold runs. intros -> [= -> ->]. done. Qed.

Lemma runs_eq m t r evs r' evs' :
  runs m t r evs -> r = r' -> evs = evs' -> runs m t r' evs'.
Proof. by intros ? <- <-. Qed.

End Runs.

(** Histories and event lists in normal form: no empty list appended, and
    appends nested to the right. *)
Ltac norm_events :=
  repeat (rewrite app_nil_r || rewrite <- app_assoc); cbn [app].

Ltac norm_events_in H :=
  repeat (rewrite app_nil_r in H || rewrite <- app_assoc in H); cbn [app] in H.

(** One step of a run: a return, a raise, a call of the environment, a call
    whose result is a hypothesis, or a test that a hypothesis decides. *)
Ltac run_step :=
  norm_events;
  match goal with
  | |- runs (mret _) _ _ _ => apply runs_ret
  | |- runs (raise _) _ _ _ => apply runs_raise
  | H : (?m ?t).1 = _ |- runs ?m ?t _ _ => apply (runs_of_fst m t _ H)
  | H : ?b = _ |- runs (if ?b then _ else _) _ _ _ => rewrite H
  | H : ?b = _ |- runs (if negb ?b then _ else _) _ _ _ => rewrite H; cbn [negb]
  | |- runs (if negb _ then _ else _) _ _ _ => progress cbn [negb]
  | |- runs (_ ≫= _) _ _ _ =>
      first [ eapply runs_bind_Ok; [solve [repeat run_step] | cbn beta]
            | eapply runs_bind_Err; solve [repeat run_step] ]
  | |- runs (try_except _ _) _ _ _ =>
      first [ eapply runs_try_Ok; solve [repeat run_step]
            | eapply runs_try_handled;
                [solve [repeat run_step] | reflexivity | cbn beta]
            | eapply runs_try_unhandled; [solve [repeat run_step] | reflexivity] ]
  | |- runs _ _ _ _ => reflexivity
  end.

(** Derive a run and compare it with the stated result and events. *)
Ltac run_exec :=
  eapply runs_eq; [repeat run_step | try reflexivity | norm_events; try reflexivity].

(** Every event of a computation satisfies [P]. *)
Definition events_all {A} (P : Event -> bool) (m : M A) : Prop :=
  forall t, forallb P (m t).2 = true.

Section EventsAll.
Context {A B : Type} (P : Event -> bool).

Lemma events_all_ret (a : A) : events_all P (mret a).
Proof. by intros t. Qed.

Lemma events_all_raise (e : exn) : events_all P (@raise A e).
Proof. by intros t. Qed.

Lemma events_all_bind (m : M A) (f : A -> M B) :
  events_all P m -> (forall a, events_all P (f a)) -> events_all P (m ≫= f).
Proof.
  intros Hm Hf t. unfold mbind, M_bind. specialize (Hm t).
  destruct (m t) as [[a|e] evs]; simpl in *; [|done].
  rewrite forallb_app, Hm. apply Hf.
Qed.

Lemma events_all_try_except (m : M A) h :
  events_all P m -> (forall e k, h e = Some k -> events_all P k) ->
  events_all P (try_except m h).
Proof.
  intros Hm Hh t. unfold try_except. specialize (Hm t).
  destruct (m t) as [[a|e] evs]; simpl in *; [done|].
  destruct (h e) as [k|] eqn:E; simpl; [|done].
  rewrite forallb_app, Hm. by eapply Hh.
Qed.

End EventsAll.

#[export] Hint Resolve events_all_ret events_all_raise events_all_bind
  events_all_try_except : order.

(** ** Concrete environments

    The theorems hold in every environment and configuration. The examples
    run the code in these: a configuration with every variable set and two
    blocklisted domains, and an environment given by a clock reading, a UUID,
    the answer of the verification service, the DNS as a function of the
    query, and SES as a function of the history and the email. *)

Definition example_config : Config :=
  {| BUSINESS_EMAIL := Some "owner@shop.example";
     NO_REPLY_EMAIL := Some "no-reply@shop.example";
     SUPPORT_EMAIL := Some "support@shop.example";
     CLOUDFLARE_KEY := Some "turnstile-secret";
     blocklist := {[ "mailinator.com"; "tempmail.com" ]} |}.

Definition scripted_env (now : datetime) (u : N) (http : http_outcome)
    (dns : string -> rdtype -> dns_outcome)
    (ses : list Event -> SesEmail -> ses_outcome) : Environment :=
  {| env_now _ := now;
     env_uuid4 _ := u;
     env_http_post _ _ _ := http;
     env_dns_resolve _ := dns;
     env_ses_send_email := ses |}.

(** A DNS that knows one domain. *)
Definition dns_knows (domain : string) : string -> rdtype -> dns_outcome :=
  fun d ty =>
    if String.eqb d domain then
      DnsAnswer [match ty with MX => "10 mail." +:+ domain | NS => "ns1." +:+ domain end]
    else DnsNXDOMAIN ("The DNS query name does not exist: " +:+ d).

(** An SES that accepts everything, and one that accepts one email per
    request history and refuses the next. *)
Definition ses_accepts : list Event -> SesEmail -> ses_outcome := fun _ _ => SesSent.

Definition ses_accepts_once : list Event -> SesEmail -> ses_outcome :=
  fun t _ => if existsb is_ses t then SesError "Throttling: Maximum sending rate exceeded."
             else SesSent.

Definition verified : http_outcome := HttpBody (JObject [("success", JBool true)]).

(** Monday at 10, a service that verifies, a DNS that knows [example.com],
    an SES that accepts. *)
Definition example_env : Environment :=
  scripted_env {| weekday := Monday; hour := 10 |}
    0x3f2a9c41d7e84b0fa1c35e6b7d8f9012 verified (dns_knows "example.com") ses_accepts.

(** The same with an SES that refuses the second email. *)
Definition throttled_env : Environment :=
  scripted_env {| weekday := Monday; hour := 10 |}
    0x3f2a9c41d7e84b0fa1c35e6b7d8f9012 verified (dns_knows "example.com")
    ses_accepts_once.

(** The same on a Sunday. *)
Definition sunday_env : Environment :=
  scripted_env {| weekday := Sunday; hour := 10 |}
    0x3f2a9c41d7e84b0fa1c35e6b7d8f9012 verified (dns_knows "example.com") ses_accepts.

(** The same with a verification service that cannot be reached. *)
Definition offline_env : Environment :=
  scripted_env {| weekday := Monday; hour := 10 |}
    0x3f2a9c41d7e84b0fa1c35e6b7d8f9012 (HttpError "All connection attempts failed")
    (dns_knows "example.com") ses_accepts.
