(* ===== verification/AntiAbuse.v ===== *)
(** * AntiAbuse: the human-verification check and the email-domain check

    Models [verify_turnstile_token] (lines 387-398) and [is_domain_real]
    (lines 276-299) of [src/lambda/Place-Order.py].
    - [verify_turnstile_token] posts the secret and the client's token to the
      verification service and returns the field [success] of the JSON
      answer ([False] when it is absent). It catches nothing: a failure of
      the call or of the decoding is an exception of the caller.
    - [is_domain_real] takes the part of the address after its last [@],
      refuses it when the blocklist holds it, then asks the DNS for the MX
      and the NS records; every exception is caught and answered [False]. *)

From Stdlib Require Import ZArith List Bool Lia Ascii.
From stdpp Require Import base tactics option list strings gmap.
From S2P Require Import Prelude PyStr Effects.

(** ** Definitions *)

Definition turnstile_url : string :=
  "https://challenges.cloudflare.com/turnstile/v0/siteverify".

(** [email.split('@')[-1]] *)
Definition domain_of (email : string) : string := py_last (py_split "@" email).

Section AntiAbuse.
Context {cfg : Config} {env : Environment}.

Definition verify_turnstile_token (token : string) : M json :=
  result ← http_post_json turnstile_url
             [("secret", CLOUDFLARE_KEY); ("response", Some token)];
  match result with
  | JObject fields => mret (dict_get fields "success" (JBool false))
  | _ => raise (attribute_error (json_type_name result) "get")
  end.

(** The body of the [try] of [is_domain_real]. *)
Definition domain_checks (email : string) : M bool :=
  let domain := domain_of email in
  if bool_decide (domain ∈ blocklist) then
    print ("BLOCKLIST: Caught disposable email domain: " +:+ domain);;
    mret false
  else
    mx_records ← dns_resolve domain MX;
    if is_nil mx_records then mret false
    else
      ns_records ← dns_resolve domain NS;
      if is_nil ns_records then mret false
      else mret true.

Definition is_domain_real (email : string) : M bool :=
  try_except (domain_checks email)
    (except_clauses
       [([ClsNoAnswer; ClsNXDOMAIN; ClsException], fun _ => mret false)]).

(** ** What the DNS said, as the check reads it *)

(** The MX query made from history [t] was answered with records. *)
Definition mx_present (domain : string) (t : list Event) : bool :=
  match env_dns_resolve t domain MX with
  | DnsAnswer rs => negb (is_nil rs)
  | _ => false
  end.

(** The NS query that follows the MX query was answered with records. *)
Definition ns_present (domain : string) (t : list Event) : bool :=
  match env_dns_resolve
          (t ++ [EvDnsResolve domain MX (env_dns_resolve t domain MX)]) domain NS with
  | DnsAnswer rs => negb (is_nil rs)
  | _ => false
  end.

(** The decision of [is_domain_real], from the blocklist and the two
    answers. *)
Definition domain_verdict (email : string) (t : list Event) : bool :=
  let domain := domain_of email in
  negb (bool_decide (domain ∈ blocklist)) && mx_present domain t && ns_present domain t.

(** ** Properties of [domain_of] *)

Lemma domain_of_no_at email : str_contains "@" (domain_of email) = false.
Proof. apply py_last_split_no_sep. Qed.

Lemma domain_of_append local rest :
  domain_of (local +:+ String "@" rest) = domain_of rest.
Proof. apply py_last_split_append. Qed.

Lemma domain_of_no_occurrence s : str_contains "@" s = false -> domain_of s = s.
Proof. intros Hs. unfold domain_of. by rewrite py_split_no_occurrence. Qed.

(** The domain of [local@domain] is [domain] when [domain] holds no [@]; an
    address with several [@] is cut at the last one. *)
Lemma domain_of_address local domain :
  str_contains "@" domain = false ->
  domain_of (local +:+ String "@" domain) = domain.
Proof. intros Hd. by rewrite domain_of_append, domain_of_no_occurrence. Qed.

Lemma py_last_map {f : string -> string} parts :
  f "" = "" -> py_last (map f parts) = f (py_last parts).
Proof.
  intros Hf. induction parts as [|w [|w' ws] IH]; simpl; try done.
Qed.

(** Lowering the address lowers the domain: the handler's [email.lower()]
    makes the blocklist and the DNS see the domain of the address in lower
    case. *)
Lemma domain_of_lower email : domain_of (py_lower email) = py_lower (domain_of email).
Proof.
  unfold domain_of. rewrite py_split_lower by reflexivity.
  by apply (py_last_map (f := py_lower)).
Qed.

(** ** Properties of [is_domain_real] *)

Lemma is_domain_real_run email t :
  is_domain_real email t =
  let domain := domain_of email in
  if bool_decide (domain ∈ blocklist) then
    (Ok false, [EvPrint ("BLOCKLIST: Caught disposable email domain: " +:+ domain)])
  else
    let mx := env_dns_resolve t domain MX in
    let ev_mx := EvDnsResolve domain MX mx in
    if mx_present domain t then
      let ns := env_dns_resolve (t ++ [ev_mx]) domain NS in
      (Ok (ns_present domain t), [ev_mx; EvDnsResolve domain NS ns])
    else (Ok false, [ev_mx]).
Proof.
  unfold is_domain_real, try_except, domain_checks, mx_present, ns_present.
  cbv zeta. case_bool_decide; [done|].
  unfold mbind, M_bind, dns_resolve. cbv zeta.
  destruct (env_dns_resolve t _ MX) as [[|r rs]| | |] eqn:Emx; try done.
  simpl. destruct (env_dns_resolve _ _ NS) as [[|r' rs']| | |]; done.
Qed.

(** The domain check always answers, with the verdict. *)
Lemma is_domain_real_fst email t :
  (is_domain_real email t).1 = Ok (domain_verdict email t).
Proof.
  rewrite is_domain_real_run. unfold domain_verdict. cbv zeta.
  case_bool_decide; [done|]. simpl. by destruct (mx_present _ t).
Qed.

(** The events of an accepted domain: the two queries. *)
Lemma is_domain_real_snd_accepted email t :
  domain_verdict email t = true ->
  (is_domain_real email t).2 =
    [EvDnsResolve (domain_of email) MX (env_dns_resolve t (domain_of email) MX);
     EvDnsResolve (domain_of email) NS
       (env_dns_resolve
          (t ++ [EvDnsResolve (domain_of email) MX
                   (env_dns_resolve t (domain_of email) MX)])
          (domain_of email) NS)].
Proof.
  rewrite is_domain_real_run. unfold domain_verdict. cbv zeta.
  case_bool_decide; [done|]. by destruct (mx_present _ t).
Qed.

(** The domain check sends no email. *)
Lemma is_domain_real_no_email email t : emails_sent (is_domain_real email t).2 = [].
Proof.
  rewrite is_domain_real_run. cbv zeta.
  case_bool_decide; [done|]. by destruct (mx_present _ t).
Qed.

Lemma mx_present_true domain t :
  mx_present domain t = true <->
  exists r rs, env_dns_resolve t domain MX = DnsAnswer (r :: rs).
Proof.
  unfold mx_present. destruct (env_dns_resolve t domain MX) as [[|r rs]| | |];
    simpl; split; try done; try (intros (? & ? & [=])); eauto.
Qed.

Lemma ns_present_true domain t :
  ns_present domain t = true <->
  exists r rs,
    env_dns_resolve (t ++ [EvDnsResolve domain MX (env_dns_resolve t domain MX)])
      domain NS = DnsAnswer (r :: rs).
Proof.
  unfold ns_present. destruct (env_dns_resolve (t ++ _) domain NS) as [[|r rs]| | |];
    simpl; split; try done; try (intros (? & ? & [=])); eauto.
Qed.

(** C7. The domain check fails closed. No exception leaves it, and it
    answers [True] exactly when the domain is not on the blocklist, the MX
    query returned at least one record, and the NS query that follows
    returned at least one record; an empty answer, a missing domain, a
    timeout or any other failure of the DNS is a refusal. *)
Theorem is_domain_real_fail_closed email t :
  let domain := domain_of email in
  let mx := env_dns_resolve t domain MX in
  let ns := env_dns_resolve (t ++ [EvDnsResolve domain MX mx]) domain NS in
  (exists b, (is_domain_real email t).1 = Ok b) /\
  ((is_domain_real email t).1 = Ok true <->
   domain ∉ blocklist /\
   (exists r rs, mx = DnsAnswer (r :: rs)) /\
   (exists r rs, ns = DnsAnswer (r :: rs))).
Proof.
  cbv zeta. rewrite is_domain_real_fst. split; [eauto|].
  unfold domain_verdict. cbv zeta.
  rewrite <- mx_present_true, <- ns_present_true.
  case_bool_decide; destruct (mx_present _ t), (ns_present _ t); simpl;
    split; try done; intros (? & ? & ?); done.
Qed.

(** A blocklisted domain is refused without any query to the DNS: the
    only event is the log line. *)
Theorem blocklisted_no_dns email t :
  domain_of email ∈ blocklist ->
  is_domain_real email t =
    (Ok false,
     [EvPrint ("BLOCKLIST: Caught disposable email domain: " +:+ domain_of email)]).
Proof.
  intros Hb. rewrite is_domain_real_run. cbv zeta. by rewrite bool_decide_true.
Qed.

(** The domain check makes at most two calls, both DNS queries for the
    domain of the address: the MX query first, and the NS query only after an
    MX answer with records. *)
Theorem is_domain_real_queries email t :
  let domain := domain_of email in
  let mx := env_dns_resolve t domain MX in
  let ns := env_dns_resolve (t ++ [EvDnsResolve domain MX mx]) domain NS in
  domain ∉ blocklist ->
  (is_domain_real email t).2 =
    EvDnsResolve domain MX mx ::
    (if mx_present domain t then [EvDnsResolve domain NS ns] else []).
Proof.
  cbv zeta. intros Hb. rewrite is_domain_real_run. cbv zeta.
  rewrite bool_decide_false by done. by destruct (mx_present _ t).
Qed.

(** ** Properties of [verify_turnstile_token] *)

Definition turnstile_data (token : string) : list (string * option string) :=
  [("secret", CLOUDFLARE_KEY); ("response", Some token)].

Lemma verify_turnstile_token_snd token t :
  (verify_turnstile_token token t).2 =
    [EvHttpPost turnstile_url (turnstile_data token)
       (env_http_post t turnstile_url (turnstile_data token))].
Proof.
  unfold verify_turnstile_token, mbind, M_bind, http_post_json, turnstile_data.
  cbv zeta. by destruct (env_http_post t _ _) as [[]| |].
Qed.

Lemma verify_turnstile_token_HttpError token t msg :
  env_http_post t turnstile_url (turnstile_data token) = HttpError msg ->
  (verify_turnstile_token token t).1 = Err (OtherException msg).
Proof.
  unfold verify_turnstile_token, mbind, M_bind, http_post_json, turnstile_data.
  cbv zeta. by intros ->.
Qed.

(** An exception of the verification call is never an [HTTPException]. *)
Lemma verify_turnstile_token_Err token t e :
  (verify_turnstile_token token t).1 = Err e -> e = OtherException (exn_str e).
Proof.
  unfold verify_turnstile_token, mbind, M_bind, http_post_json. cbv zeta.
  destruct (env_http_post t _ _) as [[]| |]; simpl; by intros [= <-].
Qed.

(** The verification call makes exactly one request, to the fixed URL
    with the configured secret and the client's token, whatever the answer
    is. When the answer is a JSON object it returns the field [success] of
    the object as it is, and [False] when the object has no such field; any
    other answer (no response, a body that is not JSON, JSON that is not an
    object) raises an exception that is not an [HTTPException]: the
    function catches nothing and decides nothing, the caller does. *)
Theorem verify_turnstile_token_run token t :
  let out := env_http_post t turnstile_url (turnstile_data token) in
  (verify_turnstile_token token t).2 = [EvHttpPost turnstile_url (turnstile_data token) out] /\
  match out with
  | HttpBody (JObject fields) =>
      (verify_turnstile_token token t).1 = Ok (dict_get fields "success" (JBool false))
  | _ => exists msg, (verify_turnstile_token token t).1 = Err (OtherException msg)
  end.
Proof.
  unfold verify_turnstile_token, mbind, M_bind, http_post_json, turnstile_data.
  cbv zeta. destruct (env_http_post t _ _) as [[]| |]; simpl; eauto.
Qed.

End AntiAbuse.

(** ** Examples *)

Lemma domain_of_address_witness : domain_of "Ann.Lee@Example.com" = "Example.com".
Proof. apply (domain_of_address "Ann.Lee" "Example.com"). reflexivity. Defined.

Example domain_of_last_at : domain_of "a@b@c.example" = "c.example".
Proof. reflexivity. Qed.

Example domain_of_without_at : domain_of "no-at-sign" = "no-at-sign".
Proof. reflexivity. Qed.

Lemma blocklisted_no_dns_witness :
  @is_domain_real example_config example_env "bot@mailinator.com" [] =
    (Ok false, [EvPrint "BLOCKLIST: Caught disposable email domain: mailinator.com"]).
Proof.
  apply (@blocklisted_no_dns example_config example_env "bot@mailinator.com" []).
  refine (bool_decide_unpack _ _). by vm_compute.
Defined.

Lemma is_domain_real_queries_witness :
  (@is_domain_real example_config example_env "ann@example.com" []).2 =
    [EvDnsResolve "example.com" MX (DnsAnswer ["10 mail.example.com"]);
     EvDnsResolve "example.com" NS (DnsAnswer ["ns1.example.com"])].
Proof.
  apply (@is_domain_real_queries example_config example_env "ann@example.com" []).
  refine (bool_decide_unpack _ _). by vm_compute.
Defined.

(** A domain the DNS does not know is refused after the MX query. *)
Example unknown_domain_refused :
  @is_domain_real example_config example_env "ann@nowhere.invalid" [] =
    (Ok false,
     [EvDnsResolve "nowhere.invalid" MX
        (DnsNXDOMAIN "The DNS query name does not exist: nowhere.invalid")]).
Proof. by vm_compute. Qed.

(** The blocklist is compared as given: the handler lowers the address
    before the check, the check itself does not. *)
Example blocklist_is_case_sensitive :
  (@is_domain_real example_config example_env "bot@Mailinator.com" []).2 =
    [EvDnsResolve "Mailinator.com" MX
       (DnsNXDOMAIN "The DNS query name does not exist: Mailinator.com")].
Proof. by vm_compute. Qed.
