(* ===== verification/Notify.v ===== *)
(** * Notify: the dispatch of the two emails

    Models [send_order_emails] (lines 302-382 of
    [src/lambda/Place-Order.py]): the product entries are rendered in the
    order of the cart's items, then the notice for the business owner and the
    confirmation for the customer, and the two are handed to SES one after
    the other, the owner's first. Any exception is caught, logged and
    answered [False].

    The three template functions (lines 131-269) are reached through the
    class [Renderer]: the dispatch is proved for every renderer, and the
    model of the templates instantiates the class. *)

From Stdlib Require Import ZArith List Bool Lia.
From stdpp Require Import base tactics option list strings gmap.
From S2P Require Import Prelude PyFloat PyStr Schema Effects.

(** ** The templates, as the dispatch uses them *)

Class Renderer := {
  (** [create_product_html(name, price, image_url, qty)] *)
  create_product_html : string -> float -> string -> Z -> string;
  (** [create_order_html(products, total_qty, total_price, email, phone,
      shipping, order_id)] *)
  create_order_html :
    list string -> Z -> float -> string -> string -> string -> string -> string;
  (** [create_customer_confirmation_html(products, total_qty, total_price,
      order_id)] *)
  create_customer_confirmation_html :
    list string -> Z -> float -> string -> string;
}.

Section Notify.
Context {cfg : Config} {env : Environment} {rnd : Renderer}.

(** ** Definitions *)

(** The loop over [order_data.order.items.items()]. *)
Definition product_html_list (order_data : OrderRequest) : list string :=
  map (fun kv => create_product_html kv.1 (price kv.2) (imageUrl kv.2) (qty kv.2))
      (items (order order_data)).

Definition owner_email (order_data : OrderRequest) (order_id : string) : SesEmail :=
  {| Source := NO_REPLY_EMAIL;
     ToAddresses := [BUSINESS_EMAIL];
     Subject := "New Order Received - " +:+ order_id;
     Html := create_order_html (product_html_list order_data)
               (totalQty (order order_data)) (totalPrice (order order_data))
               (email order_data) (phone order_data) (shipping order_data)
               order_id |}.

Definition customer_email (order_data : OrderRequest) (order_id : string) : SesEmail :=
  {| Source := NO_REPLY_EMAIL;
     ToAddresses := [Some (py_lower (email order_data))];
     Subject := "Order Confirmation - " +:+ order_id;
     Html := create_customer_confirmation_html (product_html_list order_data)
               (totalQty (order order_data)) (totalPrice (order order_data))
               order_id |}.

Definition send_order_emails (order_data : OrderRequest) (order_id : string) : M bool :=
  try_except
    (ses_send_email (owner_email order_data order_id);;
     ses_send_email (customer_email order_data order_id);;
     mret true)
    (except_clauses
       [([ClsException],
         fun e => print ("Error sending email: " +:+ exn_str e);; mret false)]).

(** What SES answers to the owner's email, and then to the customer's. *)
Definition owner_outcome order_data order_id (t : list Event) : ses_outcome :=
  env_ses_send_email t (owner_email order_data order_id).

Definition customer_outcome order_data order_id (t : list Event) : ses_outcome :=
  env_ses_send_email
    (t ++ [EvSesSendEmail (owner_email order_data order_id)
             (owner_outcome order_data order_id t)])
    (customer_email order_data order_id).

(** ** Properties *)

(** The run of the dispatch, by the answers of SES. *)
Lemma send_order_emails_run order_data order_id t :
  send_order_emails order_data order_id t =
  let ev1 := EvSesSendEmail (owner_email order_data order_id)
               (owner_outcome order_data order_id t) in
  let ev2 := EvSesSendEmail (customer_email order_data order_id)
               (customer_outcome order_data order_id t) in
  match owner_outcome order_data order_id t with
  | SesError msg => (Ok false, [ev1; EvPrint ("Error sending email: " +:+ msg)])
  | SesSent =>
      match customer_outcome order_data order_id t with
      | SesError msg => (Ok false, [ev1; ev2; EvPrint ("Error sending email: " +:+ msg)])
      | SesSent => (Ok true, [ev1; ev2])
      end
  end.
Proof.
  unfold send_order_emails, try_except, customer_outcome, owner_outcome.
  unfold mbind, M_bind, ses_send_email. cbv zeta.
  destruct (env_ses_send_email t _); [|done]. simpl.
  by destruct (env_ses_send_email _ (customer_email _ _)).
Qed.

(** No exception leaves the dispatch. *)
Lemma send_order_emails_total order_data order_id t :
  exists b, (send_order_emails order_data order_id t).1 = Ok b.
Proof.
  rewrite send_order_emails_run. cbv zeta.
  destruct (owner_outcome order_data order_id t),
           (customer_outcome order_data order_id t); simpl; eauto.
Qed.

(** A dispatch that reports success made exactly the two calls, both
    accepted. *)
Lemma send_order_emails_snd_sent order_data order_id t :
  (send_order_emails order_data order_id t).1 = Ok true ->
  (send_order_emails order_data order_id t).2 =
    [EvSesSendEmail (owner_email order_data order_id) SesSent;
     EvSesSendEmail (customer_email order_data order_id) SesSent].
Proof.
  rewrite send_order_emails_run. cbv zeta.
  by destruct (owner_outcome order_data order_id t),
             (customer_outcome order_data order_id t).
Qed.

(** Every email of a dispatch is the owner's notice or the customer's
    confirmation. *)
Lemma send_order_emails_sent_elem order_data order_id t msg :
  msg ∈ emails_sent (send_order_emails order_data order_id t).2 ->
  msg = owner_email order_data order_id \/ msg = customer_email order_data order_id.
Proof.
  rewrite send_order_emails_run. cbv zeta.
  destruct (owner_outcome order_data order_id t),
           (customer_outcome order_data order_id t); simpl;
    rewrite ?elem_of_cons, ?elem_of_nil; naive_solver.
Qed.

(** C9. The dispatch always answers: it reports success exactly when SES
    accepted both emails, and no exception leaves it. *)
Theorem send_order_emails_result order_data order_id t :
  (send_order_emails order_data order_id t).1 =
  Ok (bool_decide (owner_outcome order_data order_id t = SesSent /\
                   customer_outcome order_data order_id t = SesSent)).
Proof.
  rewrite send_order_emails_run. cbv zeta.
  destruct (owner_outcome _ _ t), (customer_outcome _ _ t); simpl;
    by rewrite ?bool_decide_true, ?bool_decide_false by naive_solver.
Qed.

(** On success exactly two emails were sent, in this order: the notice
    to the business address, then the confirmation to the customer's address
    in lower case, both from the no-reply address and both carrying the order
    identifier in their subject. *)
Theorem send_order_emails_success order_data order_id t :
  (send_order_emails order_data order_id t).1 = Ok true ->
  emails_sent (send_order_emails order_data order_id t).2 =
    [owner_email order_data order_id; customer_email order_data order_id].
Proof.
  rewrite send_order_emails_run. cbv zeta.
  by destruct (owner_outcome order_data order_id t),
             (customer_outcome order_data order_id t).
Qed.

(** A failure can leave one email sent: when SES accepts the owner's
    notice and refuses the customer's confirmation, the dispatch reports
    failure although the business has been notified of the order. *)
Theorem send_order_emails_partial order_data order_id t msg :
  owner_outcome order_data order_id t = SesSent ->
  customer_outcome order_data order_id t = SesError msg ->
  (send_order_emails order_data order_id t).1 = Ok false /\
  emails_sent (send_order_emails order_data order_id t).2 =
    [owner_email order_data order_id].
Proof.
  intros H1 H2. rewrite send_order_emails_run. cbv zeta. by rewrite H1, H2.
Qed.

(** The customer's email is never sent when the owner's failed. *)
Lemma send_order_emails_owner_failed order_data order_id t msg :
  owner_outcome order_data order_id t = SesError msg ->
  (send_order_emails order_data order_id t).2 =
    [EvSesSendEmail (owner_email order_data order_id) (SesError msg);
     EvPrint ("Error sending email: " +:+ msg)].
Proof. intros H1. rewrite send_order_emails_run. cbv zeta. by rewrite H1. Qed.

(** One product entry per item, in the order of the cart. *)
Lemma product_html_list_length order_data :
  length (product_html_list order_data) = length (items (order order_data)).
Proof. unfold product_html_list. by rewrite length_map. Qed.

End Notify.

(** ** Examples

    A renderer that keeps the text of the templates' arguments and drops the
    markup, and an order of the three-item cart. *)

Definition text_renderer : Renderer :=
  {| create_product_html name _ _ _ := name;
     create_order_html products _ _ email phone shipping order_id :=
       py_join ", " products +:+ " for " +:+ email +:+ " (" +:+ order_id +:+ ")";
     create_customer_confirmation_html products _ _ order_id :=
       py_join ", " products +:+ " (" +:+ order_id +:+ ")" |}.

Definition example_order : OrderRequest :=
  {| phone := "555-123-4567";
     email := "Ann.Lee@Example.com";
     verification := "";
     shipping := "1 Main Street, Springfield";
     order := cart_three;
     cf_token := "token" |}.

Example example_product_html_list :
  @product_html_list text_renderer example_order = ["a"; "b"; "c"].
Proof. reflexivity. Qed.

Lemma send_order_emails_success_witness :
  emails_sent
    (@send_order_emails example_config example_env text_renderer
       example_order "3F2A9C41" []).2 =
    [{| Source := Some "no-reply@shop.example";
        ToAddresses := [Some "owner@shop.example"];
        Subject := "New Order Received - 3F2A9C41";
        Html := "a, b, c for Ann.Lee@Example.com (3F2A9C41)" |};
     {| Source := Some "no-reply@shop.example";
        ToAddresses := [Some "ann.lee@example.com"];
        Subject := "Order Confirmation - 3F2A9C41";
        Html := "a, b, c (3F2A9C41)" |}].
Proof.
  apply (@send_order_emails_success example_config example_env text_renderer
           example_order "3F2A9C41" []).
  reflexivity.
Defined.

Lemma send_order_emails_partial_witness :
  (@send_order_emails example_config throttled_env text_renderer
     example_order "3F2A9C41" []).1 = Ok false /\
  emails_sent
    (@send_order_emails example_config throttled_env text_renderer
       example_order "3F2A9C41" []).2 =
    [@owner_email example_config text_renderer example_order "3F2A9C41"].
Proof.
  apply (@send_order_emails_partial example_config throttled_env text_renderer
           example_order "3F2A9C41" []
           "Throttling: Maximum sending rate exceeded."); reflexivity.
Defined.
