(* ===== verification/Templates.v ===== *)
(** * Templates: the HTML of the two emails

    Models the three template functions of [src/lambda/Place-Order.py]:
    [create_product_html] (lines 131-150), [create_order_html] (lines
    153-216) and [create_customer_confirmation_html] (lines 219-269). Each is
    one f-string: fixed text with the values of the order written into it.

    The fixed text is copied from the source character by character, line by
    line, with one change of notation: the double quote of the HTML
    attributes is written as a backtick, which the templates do not use, and
    [html] turns every backtick of a piece of fixed text into the double
    quote. The values written into the text do not pass through [html]: they
    reach the document as they are, which is what the f-string does. A
    character outside ASCII is the sequence of its UTF-8 bytes, the form in
    which the document is sent.

    [{qty}] and [{total_qty}] print an integer ([Format.str_of_Z]),
    [{price:.2f}] and [{total_price:.2f}] print a float with two decimals
    ([Format.format_2f]), [{SUPPORT_EMAIL}] prints the configured address, or
    [None] when the variable is not set. *)

From Stdlib Require Import ZArith List Bool Lia Ascii String.
From stdpp Require Import base tactics option list strings gmap.
From S2P Require Import Prelude PyFloat PyStr Format Schema Effects Notify.

#[local] Open Scope string_scope.

(** ** Definitions *)

(** The double quote. *)
Definition dquote : ascii := "034".

(** The fixed text of a template, written with a backtick for each double
    quote. *)
Definition html (s : string) : string :=
  str_map (fun c => if Ascii.eqb c "`" then dquote else c) s.

(** [str(x)] of a value that is a string or [None]. *)
Definition option_str (x : option string) : string :=
  match x with
  | Some s => s
  | None => "None"
  end.

(** ["s" if total_qty != 1 else ""] *)
Definition plural (total_qty : Z) : string :=
  if negb (total_qty =? 1)%Z then "s" else "".

Section Templates.
Context {cfg : Config}.

Definition create_product_html (name : string) (price : float) (image_url : string)
    (qty : Z) : string :=
  html "
    <table role=`presentation` width=`100%` cellspacing=`0` cellpadding=`0` style=`margin: 16px 0; border-bottom: 1px solid #e0e0e0;`>
        <tr>
            <td style=`width: 80px; padding-bottom: 16px; vertical-align: top;`>
                <img src=`" +:+ image_url +:+ html "` width=`80` height=`80` style=`display: block; object-fit: contain; border-radius: 4px; border: 1px solid #f0f0f0;` alt=`" +:+ name +:+ html "`>
            </td>
            
            <td style=`padding: 0 12px 16px 12px; vertical-align: top;`>
                <h4 style=`margin: 0 0 4px 0; font-size: 16px; font-weight: 600; color: #333;`>" +:+ name +:+ html "</h4>
                <p style=`margin: 0; font-size: 14px; font-weight: 600; color: #2e7d32;`>$" +:+ format_2f price +:+ html "</p>
            </td>
            
            <td style=`width: 60px; padding-bottom: 16px; vertical-align: top; text-align: right;`>
                <span style=`font-size: 14px; color: #666; font-weight: bold;`>Qty: " +:+ str_of_Z qty +:+ html "</span>
            </td>
        </tr>
    </table>
    ".

Definition create_order_html (products : list string) (total_qty : Z)
    (total_price : float) (email phone shipping order_id : string) : string :=
  let products_html := py_join "" products in
  html "
    <!DOCTYPE html>
    <html>
    <head>
        <meta charset=`UTF-8`>
        <meta name=`viewport` content=`width=device-width, initial-scale=1.0`>
        <title>New Order</title>
    </head>
    <body style=`margin: 0; padding: 20px; font-family: -apple-system, BlinkMacSystemFont, 'Segoe UI', Roboto, 'Helvetica Neue', Arial, sans-serif; background-color: #f5f5f5;`>
        <div style=`max-width: 600px; margin: 0 auto; background-color: #ffffff; border-radius: 8px; overflow: hidden; box-shadow: 0 2px 8px rgba(0,0,0,0.1);`>
            
            <!-- Header -->
            <div style=`background-color: #2e7d32; padding: 30px 20px; text-align: center;`>
                <h2 style=`margin: 0; font-size: 28px; color: #ffffff; font-weight: 600;`>New Order Received</h2>
                <p style=`margin: 10px 0 0 0; color: #c8e6c9; font-size: 14px;`>Order ID: " +:+ order_id +:+ html "</p>
            </div>
            
            <!-- Products Section -->
            <div style=`padding: 30px 20px;`>
                <h3 style=`margin: 0 0 20px 0; font-size: 20px; color: #333; font-weight: 600;`>Order Items</h3>
                " +:+ products_html +:+ html "
            </div>
            
            <!-- Total Section -->
            <div style=`margin: 20px; padding: 24px; background-color: #f9f9f9; border-radius: 8px; border: 1px solid #e0e0e0;`>
                <div style=`text-align: center; margin-bottom: 20px;`>
                    <p style=`margin: 0 0 8px 0; font-size: 18px; color: #666;`>" +:+ str_of_Z total_qty +:+ html " Item" +:+ plural total_qty +:+ html "</p>
                    <p style=`margin: 0; font-size: 24px; font-weight: 700; color: #2e7d32;`>Total: $" +:+ format_2f total_price +:+ html "</p>
                </div>
                
                <!-- Customer Details -->
                <div style=`padding-top: 20px; border-top: 1px solid #e0e0e0;`>
                    <h4 style=`margin: 0 0 16px 0; font-size: 16px; color: #333; font-weight: 600;`>Customer Information</h4>
                    <table style=`width: 100%; border-collapse: collapse;`>
                        <tr>
                            <td style=`padding: 8px 0; font-weight: 600; color: #666; font-size: 14px; width: 100px;`>Email:</td>
                            <td style=`padding: 8px 0; color: #333; font-size: 14px;`>" +:+ email +:+ html "</td>
                        </tr>
                        <tr>
                            <td style=`padding: 8px 0; font-weight: 600; color: #666; font-size: 14px;`>Phone:</td>
                            <td style=`padding: 8px 0; color: #333; font-size: 14px;`>" +:+ phone +:+ html "</td>
                        </tr>
                        <tr>
                            <td style=`padding: 8px 0; font-weight: 600; color: #666; font-size: 14px;`>Shipping:</td>
                            <td style=`padding: 8px 0; color: #333; font-size: 14px;`>" +:+ shipping +:+ html "</td>
                        </tr>
                    </table>
                </div>
            </div>
            
            <!-- Footer -->
            <div style=`padding: 20px; text-align: center; background-color: #fafafa; border-top: 1px solid #e0e0e0;`>
                <p style=`margin: 0; color: #999; font-size: 12px;`>This is an automated order notification</p>
            </div>
            
        </div>
    </body>
    </html>
    ".

Definition create_customer_confirmation_html (products : list string) (total_qty : Z)
    (total_price : float) (order_id : string) : string :=
  let products_html := py_join "" products in
  html "
    <!DOCTYPE html>
    <html>
    <head>
        <meta charset=`UTF-8`>
        <meta name=`viewport` content=`width=device-width, initial-scale=1.0`>
        <title>Order Confirmation</title>
    </head>
    <body style=`margin: 0; padding: 20px; font-family: -apple-system, BlinkMacSystemFont, 'Segoe UI', Roboto, 'Helvetica Neue', Arial, sans-serif; background-color: #f5f5f5;`>
        <div style=`max-width: 600px; margin: 0 auto; background-color: #ffffff; border-radius: 8px; overflow: hidden; box-shadow: 0 2px 8px rgba(0,0,0,0.1);`>
            
            <!-- Header -->
            <div style=`background: linear-gradient(135deg, #2e7d32 0%, #43a047 100%); padding: 40px 20px; text-align: center;`>
                <h2 style=`margin: 0; font-size: 28px; color: #ffffff; font-weight: 600;`>Thank You for Your Order! 🎉</h2>
                <p style=`margin: 12px 0 0 0; color: #c8e6c9; font-size: 14px;`>Order ID: " +:+ order_id +:+ html "</p>
            </div>
            
            <!-- Products Section -->
            <div style=`padding: 30px 20px;`>
                <h3 style=`margin: 0 0 20px 0; font-size: 20px; color: #333; font-weight: 600; text-align: center;`>Your Order Summary</h3>
                " +:+ products_html +:+ html "
            </div>
            
            <!-- Total Section -->
            <div style=`margin: 20px; padding: 24px; background-color: #f9f9f9; border-radius: 8px; border: 2px solid #2e7d32; text-align: center;`>
                <p style=`margin: 0 0 8px 0; font-size: 18px; color: #666;`>" +:+ str_of_Z total_qty +:+ html " Item" +:+ plural total_qty +:+ html "</p>
                <p style=`margin: 0; font-size: 28px; font-weight: 700; color: #2e7d32;`>Total: $" +:+ format_2f total_price +:+ html "</p>
            </div>
            
            <!-- Confirmation Message -->
            <div style=`margin: 20px; padding: 24px; background: linear-gradient(135deg, #e8f5e9 0%, #c8e6c9 100%); border-radius: 8px; text-align: center;`>
                <p style=`margin: 0; color: #1b5e20; font-weight: 600; font-size: 16px; line-height: 1.5;`>
                    We've received your order and will contact you soon to confirm delivery details!
                </p>
            </div>
            
            <!-- Footer -->
            <div style=`padding: 24px 20px; text-align: center; background-color: #fafafa; border-top: 1px solid #e0e0e0;`>
                <p style=`margin: 0 0 8px 0; color: #666; font-size: 14px;`>Questions about your order?</p>
                <p style=`margin: 0; color: #2e7d32; font-size: 14px; font-weight: 600;`>Contact us at $" +:+ option_str SUPPORT_EMAIL +:+ html "</p>
            </div>
            
        </div>
    </body>
    </html>
    ".

(** The templates, as the dispatch calls them. *)
#[export] Instance html_renderer : Renderer :=
  {| Notify.create_product_html := create_product_html;
     Notify.create_order_html := create_order_html;
     Notify.create_customer_confirmation_html := create_customer_confirmation_html |}.

(** ** The fixed text *)

Lemma html_append (a b : string) : html (a +:+ b) = html a +:+ html b.
Proof. apply str_map_append. Qed.

(** A text without backtick is its own fixed text. *)
Lemma html_id s : str_contains "`" s = false -> html s = s.
Proof.
  induction s as [|c s IH]; simpl; [done|].
  intros [Hc Hs]%orb_false_iff. unfold html in *. simpl. by rewrite Hc, IH.
Qed.

(** ** What a document holds *)

(** The shape of a product entry: fixed text, the image address as it was
    given, and text that does not depend on the address. *)
Lemma create_product_html_shape :
  exists head, forall name price qty, exists rest, forall image_url,
    create_product_html name price image_url qty = head +:+ image_url +:+ rest.
Proof. eexists. intros. eexists. intros. unfold create_product_html. reflexivity. Qed.

(** The values of a product entry, each between the fixed text around it. *)
Lemma create_product_html_fields name price image_url qty :
  let doc := create_product_html name price image_url qty in
  str_infix (html "<img src=`" +:+ image_url +:+ html "` width=`80`") doc /\
  str_infix (html " alt=`" +:+ name +:+ html "`>") doc /\
  str_infix (html "color: #333;`>" +:+ name +:+ "</h4>") doc /\
  str_infix (">$" +:+ format_2f price +:+ "</p>") doc /\
  str_infix (">Qty: " +:+ str_of_Z qty +:+ "</span>") doc.
Proof. cbv zeta. unfold create_product_html. repeat split; infix_solve. Qed.

(** The values of the owner's notice. *)
Lemma create_order_html_fields products total_qty total_price email phone shipping
    order_id :
  let doc := create_order_html products total_qty total_price email phone shipping
               order_id in
  str_infix (">Order ID: " +:+ order_id +:+ "</p>") doc /\
  str_infix (py_join "" products) doc /\
  str_infix (">" +:+ str_of_Z total_qty +:+ " Item") doc /\
  str_infix (" Item" +:+ plural total_qty +:+ "</p>") doc /\
  str_infix (">Total: $" +:+ format_2f total_price +:+ "</p>") doc /\
  str_infix (html "font-size: 14px;`>" +:+ email +:+ "</td>") doc /\
  str_infix (html "font-size: 14px;`>" +:+ phone +:+ "</td>") doc /\
  str_infix (html "font-size: 14px;`>" +:+ shipping +:+ "</td>") doc.
Proof. cbv zeta. unfold create_order_html. repeat split; infix_solve. Qed.

(** The values of the customer's confirmation; the support address follows
    a dollar sign. *)
Lemma create_customer_confirmation_html_fields products total_qty total_price order_id :
  let doc := create_customer_confirmation_html products total_qty total_price
               order_id in
  str_infix (">Order ID: " +:+ order_id +:+ "</p>") doc /\
  str_infix (py_join "" products) doc /\
  str_infix (">" +:+ str_of_Z total_qty +:+ " Item") doc /\
  str_infix (" Item" +:+ plural total_qty +:+ "</p>") doc /\
  str_infix (">Total: $" +:+ format_2f total_price +:+ "</p>") doc /\
  str_infix (">Contact us at $" +:+ option_str SUPPORT_EMAIL +:+ "</p>") doc.
Proof.
  cbv zeta. unfold create_customer_confirmation_html. repeat split; infix_solve.
Qed.

(** ** Values are written as they are *)

(** An order with other items, and an item with another image address. *)
Definition with_items (o : OrderRequest) (its : list (string * CartItem)) :
  OrderRequest :=
  {| phone := phone o; email := email o; verification := verification o;
     shipping := shipping o; cf_token := cf_token o;
     order := {| items := its; totalQty := totalQty (order o);
                 totalPrice := totalPrice (order o) |} |}.

Definition with_imageUrl (it : CartItem) (u : string) : CartItem :=
  {| qty := qty it; price := price it; pricePerUnit := pricePerUnit it;
     imageUrl := u |}.

(** An image address can hold a product entry: the entry of one product
    with that address is the entry of another product followed by the entry
    of the first. *)
Lemma create_product_html_forge name1 price1 image_url1 qty1 :
  exists payload : string -> string,
    forall name price image_url qty,
      create_product_html name price (payload image_url) qty =
      create_product_html name1 price1 image_url1 qty1 +:+
      create_product_html name price image_url qty.
Proof.
  destruct create_product_html_shape as [head H].
  destruct (H name1 price1 qty1) as [rest1 H1].
  exists (fun u => image_url1 +:+ rest1 +:+ head +:+ u). intros.
  destruct (H name price qty) as [rest Hr].
  by rewrite H1, !Hr, !str_append_assoc.
Qed.

(** The documents hold the product entries joined, not the list. *)
Lemma create_order_html_products ps ps' total_qty total_price email phone shipping
    order_id :
  py_join "" ps = py_join "" ps' ->
  create_order_html ps total_qty total_price email phone shipping order_id =
  create_order_html ps' total_qty total_price email phone shipping order_id.
Proof. unfold create_order_html. cbv zeta. by intros ->. Qed.

(** The validation of a cart does not read the image addresses. *)
Lemma cart_ok_with_imageUrl o name item u :
  cart_ok (order (with_items o [(name, with_imageUrl item u)])) <->
  cart_ok (order (with_items o [(name, item)])).
Proof.
  unfold cart_ok, quantities, prices, item_ok. simpl.
  by rewrite !Forall_cons, !Forall_nil.
Qed.

(** C21. The owner's notice does not show what was validated. For every
    product entry a client wants the owner to see, there is an image address
    such that an order of ONE item with that address produces, character for
    character, the notice of an order of two items, the wanted entry first;
    and the order with that address is valid exactly when the order of the one
    item is. The templates write the values of the request into the HTML
    without escaping them. *)
Theorem owner_notice_forgeable (forged : string * CartItem) :
  exists payload : string -> string,
    forall o name item order_id,
      let sent := with_items o [(name, with_imageUrl item (payload (imageUrl item)))] in
      (cart_ok (order sent) <-> cart_ok (order (with_items o [(name, item)]))) /\
      @owner_email cfg html_renderer sent order_id =
      @owner_email cfg html_renderer (with_items o [forged; (name, item)]) order_id.
Proof.
  destruct (create_product_html_forge forged.1 (price forged.2) (imageUrl forged.2)
              (qty forged.2)) as [payload H].
  exists payload. intros o name item order_id. cbv zeta.
  split; [apply cart_ok_with_imageUrl|].
  unfold owner_email, product_html_list. simpl. f_equal.
  apply create_order_html_products. simpl. by rewrite H, str_append_nil_l.
Qed.

(** The singular of the summary line is never printed for an order that
    passed validation: a valid cart declares three items at least. *)
Lemma valid_cart_plural c : cart_ok c -> plural (totalQty c) = "s".
Proof.
  intros (_ & H & _). unfold plural.
  by rewrite (proj2 (Z.eqb_neq (totalQty c) 1)) by lia.
Qed.

(** The amounts a valid cart prints. A price that passed validation is
    printed as an unsigned amount with two decimals, with two exceptions
    that validation lets through: an infinite price prints [inf], and the
    negative zero prints [-0.00]. *)
Lemma valid_cart_price_text c name item :
  cart_ok c -> (name, item) ∈ items c ->
  format_2f (price item) = "inf" \/ format_2f (price item) = "-0.00" \/
  exists cents, format_2f (price item) = format_cents cents.
Proof.
  intros (Hi & _) Hin. rewrite Forall_forall in Hi.
  destruct (Hi _ Hin) as (_ & Hp & _).
  destruct (format_2f_nonneg _ Hp) as [[_ ?] | [[_ ?] | (c' & _ & ?)]]; eauto.
Qed.

End Templates.

(** ** Examples *)

(** A name with a double quote ends the attribute it is written in. *)
Example product_name_closes_attribute :
  str_in (html " alt=`x` onload=`alert(1)`>")
    (create_product_html (html "x` onload=`alert(1)") (float_of_Z 5) "u" 1) = true.
Proof. by vm_compute. Qed.

(** The footer of the confirmation, with and without a configured support
    address. *)
Example confirmation_footer :
  str_in "Contact us at $support@shop.example</p>"
    (@create_customer_confirmation_html example_config [] 3 (float_of_Z 20) "3F2A9C41")
    = true.
Proof. by vm_compute. Qed.

Lemma valid_cart_plural_witness : plural (totalQty cart_three) = "s".
Proof. apply (valid_cart_plural cart_three). exact cart_three_ok. Defined.

Lemma valid_cart_price_text_witness :
  format_2f (float_of_Z 10) = "inf" \/ format_2f (float_of_Z 10) = "-0.00" \/
  exists cents, format_2f (float_of_Z 10) = format_cents cents.
Proof.
  apply (valid_cart_price_text cart_three "a" (mk_item 1 (float_of_Z 10)));
    [exact cart_three_ok | apply list_elem_of_here].
Defined.
