(* ===== verification/Handler.v ===== *)
(** * Handler: the orchestration of one request

    Models [process_order] (lines 406-475 of [src/lambda/Place-Order.py])
    for a request body that pydantic has already turned into an
    [OrderRequest]: the client's address is read, the business hours are
    checked, the order identifier is drawn, the honeypot is evaluated, the
    human-verification token is redeemed, the email domain is checked, the
    emails are dispatched, and the answer is returned or an [HTTPException]
    is raised. The outer [try] re-raises an [HTTPException] and turns every
    other exception into a 500 with a fixed message.

    [is_open], [is_bot], [human_verified], [domain_ok] and [dispatched] read
    off, for a request, a history and an environment, what each gate finds;
    [outcome] is the decision table of the handler on these findings, with
    the [answer] and the [trace] of events of each outcome. The run of the
    handler is derived path by path ([run_closed], [run_bot], ...) with the
    rules of [Effects.runs], and [process_order_run] states that the handler
    computes the table. The theorems are its consequences: which answers
    exist, when a request succeeds, when an email can leave, what the
    honeypot path does and does not do, and what each failure of the outside
    world turns into. *)

From Stdlib Require Import ZArith List Bool Lia.
From stdpp Require Import base tactics option list strings gmap.
From S2P Require Import Prelude PyFloat PyStr Schema Hours OrderId Effects AntiAbuse Notify.

#[local] Open Scope Z_scope.

(** ** Data *)

(** [request.client]: the peer's address, absent when the server does not
    know it. *)
Record Address := { host : string; port : Z }.
Record Request := { client : option Address }.

Record JSONResponse := {
  status_code : Z;
  content : list (string * json);
}.

Definition success_response (order_id : string) : JSONResponse :=
  {| status_code := 200;
     content := [("success", JBool true);
                 ("orderId", JString order_id);
                 ("message", JString "Order placed successfully")] |}.

Definition security_message : string := "Security check failed".
Definition domain_message : string := "Please provide a valid email address.".
Definition dispatch_message : string :=
  "Failed to send order confirmation. Please try again.".
Definition network_message : string := "Network error. Please try again.".

Section Handler.
Context {cfg : Config} {env : Environment} {rnd : Renderer}.

(** ** The handler *)

(** [validate_business_hours()]: the clock is read at every call. *)
Definition validate_business_hours : M (bool * string) :=
  now ← datetime_now;
  mret (business_hours now).

(** [request.client.host] *)
Definition request_client_host (request : Request) : M string :=
  match client request with
  | Some a => mret (host a)
  | None => raise (attribute_error "NoneType" "host")
  end.

(** The body of the [try]. *)
Definition order_flow (order_request : OrderRequest) (request : Request) :
  M JSONResponse :=
  client_ip ← request_client_host request;
  hours ← validate_business_hours;
  if negb hours.1 then raise (HTTPException 400 hours.2)
  else
    u ← uuid4;
    let order_id := order_id_of_uuid u in
    if str_truthy (verification order_request) then
      print ("HONEYPOT TRIGGERED: Bot at " +:+ client_ip +:+ " sent '"
             +:+ verification order_request +:+ "'");;
      mret (success_response order_id)
    else
      is_human ← verify_turnstile_token (cf_token order_request);
      if negb (json_truthy is_human) then
        raise (HTTPException 400 security_message)
      else
        real ← is_domain_real (py_lower (email order_request));
        if negb real then
          print ("SECURITY: Blocked invalid email domain: " +:+ email order_request);;
          raise (HTTPException 400 domain_message)
        else
          email_sent ← send_order_emails order_request order_id;
          if negb email_sent then raise (HTTPException 500 dispatch_message)
          else mret (success_response order_id).

Definition process_order (order_request : OrderRequest) (request : Request) :
  M JSONResponse :=
  try_except (order_flow order_request request)
    (except_clauses
       [([ClsHTTPException], fun e => raise e);
        ([ClsException],
         fun e => print ("Error processing order: " +:+ exn_str e);;
                  raise (HTTPException 500 network_message))]).

(** ** What the gates find *)

(** The history after the clock was read, and after the identifier was
    drawn. *)
Definition after_clock (t : list Event) : list Event := t ++ [EvNow (env_now t)].
Definition after_uuid (t : list Event) : list Event :=
  after_clock t ++ [EvUuid4 (env_uuid4 (after_clock t))].

(** The identifier of the request handled from history [t]. *)
Definition order_id_at (t : list Event) : string :=
  order_id_of_uuid (env_uuid4 (after_clock t)).

(** The hours gate lets the request through. *)
Definition is_open (t : list Event) : bool := (business_hours (env_now t)).1.

(** The honeypot field is filled. *)
Definition is_bot (order_request : OrderRequest) : bool :=
  str_truthy (verification order_request).

(** The run of the verification call, of the domain check after it, and of
    the dispatch after both. *)
Definition turnstile_run (order_request : OrderRequest) (t : list Event) :=
  verify_turnstile_token (cf_token order_request) (after_uuid t).

Definition domain_run (order_request : OrderRequest) (t : list Event) :=
  is_domain_real (py_lower (email order_request))
    (after_uuid t ++ (turnstile_run order_request t).2).

Definition dispatch_run (order_request : OrderRequest) (t : list Event) :=
  send_order_emails order_request (order_id_at t)
    (after_uuid t ++ (turnstile_run order_request t).2
                  ++ (domain_run order_request t).2).

(** The outcome of a request: what the handler decided. *)
Inductive Outcome :=
| InternalError (msg : string)   (* an exception that is no HTTPException *)
| Closed                         (* refused by the hours gate *)
| AcceptedBot                    (* honeypot filled: accepted, nothing sent *)
| NotHuman                       (* the verification answered no *)
| BadDomain                      (* the email domain was refused *)
| DispatchFailed                 (* an email was not sent *)
| Accepted.                      (* both emails sent *)

(** The gates in the order of the handler. *)
Definition outcome (order_request : OrderRequest) (request : Request)
  (t : list Event) : Outcome :=
  match client request with
  | None => InternalError "'NoneType' object has no attribute 'host'"
  | Some _ =>
      if negb (is_open t) then Closed
      else if is_bot order_request then AcceptedBot
      else match (turnstile_run order_request t).1 with
           | Err e => InternalError (exn_str e)
           | Ok is_human =>
               if negb (json_truthy is_human) then NotHuman
               else if negb (domain_verdict (py_lower (email order_request))
                               (after_uuid t ++ (turnstile_run order_request t).2))
               then BadDomain
               else match (dispatch_run order_request t).1 with
                    | Ok true => Accepted
                    | _ => DispatchFailed
                    end
           end
  end.

(** The answer that goes with an outcome. *)
Definition answer (t : list Event) (o : Outcome) : result exn JSONResponse :=
  match o with
  | InternalError _ => Err (HTTPException 500 network_message)
  | Closed => Err (HTTPException 400 hours_message)
  | AcceptedBot | Accepted => Ok (success_response (order_id_at t))
  | NotHuman => Err (HTTPException 400 security_message)
  | BadDomain => Err (HTTPException 400 domain_message)
  | DispatchFailed => Err (HTTPException 500 dispatch_message)
  end.

(** The events that go with an outcome. *)
Definition trace (order_request : OrderRequest) (request : Request)
  (t : list Event) (o : Outcome) : list Event :=
  let clock := EvNow (env_now t) in
  let draw := EvUuid4 (env_uuid4 (after_clock t)) in
  let ts := (turnstile_run order_request t).2 in
  let dom := (domain_run order_request t).2 in
  let ses := (dispatch_run order_request t).2 in
  let client_ip := match client request with Some a => host a | None => "" end in
  match o with
  | InternalError msg =>
      match client request with
      | None => [EvPrint ("Error processing order: " +:+ msg)]
      | Some _ => [clock; draw] ++ ts ++ [EvPrint ("Error processing order: " +:+ msg)]
      end
  | Closed => [clock]
  | AcceptedBot =>
      [clock; draw;
       EvPrint ("HONEYPOT TRIGGERED: Bot at " +:+ client_ip +:+ " sent '"
                +:+ verification order_request +:+ "'")]
  | NotHuman => [clock; draw] ++ ts
  | BadDomain =>
      [clock; draw] ++ ts ++ dom ++
      [EvPrint ("SECURITY: Blocked invalid email domain: " +:+ email order_request)]
  | DispatchFailed | Accepted => [clock; draw] ++ ts ++ dom ++ ses
  end.

(** The verification call returned a true value. *)
Definition human_verified (order_request : OrderRequest) (t : list Event) : bool :=
  match (turnstile_run order_request t).1 with
  | Ok is_human => json_truthy is_human
  | Err _ => false
  end.

(** The domain of the address, in lower case, was accepted. *)
Definition domain_ok (order_request : OrderRequest) (t : list Event) : bool :=
  domain_verdict (py_lower (email order_request))
    (after_uuid t ++ (turnstile_run order_request t).2).

(** SES accepted both emails. *)
Definition dispatched (order_request : OrderRequest) (t : list Event) : bool :=
  match (dispatch_run order_request t).1 with
  | Ok email_sent => email_sent
  | Err _ => false
  end.

(** The answers a client can get for a request handled from history [t]. *)
Definition answers (t : list Event) : list (result exn JSONResponse) :=
  [Ok (success_response (order_id_at t));
   Err (HTTPException 400 hours_message);
   Err (HTTPException 400 security_message);
   Err (HTTPException 400 domain_message);
   Err (HTTPException 500 dispatch_message);
   Err (HTTPException 500 network_message)].

(** ** The runs of the handler, path by path *)

#[local] Ltac handler_unfold :=
  unfold process_order, order_flow, request_client_host, validate_business_hours,
    dispatch_run, domain_run, turnstile_run, order_id_at, after_uuid, after_clock,
    is_open, is_bot in *;
  try match goal with H : client _ = _ |- _ => rewrite H end.

#[local] Ltac handler_exec :=
  handler_unfold;
  repeat match goal with H : _ = _ |- _ => progress norm_events_in H end;
  run_exec.

Lemma run_no_client order_request request t :
  client request = None ->
  runs (process_order order_request request) t
    (Err (HTTPException 500 network_message))
    [EvPrint ("Error processing order: 'NoneType' object has no attribute 'host'")].
Proof. intros Hc. handler_exec. Qed.

Lemma run_closed order_request request t a :
  client request = Some a -> is_open t = false ->
  runs (process_order order_request request) t
    (Err (HTTPException 400 hours_message)) [EvNow (env_now t)].
Proof.
  intros Hc Ho. handler_exec. by rewrite business_hours_closed_message.
Qed.

Lemma run_bot order_request request t a :
  client request = Some a -> is_open t = true -> is_bot order_request = true ->
  runs (process_order order_request request) t
    (Ok (success_response (order_id_at t)))
    [EvNow (env_now t); EvUuid4 (env_uuid4 (after_clock t));
     EvPrint ("HONEYPOT TRIGGERED: Bot at " +:+ host a +:+ " sent '"
              +:+ verification order_request +:+ "'")].
Proof. intros Hc Ho Hb. handler_exec. Qed.

Lemma run_turnstile_error order_request request t a e :
  client request = Some a -> is_open t = true -> is_bot order_request = false ->
  (turnstile_run order_request t).1 = Err e ->
  runs (process_order order_request request) t
    (Err (HTTPException 500 network_message))
    ([EvNow (env_now t); EvUuid4 (env_uuid4 (after_clock t))]
       ++ (turnstile_run order_request t).2
       ++ [EvPrint ("Error processing order: " +:+ exn_str e)]).
Proof.
  intros Hc Ho Hb Ht. pose proof (verify_turnstile_token_Err _ _ _ Ht) as He.
  destruct e; try done. handler_exec.
Qed.

Lemma run_not_human order_request request t a is_human :
  client request = Some a -> is_open t = true -> is_bot order_request = false ->
  (turnstile_run order_request t).1 = Ok is_human -> json_truthy is_human = false ->
  runs (process_order order_request request) t
    (Err (HTTPException 400 security_message))
    ([EvNow (env_now t); EvUuid4 (env_uuid4 (after_clock t))]
       ++ (turnstile_run order_request t).2).
Proof. intros Hc Ho Hb Ht Hh. handler_exec. Qed.

Lemma run_bad_domain order_request request t a is_human :
  client request = Some a -> is_open t = true -> is_bot order_request = false ->
  (turnstile_run order_request t).1 = Ok is_human -> json_truthy is_human = true ->
  (domain_run order_request t).1 = Ok false ->
  runs (process_order order_request request) t
    (Err (HTTPException 400 domain_message))
    ([EvNow (env_now t); EvUuid4 (env_uuid4 (after_clock t))]
       ++ (turnstile_run order_request t).2
       ++ (domain_run order_request t).2
       ++ [EvPrint ("SECURITY: Blocked invalid email domain: " +:+ email order_request)]).
Proof. intros Hc Ho Hb Ht Hh Hd. handler_exec. Qed.

Lemma run_dispatch_failed order_request request t a is_human :
  client request = Some a -> is_open t = true -> is_bot order_request = false ->
  (turnstile_run order_request t).1 = Ok is_human -> json_truthy is_human = true ->
  (domain_run order_request t).1 = Ok true ->
  (dispatch_run order_request t).1 = Ok false ->
  runs (process_order order_request request) t
    (Err (HTTPException 500 dispatch_message))
    ([EvNow (env_now t); EvUuid4 (env_uuid4 (after_clock t))]
       ++ (turnstile_run order_request t).2
       ++ (domain_run order_request t).2
       ++ (dispatch_run order_request t).2).
Proof. intros Hc Ho Hb Ht Hh Hd Hs. handler_exec. Qed.

Lemma run_accepted order_request request t a is_human :
  client request = Some a -> is_open t = true -> is_bot order_request = false ->
  (turnstile_run order_request t).1 = Ok is_human -> json_truthy is_human = true ->
  (domain_run order_request t).1 = Ok true ->
  (dispatch_run order_request t).1 = Ok true ->
  runs (process_order order_request request) t
    (Ok (success_response (order_id_at t)))
    ([EvNow (env_now t); EvUuid4 (env_uuid4 (after_clock t))]
       ++ (turnstile_run order_request t).2
       ++ (domain_run order_request t).2
       ++ (dispatch_run order_request t).2).
Proof. intros Hc Ho Hb Ht Hh Hd Hs. handler_exec. Qed.

(** The handler computes the outcome, the answer and the events of the
    decision table. *)
Lemma process_order_run order_request request t :
  let o := outcome order_request request t in
  process_order order_request request t = (answer t o, trace order_request request t o).
Proof.
  cbv zeta. unfold outcome, trace.
  destruct (client request) as [a|] eqn:Hc; [|by apply run_no_client].
  destruct (is_open t) eqn:Ho; [|by eapply run_closed].
  destruct (is_bot order_request) eqn:Hb; [by eapply run_bot|].
  destruct (turnstile_run order_request t).1 as [is_human|e] eqn:Ht;
    [|by eapply run_turnstile_error].
  destruct (json_truthy is_human) eqn:Hh; [|by eapply run_not_human].
  pose proof (is_domain_real_fst (py_lower (email order_request))
                (after_uuid t ++ (turnstile_run order_request t).2)) as Hd.
  fold (domain_run order_request t) in Hd.
  destruct (domain_verdict _ _); [|by eapply run_bad_domain].
  destruct (send_order_emails_total order_request (order_id_at t)
              (after_uuid t ++ (turnstile_run order_request t).2
                 ++ (domain_run order_request t).2)) as [b Hs].
  fold (dispatch_run order_request t) in Hs. rewrite Hs.
  destruct b; [by eapply run_accepted | by eapply run_dispatch_failed].
Qed.

(** The outcome, by the gates. *)
Lemma outcome_gates order_request request t :
  outcome order_request request t =
  match client request with
  | None => InternalError "'NoneType' object has no attribute 'host'"
  | Some _ =>
      if negb (is_open t) then Closed
      else if is_bot order_request then AcceptedBot
      else match (turnstile_run order_request t).1 with
           | Err e => InternalError (exn_str e)
           | Ok _ =>
               if negb (human_verified order_request t) then NotHuman
               else if negb (domain_ok order_request t) then BadDomain
               else if dispatched order_request t then Accepted
               else DispatchFailed
           end
  end.
Proof.
  unfold outcome, human_verified, domain_ok, dispatched.
  by repeat case_match.
Qed.

Lemma dispatched_true order_request t :
  dispatched order_request t = true -> (dispatch_run order_request t).1 = Ok true.
Proof. unfold dispatched. destruct (dispatch_run _ _).1 as [[]|]; done. Qed.

Lemma human_verified_true order_request t :
  human_verified order_request t = true ->
  exists is_human, (turnstile_run order_request t).1 = Ok is_human /\
                   json_truthy is_human = true.
Proof. unfold human_verified. destruct (turnstile_run _ _).1; naive_solver. Qed.

(** The emails of a request are those of its dispatch. *)
Lemma emails_sent_trace order_request request t o :
  emails_sent (trace order_request request t o) =
  match o with
  | DispatchFailed | Accepted => emails_sent (dispatch_run order_request t).2
  | _ => []
  end.
Proof.
  unfold trace, domain_run, turnstile_run. cbv zeta.
  destruct o, (client request);
    by rewrite ?emails_sent_app, ?is_domain_real_no_email, ?verify_turnstile_token_snd.
Qed.

(** Case analysis on the gates of a request, in the order of the handler. *)
#[local] Ltac gates_cases :=
  rewrite ?process_order_run; cbv zeta; rewrite ?outcome_gates;
  match goal with
  | |- context [client ?rq] => destruct (client rq) as [?a|] eqn:?Hc
  end;
  [match goal with
   | |- context [is_open ?t] => destruct (is_open t) eqn:?Ho
   end;
   [match goal with
    | |- context [is_bot ?r] => destruct (is_bot r) eqn:?Hb
    end;
    [|match goal with
      | |- context [(turnstile_run ?r ?t).1] =>
          pose proof (eq_refl (human_verified r t)) as Hv;
          unfold human_verified at 2 in Hv;
          destruct (turnstile_run r t).1 as [?is_human|?e] eqn:?Ht;
          [destruct (human_verified r t);
           [destruct (domain_ok r t) eqn:?Hd;
            [destruct (dispatched r t) eqn:?Hs|]|]|]
      end]|]|];
  cbn [negb answer trace fst snd].

(** The answer and the emails of an accepted order of a human client: the
    owner's notice, then the customer's confirmation. *)
Lemma accepted_emails order_request request t :
  is_Ok (process_order order_request request t).1 = true ->
  is_bot order_request = false ->
  (process_order order_request request t).1 = Ok (success_response (order_id_at t)) /\
  emails_sent (process_order order_request request t).2 =
    [owner_email order_request (order_id_at t);
     customer_email order_request (order_id_at t)].
Proof.
  rewrite process_order_run. cbv zeta. cbn [snd]. rewrite emails_sent_trace.
  gates_cases; try done. intros _ _. split; [done|].
  apply dispatched_true, send_order_emails_snd_sent in Hs.
  fold (dispatch_run order_request t) in Hs. by rewrite Hs.
Qed.

(** An email of a request is the notice or the confirmation of this order,
    and the honeypot field of the request was empty. *)
Lemma emails_sent_elem order_request request t msg :
  msg ∈ emails_sent (process_order order_request request t).2 ->
  is_bot order_request = false /\
  (msg = owner_email order_request (order_id_at t) \/
   msg = customer_email order_request (order_id_at t)).
Proof.
  rewrite process_order_run. cbv zeta. cbn [snd]. rewrite emails_sent_trace.
  gates_cases; try (by intros ?%elem_of_nil);
    intros ?%send_order_emails_sent_elem; done.
Qed.

(** C4. The handler answers every request with one of six answers: the
    success response carrying the order identifier, or an [HTTPException]
    with one of five fixed pairs of status and message. No other exception
    leaves the handler, whatever the environment does. *)
Theorem process_order_answers order_request request t :
  (process_order order_request request t).1 ∈ answers t.
Proof. unfold answers. gates_cases; set_solver. Qed.

(** C1. A request is answered with success exactly when the client's
    address is known, intake is open, and either the honeypot field is
    filled, or the verification answered yes, the domain was accepted and SES
    accepted both emails. *)
Theorem process_order_success_iff order_request request t :
  is_Ok (process_order order_request request t).1 = true <->
  is_Some (client request) /\ is_open t = true /\
  (is_bot order_request = true \/
   human_verified order_request t = true /\ domain_ok order_request t = true /\
   dispatched order_request t = true).
Proof.
  gates_cases; rewrite ?Hv; simpl; split; try done;
    rewrite ?is_Some_alt; naive_solver.
Qed.

(** C2. No email leaves before every gate has passed: an email accepted by
    SES during a request implies that intake was open, the honeypot field was
    empty, the verification answered yes and the domain was accepted; and the
    email is the owner's notice or the customer's confirmation of this
    order. *)
Theorem email_only_after_gates order_request request t msg :
  msg ∈ emails_sent (process_order order_request request t).2 ->
  is_open t = true /\ is_bot order_request = false /\
  human_verified order_request t = true /\ domain_ok order_request t = true /\
  (msg = owner_email order_request (order_id_at t) \/
   msg = customer_email order_request (order_id_at t)).
Proof.
  rewrite process_order_run. cbv zeta. cbn [snd]. rewrite emails_sent_trace.
  gates_cases; try (by intros ?%elem_of_nil);
    intros ?%send_order_emails_sent_elem; done.
Qed.

(** C10. A request with the honeypot field filled, during open hours, is
    answered with the success response and an order identifier, and nothing
    is done for it but a log line: no verification call, no DNS query, no
    email. *)
Theorem honeypot_accepts_silently order_request request t a :
  client request = Some a -> is_open t = true -> is_bot order_request = true ->
  process_order order_request request t =
    (Ok (success_response (order_id_at t)),
     [EvNow (env_now t); EvUuid4 (env_uuid4 (after_clock t));
      EvPrint ("HONEYPOT TRIGGERED: Bot at " +:+ host a +:+ " sent '"
               +:+ verification order_request +:+ "'")]).
Proof. intros. by apply run_bot. Qed.

(** C11. Outside business hours the request is refused with status 400 and
    the hours message after the clock read alone: no identifier is drawn, the
    honeypot is not looked at, and no external service is called. *)
Theorem closed_hours_rejects_first order_request request t a :
  client request = Some a -> is_open t = false ->
  process_order order_request request t =
    (Err (HTTPException 400 hours_message), [EvNow (env_now t)]).
Proof. intros. by eapply run_closed. Qed.

(** C18. When the verification service cannot be reached, the client gets
    status 500 with the network message, not the 400 of a failed security
    check; the exception text goes to the log only, and neither the DNS nor
    SES is called. *)
Theorem turnstile_unreachable_is_500 order_request request t a msg :
  client request = Some a -> is_open t = true -> is_bot order_request = false ->
  env_http_post (after_uuid t) turnstile_url
    (turnstile_data (cf_token order_request)) = HttpError msg ->
  process_order order_request request t =
    (Err (HTTPException 500 network_message),
     [EvNow (env_now t); EvUuid4 (env_uuid4 (after_clock t));
      EvHttpPost turnstile_url (turnstile_data (cf_token order_request))
        (HttpError msg);
      EvPrint ("Error processing order: " +:+ msg)]).
Proof.
  intros Hc Ho Hb Hp.
  pose proof (verify_turnstile_token_HttpError _ _ _ Hp) as Ht.
  pose proof (run_turnstile_error order_request request t a _ Hc Ho Hb Ht) as Hr.
  unfold turnstile_run in Hr. by rewrite verify_turnstile_token_snd, Hp in Hr.
Qed.

(** C28. A request whose peer address is unknown is answered with status
    500 and the network message before any gate runs: the clock is not
    read. *)
Theorem missing_client_is_500 order_request request t :
  client request = None ->
  process_order order_request request t =
    (Err (HTTPException 500 network_message),
     [EvPrint "Error processing order: 'NoneType' object has no attribute 'host'"]).
Proof. intros. by apply run_no_client. Qed.

(** C14. An accepted order of a human client shows exactly seven events, in
    this order: the clock read, the draw of the identifier, the verification
    call, the MX query and the NS query for the domain of the address in
    lower case, the owner's notice and the customer's confirmation, both
    accepted by SES. *)
Theorem accepted_order_events order_request request t :
  is_Ok (process_order order_request request t).1 = true ->
  is_bot order_request = false ->
  exists http mx ns,
    (process_order order_request request t).2 =
      [EvNow (env_now t); EvUuid4 (env_uuid4 (after_clock t));
       EvHttpPost turnstile_url (turnstile_data (cf_token order_request)) http;
       EvDnsResolve (domain_of (py_lower (email order_request))) MX mx;
       EvDnsResolve (domain_of (py_lower (email order_request))) NS ns;
       EvSesSendEmail (owner_email order_request (order_id_at t)) SesSent;
       EvSesSendEmail (customer_email order_request (order_id_at t)) SesSent].
Proof.
  gates_cases; try done. intros _ _.
  apply dispatched_true, send_order_emails_snd_sent in Hs. fold (dispatch_run order_request t) in Hs.
  apply is_domain_real_snd_accepted in Hd. fold (domain_run order_request t) in Hd.
  rewrite Hs, Hd. unfold turnstile_run. rewrite verify_turnstile_token_snd.
  by eexists _, _, _.
Qed.

(** C16. SES can accept the owner's notice and refuse the customer's
    confirmation: the client is then told with status 500 that the order
    confirmation failed and is invited to try again, although the business
    has received the order. *)
Theorem partial_dispatch_reported_failed order_request request t a msg :
  let t' := after_uuid t ++ (turnstile_run order_request t).2
                         ++ (domain_run order_request t).2 in
  client request = Some a -> is_open t = true -> is_bot order_request = false ->
  human_verified order_request t = true -> domain_ok order_request t = true ->
  owner_outcome order_request (order_id_at t) t' = SesSent ->
  customer_outcome order_request (order_id_at t) t' = SesError msg ->
  (process_order order_request request t).1 = Err (HTTPException 500 dispatch_message) /\
  emails_sent (process_order order_request request t).2 =
    [owner_email order_request (order_id_at t)].
Proof.
  cbv zeta. intros Hc Ho Hb Hv Hd H1 H2.
  assert (dispatch_run order_request t =
            (Ok false,
             [EvSesSendEmail (owner_email order_request (order_id_at t)) SesSent;
              EvSesSendEmail (customer_email order_request (order_id_at t)) (SesError msg);
              EvPrint ("Error sending email: " +:+ msg)])) as Hs.
  { unfold dispatch_run. rewrite send_order_emails_run. cbv zeta. by rewrite H1, H2. }
  destruct (human_verified_true _ _ Hv) as (is_human & Ht & _).
  rewrite process_order_run. cbv zeta. cbn [fst snd].
  rewrite emails_sent_trace, outcome_gates, Hc, Ho, Hb, Ht, Hv, Hd.
  unfold dispatched. by rewrite Hs.
Qed.

(** A request answered with status 400 has sent no email. *)
Theorem client_error_sends_nothing order_request request t detail :
  (process_order order_request request t).1 = Err (HTTPException 400 detail) ->
  emails_sent (process_order order_request request t).2 = [].
Proof.
  rewrite process_order_run. cbv zeta. cbn [fst snd]. rewrite emails_sent_trace.
  by destruct (outcome order_request request t).
Qed.

End Handler.

(** ** Examples

    The order of [Notify.example_order], sent from a known peer, in the
    environments of [Effects]. The UUID drawn is
    3f2a9c41-d7e8-4b0f-a1c3-5e6b7d8f9012, so the order identifier is
    3F2A9C41. *)

Definition peer_address : Address := {| host := "203.0.113.7"; port := 443 |}.
Definition peer : Request := {| client := Some peer_address |}.
Definition no_peer : Request := {| client := None |}.

Definition bot_order : OrderRequest :=
  {| phone := phone example_order; email := email example_order;
     verification := "http://spam.example";
     shipping := shipping example_order; order := order example_order;
     cf_token := cf_token example_order |}.

Definition monday_10 : datetime := {| weekday := Monday; hour := 10 |}.
Definition example_uuid : N := 0x3f2a9c41d7e84b0fa1c35e6b7d8f9012.

Lemma honeypot_accepts_silently_witness :
  @process_order example_config example_env text_renderer bot_order peer [] =
    (Ok (success_response "3F2A9C41"),
     [EvNow monday_10; EvUuid4 example_uuid;
      EvPrint "HONEYPOT TRIGGERED: Bot at 203.0.113.7 sent 'http://spam.example'"]).
Proof.
  apply (@honeypot_accepts_silently example_config example_env text_renderer
           bot_order peer [] peer_address); reflexivity.
Defined.

Lemma closed_hours_rejects_first_witness :
  @process_order example_config sunday_env text_renderer bot_order peer [] =
    (Err (HTTPException 400 "Our business hours are Mon-Sat 8am-8pm."),
     [EvNow {| weekday := Sunday; hour := 10 |}]).
Proof.
  apply (@closed_hours_rejects_first example_config sunday_env text_renderer
           bot_order peer [] peer_address); reflexivity.
Defined.

Lemma turnstile_unreachable_is_500_witness :
  @process_order example_config offline_env text_renderer example_order peer [] =
    (Err (HTTPException 500 "Network error. Please try again."),
     [EvNow monday_10; EvUuid4 example_uuid;
      EvHttpPost turnstile_url
        [("secret", Some "turnstile-secret"); ("response", Some "token")]
        (HttpError "All connection attempts failed");
      EvPrint "Error processing order: All connection attempts failed"]).
Proof.
  apply (@turnstile_unreachable_is_500 example_config offline_env text_renderer
           example_order peer [] peer_address); reflexivity.
Defined.

Lemma missing_client_is_500_witness :
  @process_order example_config example_env text_renderer example_order no_peer [] =
    (Err (HTTPException 500 "Network error. Please try again."),
     [EvPrint "Error processing order: 'NoneType' object has no attribute 'host'"]).
Proof.
  apply (@missing_client_is_500 example_config example_env text_renderer
           example_order no_peer []); reflexivity.
Defined.

(** The whole run of an accepted order. *)
Example accepted_order_run :
  @process_order example_config example_env text_renderer example_order peer [] =
    (Ok (success_response "3F2A9C41"),
     [EvNow monday_10; EvUuid4 example_uuid;
      EvHttpPost turnstile_url
        [("secret", Some "turnstile-secret"); ("response", Some "token")] verified;
      EvDnsResolve "example.com" MX (DnsAnswer ["10 mail.example.com"]);
      EvDnsResolve "example.com" NS (DnsAnswer ["ns1.example.com"]);
      EvSesSendEmail
        (@owner_email example_config text_renderer example_order "3F2A9C41") SesSent;
      EvSesSendEmail
        (@customer_email example_config text_renderer example_order "3F2A9C41") SesSent]).
Proof. by vm_compute. Qed.

Lemma accepted_order_events_witness :
  exists http mx ns,
    (@process_order example_config example_env text_renderer example_order peer []).2 =
      [EvNow monday_10; EvUuid4 example_uuid;
       EvHttpPost turnstile_url (@turnstile_data example_config "token") http;
       EvDnsResolve "example.com" MX mx;
       EvDnsResolve "example.com" NS ns;
       EvSesSendEmail
         (@owner_email example_config text_renderer example_order "3F2A9C41") SesSent;
       EvSesSendEmail
         (@customer_email example_config text_renderer example_order "3F2A9C41") SesSent].
Proof.
  apply (@accepted_order_events example_config example_env text_renderer
           example_order peer []); reflexivity.
Defined.

Lemma email_only_after_gates_witness :
  @is_open example_env [] = true /\ is_bot example_order = false /\
  @human_verified example_config example_env example_order [] = true /\
  @domain_ok example_config example_env example_order [] = true /\
  (@customer_email example_config text_renderer example_order "3F2A9C41" =
     @owner_email example_config text_renderer example_order "3F2A9C41" \/
   @customer_email example_config text_renderer example_order "3F2A9C41" =
     @customer_email example_config text_renderer example_order "3F2A9C41").
Proof.
  apply (@email_only_after_gates example_config example_env text_renderer
           example_order peer []).
  apply list_elem_of_further, list_elem_of_here.
Defined.

Lemma partial_dispatch_reported_failed_witness :
  (@process_order example_config throttled_env text_renderer example_order peer []).1 =
    Err (HTTPException 500 "Failed to send order confirmation. Please try again.") /\
  emails_sent
    (@process_order example_config throttled_env text_renderer example_order peer []).2 =
    [@owner_email example_config text_renderer example_order "3F2A9C41"].
Proof.
  apply (@partial_dispatch_reported_failed example_config throttled_env text_renderer
           example_order peer [] peer_address
           "Throttling: Maximum sending rate exceeded."); reflexivity.
Defined.

Lemma client_error_sends_nothing_witness :
  emails_sent
    (@process_order example_config sunday_env text_renderer example_order peer []).2 = [].
Proof.
  apply (@client_error_sends_nothing example_config sunday_env text_renderer
           example_order peer [] hours_message).
  reflexivity.
Defined.

