(* ===== verification/Request.v ===== *)
(** * Request: the validation of [OrderRequest] and the endpoint

    Models the class [OrderRequest] with its validator (lines 85-98 of
    [src/lambda/Place-Order.py]) and the route [POST /order] (lines 406-407):
    the framework builds the [OrderRequest] from the body, and calls
    [process_order] only when that succeeded.

    The fields are validated in declaration order and their errors are
    collected: [phone] by [validate_phone_format], [email] by the library's
    [EmailStr], [order] by the validation of [Cart]; the three other fields
    are strings without constraint. [EmailStr] is the class [EmailSyntax]:
    what the library accepts, and the address it returns for an accepted one
    (it may differ from the input: the library strips blanks and lowers the
    domain). The theorems hold for every instance. *)

From Stdlib Require Import ZArith List Bool Lia Ascii.
From stdpp Require Import base tactics option list strings gmap.
From S2P Require Import Prelude PyFloat PyStr Schema Regex Phone Hours Effects.
From S2P Require Import AntiAbuse Notify Handler.

(** ** The email syntax check, as the model needs it *)

Class EmailSyntax := {
  (** [EmailStr.validate(v)]: the validated address, or [None] for the
      [ValueError] of an address that is not valid. *)
  validate_email : string -> option string;
}.

Section Request.
Context {syn : EmailSyntax}.

(** ** Validation of the body *)

Definition email_chain (v : string) : result ErrorType string :=
  match validate_email v with
  | Some e => Ok e
  | None => Err InvalidEmail
  end.

Definition validate_OrderRequest (loc : list string) (r : OrderRequest) :
  list ErrorItem :=
  at_loc (loc ++ ["phone"]) (validate_phone_format (phone r)) ++
  at_loc (loc ++ ["email"]) (email_chain (email r)) ++
  validate_Cart (loc ++ ["order"]) (order r).

(** The model that is built: the fields as validated. *)
Definition validated (r : OrderRequest) : OrderRequest :=
  {| phone := phone r;
     email := default (email r) (validate_email (email r));
     verification := verification r;
     shipping := shipping r;
     order := order r;
     cf_token := cf_token r |}.

Definition parse_OrderRequest (loc : list string) (r : OrderRequest) :
  result (list ErrorItem) OrderRequest :=
  match validate_OrderRequest loc r with
  | [] => Ok (validated r)
  | es => Err es
  end.

(** What a valid body is. *)
Definition request_ok (r : OrderRequest) : Prop :=
  phone_pattern_match (phone r) = true /\
  is_Some (validate_email (email r)) /\
  cart_ok (order r).

(** ** The endpoint *)

Context {cfg : Config} {env : Environment} {rnd : Renderer}.

(** The answer of the route: the validation errors of the body, or what the
    handler returned or raised. *)
Definition post_order (body : OrderRequest) (request : Request) (t : list Event) :
  result (list ErrorItem) (result exn JSONResponse) * list Event :=
  match parse_OrderRequest ["body"] body with
  | Err es => (Err es, [])
  | Ok order_request =>
      let r := process_order order_request request t in (Ok r.1, r.2)
  end.

(** ** Properties *)

Lemma validate_OrderRequest_nil_iff loc r :
  validate_OrderRequest loc r = [] <-> request_ok r.
Proof.
  unfold validate_OrderRequest, request_ok.
  rewrite !app_nil, !at_loc_nil, validate_Cart_nil_iff.
  unfold email_chain, validate_phone_format.
  destruct (phone_pattern_match (phone r)), (validate_email (email r)); simpl;
    rewrite ?is_Some_alt; intuition congruence.
Qed.

Lemma parse_OrderRequest_Ok loc r r' :
  parse_OrderRequest loc r = Ok r' -> request_ok r.
Proof.
  unfold parse_OrderRequest. destruct (validate_OrderRequest loc r) eqn:E; [|done].
  intros _. by apply validate_OrderRequest_nil_iff in E.
Qed.

(** A request that reached the handler had a valid body, and the handler ran
    on the body as validated. *)
Lemma post_order_handled body request t r :
  (post_order body request t).1 = Ok r ->
  request_ok body /\
  post_order body request t =
    (Ok (process_order (validated body) request t).1,
     (process_order (validated body) request t).2).
Proof.
  unfold post_order, parse_OrderRequest.
  destruct (validate_OrderRequest ["body"] body) eqn:E; [|done].
  intros _. by apply validate_OrderRequest_nil_iff in E.
Qed.

(** The body is accepted exactly when the phone matches the pattern,
    the email is accepted by the syntax check and the cart is consistent;
    the request handed to the handler is the body with the email as the
    syntax check returned it. *)
Theorem parse_OrderRequest_Ok_iff loc r r' :
  parse_OrderRequest loc r = Ok r' <-> r' = validated r /\ request_ok r.
Proof.
  unfold parse_OrderRequest. rewrite <- (validate_OrderRequest_nil_iff loc).
  destruct (validate_OrderRequest loc r); split; try done;
    [by intros [= <-] | by intros [-> _] | by intros [_ ?]].
Qed.

(** A body that fails validation has no effect: the handler is not
    entered, the clock is not read and no service is called; the answer is
    the list of every error found, the phone's first, then the email's, then
    the cart's. *)
Theorem invalid_body_no_effect body request t :
  ~ request_ok body ->
  post_order body request t = (Err (validate_OrderRequest ["body"] body), []).
Proof.
  intros Hn. unfold post_order, parse_OrderRequest.
  destruct (validate_OrderRequest ["body"] body) eqn:E; [|done].
  by apply validate_OrderRequest_nil_iff in E.
Qed.

(** Every email that leaves is for a valid order: a consistent cart of
    at least three items whose prices add up, with a phone of the accepted
    shape. *)
Theorem email_implies_valid_order body request t msg :
  msg ∈ emails_sent (post_order body request t).2 -> request_ok body.
Proof.
  unfold post_order.
  destruct (parse_OrderRequest ["body"] body) as [r|es] eqn:E.
  - intros _. by eapply parse_OrderRequest_Ok.
  - by intros ?%elem_of_nil.
Qed.

(** And it is an email of the handler, run on the body as validated. *)
Lemma post_order_emails body request t msg :
  msg ∈ emails_sent (post_order body request t).2 ->
  request_ok body /\
  msg ∈ emails_sent (process_order (validated body) request t).2.
Proof.
  intros H. pose proof (email_implies_valid_order _ _ _ _ H) as Hok.
  split; [done|]. revert H. unfold post_order, parse_OrderRequest.
  by destruct (validate_OrderRequest ["body"] body); [|intros ?%elem_of_nil].
Qed.

End Request.

(** ** Examples

    A syntax check that accepts the addresses with one [@] between two
    non-empty parts and lowers the domain; the order of
    [Notify.example_order] in the environments of [Effects]. *)

Definition example_email_syntax : EmailSyntax :=
  {| validate_email v :=
       match py_split "@" v with
       | [l; d] =>
           if str_truthy l && str_truthy d then Some (l +:+ "@" +:+ py_lower d)
           else None
       | _ => None
       end |}.

Definition eleven_digit_order : OrderRequest :=
  {| phone := "15551234567"; email := "not-an-address";
     verification := ""; shipping := shipping example_order;
     order := cart_two; cf_token := cf_token example_order |}.

(** The end-to-end case of the specification: three items at 10.00, 5.00 and
    5.00, phone 555-123-4567, open hours, empty honeypot, a token the
    service accepts, a domain with MX and NS records. *)
Example post_order_accepted :
  @post_order example_email_syntax example_config example_env text_renderer
    example_order peer [] =
    (Ok (Ok (success_response "3F2A9C41")),
     [EvNow monday_10; EvUuid4 example_uuid;
      EvHttpPost turnstile_url
        [("secret", Some "turnstile-secret"); ("response", Some "token")] verified;
      EvDnsResolve "example.com" MX (DnsAnswer ["10 mail.example.com"]);
      EvDnsResolve "example.com" NS (DnsAnswer ["ns1.example.com"]);
      EvSesSendEmail
        (@owner_email example_config text_renderer
           (@validated example_email_syntax example_order) "3F2A9C41") SesSent;
      EvSesSendEmail
        (@customer_email example_config text_renderer
           (@validated example_email_syntax example_order) "3F2A9C41") SesSent]).
Proof. by vm_compute. Qed.

Lemma invalid_body_no_effect_witness :
  @post_order example_email_syntax example_config example_env text_renderer
    eleven_digit_order peer [] =
    (Err [(["body"; "phone"], phone_error);
          (["body"; "email"], InvalidEmail);
          (["body"; "order"; "totalQty"], min_order_error);
          (["body"; "order"; "totalPrice"], price_mismatch_error)], []).
Proof.
  apply (@invalid_body_no_effect example_email_syntax example_config example_env
           text_renderer eleven_digit_order peer []).
  by intros [? _].
Defined.

Lemma email_implies_valid_order_witness :
  @request_ok example_email_syntax example_order.
Proof.
  apply (@email_implies_valid_order example_email_syntax example_config example_env
           text_renderer example_order peer []
           (@customer_email example_config text_renderer
              (@validated example_email_syntax example_order) "3F2A9C41")).
  apply list_elem_of_further, list_elem_of_here.
Defined.
