(* ===== verification/Rendered.v ===== *)
(** * Rendered: the route with the templates of the code

    [Notify], [Handler] and [Request] are proved for every renderer. This
    file instantiates them with the templates of the code
    ([Templates.html_renderer]) and states what the two emails of an accepted
    order are, from the body of the request to the HTML that is handed to
    SES: the documents, the text of the request they carry, and what a client
    can make the owner's notice show. *)

From Stdlib Require Import ZArith List Bool Lia Ascii String.
From stdpp Require Import base tactics option list strings gmap.
From S2P Require Import Prelude PyFloat PyStr Format Schema Hours Effects Notify.
From S2P Require Import Templates AntiAbuse Handler Request.

#[local] Open Scope string_scope.

Section Rendered.
Context {syn : EmailSyntax} {cfg : Config} {env : Environment}.

(** The route with the templates of the code. *)
#[local] Notation "'route'" := (@post_order syn cfg env html_renderer).

(** The product entries of a body, in the order of its items. *)
Definition product_entries (body : OrderRequest) : list string :=
  @product_html_list html_renderer body.

(** A body with another shipping text, and with the names and the image
    addresses of its items rewritten. *)
Definition with_text (body : OrderRequest) (s : string) (f g : string -> string) :
  OrderRequest :=
  {| phone := phone body; email := email body; verification := verification body;
     shipping := s; cf_token := cf_token body;
     order := {| items := map (fun kv => (f kv.1, with_imageUrl kv.2 (g (imageUrl kv.2))))
                            (items (order body));
                 totalQty := totalQty (order body);
                 totalPrice := totalPrice (order body) |} |}.

(** ** Helper lemmas *)

(** An accepted order of a human client: the body was valid, the answer
    carries the identifier, and the emails are the two of the dispatch, for
    the body as validated. *)
Lemma route_accepted body request t resp :
  (route body request t).1 = Ok (Ok resp) -> verification body = "" ->
  request_ok body /\ resp = success_response (order_id_at t) /\
  emails_sent (route body request t).2 =
    [@owner_email cfg html_renderer (validated body) (order_id_at t);
     @customer_email cfg html_renderer (validated body) (order_id_at t)].
Proof.
  intros H Hv. destruct (post_order_handled _ _ _ _ H) as [Hok E].
  rewrite E in H |- *. cbn [fst snd] in *. injection H as H.
  destruct (accepted_emails (validated body) request t) as [Hr He].
  - by rewrite H.
  - unfold is_bot. simpl. by rewrite Hv.
  - rewrite H in Hr. by simplify_eq.
Qed.

Lemma product_entries_elem body name item :
  (name, item) ∈ items (order body) ->
  create_product_html name (price item) (imageUrl item) (qty item)
    ∈ product_entries body.
Proof.
  intros Hin. unfold product_entries, product_html_list.
  by apply (list_elem_of_fmap_2
              (fun kv => create_product_html kv.1 (price kv.2) (imageUrl kv.2) (qty kv.2))
              _ (name, item)).
Qed.

(** What is written in a product entry is written in the owner's notice. *)
Lemma owner_notice_entry body order_id name item (p : string) :
  (name, item) ∈ items (order body) ->
  str_infix p (create_product_html name (price item) (imageUrl item) (qty item)) ->
  str_infix p (Html (@owner_email cfg html_renderer body order_id)).
Proof.
  intros Hin Hp.
  destruct (create_order_html_fields (product_entries body)
              (totalQty (order body)) (totalPrice (order body)) (email body)
              (phone body) (shipping body) order_id) as (_ & F & _).
  eapply str_infix_trans; [|exact F].
  eapply str_infix_join; [|exact Hp].
  apply list_elem_of_In, (product_entries_elem body name item Hin).
Qed.

(** ** Theorems *)

(** C17. The two emails of an accepted order, from the body to the
    documents. When the route answers an order of a human client with
    success, the answer carries the identifier drawn for the request, and
    exactly two emails were accepted by SES, both from the no-reply address:
    the notice to the business address, whose document is the owner's
    template filled with the product entries in the order of the items, the
    declared totals, the email as the syntax check returned it, and the phone
    and the shipping text of the body; then the confirmation to the email in
    lower case, whose document is the customer's template. *)
Theorem accepted_order_documents body request t resp :
  (route body request t).1 = Ok (Ok resp) -> verification body = "" ->
  let id := order_id_at t in
  let address := default (email body) (validate_email (email body)) in
  resp = success_response id /\
  emails_sent (route body request t).2 =
    [{| Source := NO_REPLY_EMAIL; ToAddresses := [BUSINESS_EMAIL];
        Subject := "New Order Received - " +:+ id;
        Html := create_order_html (product_entries body)
                  (totalQty (order body)) (totalPrice (order body))
                  address (phone body) (shipping body) id |};
     {| Source := NO_REPLY_EMAIL; ToAddresses := [Some (py_lower address)];
        Subject := "Order Confirmation - " +:+ id;
        Html := create_customer_confirmation_html (product_entries body)
                  (totalQty (order body)) (totalPrice (order body)) id |}].
Proof.
  intros H Hv. by destruct (route_accepted _ _ _ _ H Hv) as (_ & -> & ->).
Qed.

(** C20. The text of the request reaches the business owner as it was sent.
    In the notice of an accepted order, the shipping text stands between the
    tags of its table cell, and for every item the image address and the name
    stand between the quotes of their attributes, each character for
    character: validation puts no condition on these three texts, and the
    templates do not escape them, so markup in them is markup of the
    document. *)
Theorem request_text_reaches_owner body request t resp :
  (route body request t).1 = Ok (Ok resp) -> verification body = "" ->
  exists msg rest,
    emails_sent (route body request t).2 = msg :: rest /\
    ToAddresses msg = [BUSINESS_EMAIL] /\
    str_infix (html "font-size: 14px;`>" +:+ shipping body +:+ "</td>") (Html msg) /\
    forall name item, (name, item) ∈ items (order body) ->
      str_infix (html "<img src=`" +:+ imageUrl item +:+ html "` width=`80`") (Html msg) /\
      str_infix (html " alt=`" +:+ name +:+ html "`>") (Html msg).
Proof.
  intros H Hv. destruct (route_accepted _ _ _ _ H Hv) as (_ & _ & ->).
  eexists _, _. split; [done|]. split; [done|]. split.
  - apply create_order_html_fields.
  - intros name item Hin.
    destruct (create_product_html_fields name (price item) (imageUrl item) (qty item))
      as (F1 & F2 & _).
    split; by apply (owner_notice_entry (validated body) _ name item _ Hin).
Qed.

(** The three texts are free: a body is as valid with any shipping text,
    any names and any image addresses in their place. *)
Lemma request_ok_with_text body s f g :
  request_ok (with_text body s f g) <-> request_ok body.
Proof.
  unfold request_ok, cart_ok, quantities, prices, with_text, item_ok. simpl.
  by rewrite Forall_map, !map_map.
Qed.

(** Both emails of an accepted order read [Items]: the singular of the
    summary line is never sent, since an order that reaches the dispatch
    declares three items at least. *)
Lemma accepted_emails_plural body request t resp msg :
  (route body request t).1 = Ok (Ok resp) -> verification body = "" ->
  msg ∈ emails_sent (route body request t).2 ->
  str_infix (" Items</p>") (Html msg).
Proof.
  intros H Hv. destruct (route_accepted _ _ _ _ H Hv) as ((_ & _ & Hc) & _ & ->).
  pose proof (valid_cart_plural _ Hc) as Hp.
  rewrite !elem_of_cons, elem_of_nil. intros [-> | [-> | []]]; simpl.
  - pose proof (create_order_html_fields (product_entries (validated body))
      (totalQty (order body)) (totalPrice (order body)) (email (validated body))
      (phone body) (shipping body) (order_id_at t)) as F.
    cbv zeta in F. rewrite Hp in F. apply F.
  - pose proof (create_customer_confirmation_html_fields
      (product_entries (validated body)) (totalQty (order body))
      (totalPrice (order body)) (order_id_at t)) as F.
    cbv zeta in F. rewrite Hp in F. apply F.
Qed.

End Rendered.

(** ** Examples

    The order of [Notify.example_order] through the route with the templates
    of the code, in the environment of [Effects.example_env]. *)

Definition example_route (body : OrderRequest) :=
  @post_order example_email_syntax example_config example_env
    (@html_renderer example_config) body peer [].

Lemma accepted_order_documents_witness :
  success_response "3F2A9C41" = success_response (@order_id_at example_env []) /\
  emails_sent (example_route example_order).2 =
    [{| Source := Some "no-reply@shop.example";
        ToAddresses := [Some "owner@shop.example"];
        Subject := "New Order Received - 3F2A9C41";
        Html := create_order_html (@product_entries example_config example_order)
                  3 (float_of_Z 20) "Ann.Lee@example.com" "555-123-4567"
                  "1 Main Street, Springfield" "3F2A9C41" |};
     {| Source := Some "no-reply@shop.example";
        ToAddresses := [Some "ann.lee@example.com"];
        Subject := "Order Confirmation - 3F2A9C41";
        Html := @create_customer_confirmation_html example_config
                  (@product_entries example_config example_order)
                  3 (float_of_Z 20) "3F2A9C41" |}].
Proof.
  apply (@accepted_order_documents example_email_syntax example_config example_env
           example_order peer [] (success_response "3F2A9C41")); reflexivity.
Defined.

(** An order whose shipping text is markup. *)
Definition markup_order : OrderRequest :=
  {| phone := phone example_order; email := email example_order;
     verification := ""; shipping := "<a href=http://evil.example>Track</a>";
     order := order example_order; cf_token := cf_token example_order |}.

Lemma request_text_reaches_owner_witness :
  exists msg rest,
    emails_sent (example_route markup_order).2 = msg :: rest /\
    ToAddresses msg = [Some "owner@shop.example"] /\
    str_infix (html "font-size: 14px;`>" +:+ "<a href=http://evil.example>Track</a>"
               +:+ "</td>") (Html msg) /\
    forall name item, (name, item) ∈ items cart_three ->
      str_infix (html "<img src=`" +:+ imageUrl item +:+ html "` width=`80`") (Html msg) /\
      str_infix (html " alt=`" +:+ name +:+ html "`>") (Html msg).
Proof.
  apply (@request_text_reaches_owner example_email_syntax example_config example_env
           markup_order peer [] (success_response "3F2A9C41")); reflexivity.
Defined.

Lemma accepted_emails_plural_witness :
  str_infix " Items</p>"
    (Html (@customer_email example_config (@html_renderer example_config)
             (@validated example_email_syntax example_order) "3F2A9C41")).
Proof.
  apply (@accepted_emails_plural example_email_syntax example_config example_env
           example_order peer [] (success_response "3F2A9C41"));
    [reflexivity | reflexivity |].
  apply list_elem_of_further, list_elem_of_here.
Defined.

(** A forged notice, computed. The client orders three units of one product
    at 20.00; the image address of the item holds the rest of an entry for
    one hundred gold bars at 0.01 and the start of the next entry. The order
    is valid and accepted, and the notice the owner receives is the notice of
    the cart with the gold bars first. *)
Definition entry_head : string :=
  py_prefix 256 (create_product_html "" (float_of_Z 0) "" 0).

Definition forged_entry : string :=
  create_product_html "Gold bar" (float_of_decimal 1 2) "https://shop.example/gold.png" 100.

Definition forged_address : string :=
  substring 256 (String.length forged_entry - 256) forged_entry
  +:+ entry_head +:+ "https://shop.example/tea.png".

Definition tea (u : string) : CartItem :=
  {| qty := 3; price := float_of_Z 20; pricePerUnit := float_of_decimal 667 2;
     imageUrl := u |}.

Definition sent_order : OrderRequest :=
  with_items example_order [("Tea", tea forged_address)].

Definition shown_order : OrderRequest :=
  with_items example_order
    [("Gold bar", {| qty := 100; price := float_of_decimal 1 2;
                     pricePerUnit := float_of_decimal 1 2;
                     imageUrl := "https://shop.example/gold.png" |});
     ("Tea", tea "https://shop.example/tea.png")].

Example forged_notice_accepted :
  (example_route sent_order).1 = Ok (Ok (success_response "3F2A9C41")) /\
  emails_sent (example_route sent_order).2 !! 0%nat =
    Some (@owner_email example_config (@html_renderer example_config)
            (@validated example_email_syntax shown_order) "3F2A9C41") /\
  @validate_OrderRequest example_email_syntax ["body"] shown_order =
    [(["body"; "order"; "totalQty"], qty_mismatch_error);
     (["body"; "order"; "totalPrice"], price_mismatch_error)].
Proof. by vm_compute. Qed.

(** Without the variable [SUPPORT_EMAIL] the confirmation names [None] as
    the address for questions. *)
Example confirmation_without_support_address :
  str_in "Contact us at $None</p>"
    (@create_customer_confirmation_html (load_config ∅ ∅) [] 3 (float_of_Z 20) "3F2A9C41")
    = true.
Proof. by vm_compute. Qed.
