(* ===== verification/Related.v ===== *)
(** * Related: the computations of the code in two environments

    A computation of the code reads the history only through the five calls
    of the [Environment], and the secret key of the configuration only to
    put it in the data of the verification call. This file states that once,
    for every use: when a second environment gives, at its own history, the
    answers the first one gave, every computation of the code does in the
    second what it did in the first, also with another secret key; the
    events of the two runs differ in the data of the POST only.

    [env_rel_upto h env env' P] relates two environments through a condition
    [P g l evs], read as: the calls that made the events [evs] from the
    history [g] in [env] get the same answers from the history [l] in
    [env'], the data of a POST being changed by [h]. [related_upto m m'] is
    the conclusion for a computation, and is proved by induction on the way
    the computation is built: the calls, [mret], [raise], [print], sequencing
    and [try ... except]; then for each function of the code up to the
    route. [env_rel] and [related] are the case of one configuration, where
    the events are the same.

    [Stateless] uses it with the environment as it is after a history,
    [Replay] with the environment that reads its answers from a list of
    events, [Interleave] for the transitions of the machine, and [Secret]
    with two secret keys. *)

From Stdlib Require Import ZArith List Bool Lia.
From stdpp Require Import base tactics option list strings gmap.
From S2P Require Import Prelude PyStr Schema Hours OrderId Effects.
From S2P Require Import AntiAbuse Notify Handler Request.

(** ** Events that differ in the data of a POST *)

Definition map_post (h : list (string * option string) -> list (string * option string))
    (ev : Event) : Event :=
  match ev with
  | EvHttpPost url data out => EvHttpPost url (h data) out
  | _ => ev
  end.

Lemma map_post_id (evs : list Event) : map_post id <$> evs = evs.
Proof. induction evs as [|[] evs IH]; by f_equal/=. Qed.

Lemma emails_sent_map_post h (evs : list Event) :
  emails_sent (map_post h <$> evs) = emails_sent evs.
Proof.
  unfold emails_sent. induction evs as [|ev evs IH]; [done|]. rewrite fmap_cons.
  destruct ev as [| | | | |msg []]; csimpl; by rewrite IH.
Qed.

(** ** Environments that answer alike *)

Record env_rel_upto (h : list (string * option string) -> list (string * option string))
    (env env' : Environment)
    (P : list Event -> list Event -> list Event -> Prop) : Prop := {
  (** the condition for a sequence of events is the condition for its
      parts, each from the histories it starts at *)
  upto_app : forall g l evs1 evs2,
    P g l (evs1 ++ evs2) ->
    P g l evs1 /\ P (g ++ evs1) (l ++ (map_post h <$> evs1)) evs2;
  upto_now : forall g l,
    P g l [EvNow (@env_now env g)] -> @env_now env' l = @env_now env g;
  upto_uuid4 : forall g l,
    P g l [EvUuid4 (@env_uuid4 env g)] -> @env_uuid4 env' l = @env_uuid4 env g;
  upto_http_post : forall g l url data,
    P g l [EvHttpPost url data (@env_http_post env g url data)] ->
    @env_http_post env' l url (h data) = @env_http_post env g url data;
  upto_dns_resolve : forall g l domain ty,
    P g l [EvDnsResolve domain ty (@env_dns_resolve env g domain ty)] ->
    @env_dns_resolve env' l domain ty = @env_dns_resolve env g domain ty;
  upto_ses_send_email : forall g l msg,
    P g l [EvSesSendEmail msg (@env_ses_send_email env g msg)] ->
    @env_ses_send_email env' l msg = @env_ses_send_email env g msg;
}.

(** The same, for calls that are the same in both. *)
Record env_rel (env env' : Environment)
    (P : list Event -> list Event -> list Event -> Prop) : Prop := {
  rel_app : forall g l evs1 evs2,
    P g l (evs1 ++ evs2) -> P g l evs1 /\ P (g ++ evs1) (l ++ evs1) evs2;
  rel_now : forall g l,
    P g l [EvNow (@env_now env g)] -> @env_now env' l = @env_now env g;
  rel_uuid4 : forall g l,
    P g l [EvUuid4 (@env_uuid4 env g)] -> @env_uuid4 env' l = @env_uuid4 env g;
  rel_http_post : forall g l url data,
    P g l [EvHttpPost url data (@env_http_post env g url data)] ->
    @env_http_post env' l url data = @env_http_post env g url data;
  rel_dns_resolve : forall g l domain ty,
    P g l [EvDnsResolve domain ty (@env_dns_resolve env g domain ty)] ->
    @env_dns_resolve env' l domain ty = @env_dns_resolve env g domain ty;
  rel_ses_send_email : forall g l msg,
    P g l [EvSesSendEmail msg (@env_ses_send_email env g msg)] ->
    @env_ses_send_email env' l msg = @env_ses_send_email env g msg;
}.

Lemma env_rel_upto_id env env' P : env_rel_upto id env env' P <-> env_rel env env' P.
Proof.
  split; intros [Happ ? ? ? ? ?]; split; try done; intros g l evs1 evs2 H;
    specialize (Happ g l evs1 evs2 H); by rewrite map_post_id in *.
Qed.

(** ** Computations that do alike *)

Section Upto.
Context {cfg : Config} {rnd : Renderer}.
Context (key' : option string).
Context (h : list (string * option string) -> list (string * option string)).
Context (env env' : Environment).
Context (P : list Event -> list Event -> list Event -> Prop).
Context (Hrel : env_rel_upto h env env' P).
(** [h] puts the other key in the data of the verification call *)
Context (Hh : forall token,
  h [("secret", CLOUDFLARE_KEY); ("response", Some token)] =
  [("secret", key'); ("response", Some token)]).

(** [m'] does from [l] what [m] did from [g], when the calls of [m] get the
    same answers. *)
Definition related_upto {A} (m m' : M A) : Prop :=
  forall g l, P g l (m g).2 -> m' l = ((m g).1, map_post h <$> (m g).2).

Definition related_opt {A} (o o' : option (M A)) : Prop :=
  match o, o' with
  | Some m, Some m' => related_upto m m'
  | None, None => True
  | _, _ => False
  end.

Lemma related_ret {A} (a : A) : related_upto (mret a) (mret a).
Proof. done. Qed.

Lemma related_raise {A} e : related_upto (@raise A e) (raise e).
Proof. done. Qed.

Lemma related_print line : related_upto (print line) (print line).
Proof. done. Qed.

Lemma related_bind {A B} (m m' : M A) (k k' : A -> M B) :
  related_upto m m' -> (forall a, related_upto (k a) (k' a)) ->
  related_upto (m ≫= k) (m' ≫= k').
Proof.
  intros Hm Hk g l. unfold mbind, M_bind. specialize (Hm g l).
  destruct (m g) as [[a|e] evs]; simpl in *.
  - intros [H1 H2]%(upto_app _ _ _ _ Hrel).
    by rewrite (Hm H1), (Hk a _ _ H2), fmap_app.
  - intros H. by rewrite (Hm H).
Qed.

Lemma related_try_except {A} (body body' : M A) o o' :
  related_upto body body' -> (forall e, related_opt (o e) (o' e)) ->
  related_upto (try_except body o) (try_except body' o').
Proof.
  intros Hb Ho g l. unfold try_except. specialize (Hb g l).
  destruct (body g) as [[a|e] evs]; simpl in *; [by intros ->%Hb|].
  specialize (Ho e). destruct (o e) as [m|]; simpl.
  - intros [H1 H2]%(upto_app _ _ _ _ Hrel). rewrite (Hb H1).
    destruct (o' e) as [m'|]; [|done]. by rewrite (Ho _ _ H2), fmap_app.
  - intros H. rewrite (Hb H). by destruct (o' e).
Qed.

Lemma related_except_clauses {A}
    (clauses clauses' : list (list exn_class * (exn -> M A))) e :
  Forall2 (fun c c' => c.1 = c'.1 /\ forall e, related_upto (c.2 e) (c'.2 e))
    clauses clauses' ->
  related_opt (except_clauses clauses e) (except_clauses clauses' e).
Proof.
  induction 1 as [|[cs o] [cs' o'] l l' [Hc Ho] _ IH]; simpl in *; [done|].
  subst cs'. destruct (existsb (isinstance e) cs); [apply Ho | apply IH].
Qed.

(** *** The calls *)

Lemma related_datetime_now : related_upto (@datetime_now env) (@datetime_now env').
Proof. intros g l H. unfold datetime_now. by rewrite (upto_now _ _ _ _ Hrel g l H). Qed.

Lemma related_uuid4 : related_upto (@uuid4 env) (@uuid4 env').
Proof. intros g l H. unfold uuid4. by rewrite (upto_uuid4 _ _ _ _ Hrel g l H). Qed.

Lemma related_http_post_json url data :
  related_upto (@http_post_json env url data) (@http_post_json env' url (h data)).
Proof.
  intros g l H. unfold http_post_json. cbv zeta.
  by rewrite (upto_http_post _ _ _ _ Hrel g l url data H).
Qed.

Lemma related_dns_resolve domain ty :
  related_upto (@dns_resolve env domain ty) (@dns_resolve env' domain ty).
Proof.
  intros g l H. unfold dns_resolve. cbv zeta.
  by rewrite (upto_dns_resolve _ _ _ _ Hrel g l domain ty H).
Qed.

Lemma related_ses_send_email msg :
  related_upto (@ses_send_email env msg) (@ses_send_email env' msg).
Proof.
  intros g l H. unfold ses_send_email. cbv zeta.
  by rewrite (upto_ses_send_email _ _ _ _ Hrel g l msg H).
Qed.

(** Decomposes a goal [related_upto m m'] along the way [m] is built;
    [known] closes the goals for the functions that are called. *)
#[local] Ltac relate_with known :=
  repeat first
    [ known
    | apply related_ret | apply related_raise | apply related_print
    | apply related_datetime_now | apply related_uuid4
    | apply related_http_post_json | apply related_dns_resolve
    | apply related_ses_send_email
    | apply related_bind | apply related_try_except
    | apply related_except_clauses
    | progress intros
    | progress cbv zeta
    | match goal with
      | |- related_upto (if ?c then _ else _) _ => destruct c
      | |- related_upto (match ?x with _ => _ end) _ => destruct x
      | |- Forall2 _ _ _ => constructor
      | |- _ /\ _ => split; [reflexivity|]
      end ].

#[local] Ltac relate := relate_with fail.

(** The fields of the other configuration, but for the key, are those of
    this one. *)
#[local] Ltac same_config :=
  cbn [with_key BUSINESS_EMAIL NO_REPLY_EMAIL SUPPORT_EMAIL CLOUDFLARE_KEY blocklist].

(** *** The functions of the code *)

Lemma related_upto_verify_turnstile_token token :
  related_upto (@verify_turnstile_token cfg env token)
               (@verify_turnstile_token (with_key cfg key') env' token).
Proof. unfold verify_turnstile_token. same_config. rewrite <- Hh. relate. Qed.

Lemma related_upto_is_domain_real email :
  related_upto (@is_domain_real cfg env email)
               (@is_domain_real (with_key cfg key') env' email).
Proof. unfold is_domain_real, domain_checks. same_config. relate. Qed.

Lemma related_upto_send_order_emails order_data order_id :
  related_upto (@send_order_emails cfg env rnd order_data order_id)
               (@send_order_emails (with_key cfg key') env' rnd order_data order_id).
Proof.
  unfold send_order_emails, owner_email, customer_email. same_config. relate.
Qed.

Lemma related_upto_order_flow order_request request :
  related_upto (@order_flow cfg env rnd order_request request)
               (@order_flow (with_key cfg key') env' rnd order_request request).
Proof.
  unfold order_flow, request_client_host, validate_business_hours.
  relate_with ltac:(first [ apply related_upto_verify_turnstile_token
                          | apply related_upto_is_domain_real
                          | apply related_upto_send_order_emails ]).
Qed.

Lemma related_upto_process_order order_request request :
  related_upto (@process_order cfg env rnd order_request request)
               (@process_order (with_key cfg key') env' rnd order_request request).
Proof. unfold process_order. relate_with ltac:(apply related_upto_order_flow). Qed.

(** The route: validation reads neither the environment nor the
    configuration. *)
Lemma post_order_related_upto {syn : EmailSyntax} body request g l :
  P g l (@post_order syn cfg env rnd body request g).2 ->
  @post_order syn (with_key cfg key') env' rnd body request l =
  ((@post_order syn cfg env rnd body request g).1,
   map_post h <$> (@post_order syn cfg env rnd body request g).2).
Proof.
  unfold post_order. destruct (parse_OrderRequest ["body"] body); [|done].
  cbv zeta. cbn [fst snd]. intros H.
  by rewrite (related_upto_process_order _ _ g l H).
Qed.

End Upto.

(** ** One configuration *)

Section Related.
Context {cfg : Config} {rnd : Renderer}.
Context (env env' : Environment).
Context (P : list Event -> list Event -> list Event -> Prop).
Context (Hrel : env_rel env env' P).

Definition related {A} (m m' : M A) : Prop :=
  forall g l, P g l (m g).2 -> m' l = m g.

Lemma related_of_upto {A} (m m' : M A) : related_upto id P m m' -> related m m'.
Proof.
  intros H g l HP. rewrite (H g l HP), map_post_id. by destruct (m g).
Qed.

(** The lemmas of [Upto], with the key and the data as they are. *)
#[local] Ltac from_upto lem :=
  apply related_of_upto;
  let H := fresh in
  first
    [ pose proof (lem (@CLOUDFLARE_KEY cfg) id env env' P
                    (proj2 (env_rel_upto_id _ _ _) Hrel) (fun _ => eq_refl)) as H
    | pose proof (lem (@CLOUDFLARE_KEY cfg) id env env' P
                    (proj2 (env_rel_upto_id _ _ _) Hrel)) as H ];
  rewrite with_key_id in H; apply H.

Lemma related_verify_turnstile_token token :
  related (@verify_turnstile_token cfg env token)
          (@verify_turnstile_token cfg env' token).
Proof. from_upto (@related_upto_verify_turnstile_token cfg). Qed.

Lemma related_is_domain_real email :
  related (@is_domain_real cfg env email) (@is_domain_real cfg env' email).
Proof. from_upto (@related_upto_is_domain_real cfg). Qed.

Lemma related_send_order_emails order_data order_id :
  related (@send_order_emails cfg env rnd order_data order_id)
          (@send_order_emails cfg env' rnd order_data order_id).
Proof. from_upto (@related_upto_send_order_emails cfg rnd). Qed.

Lemma related_process_order order_request request :
  related (@process_order cfg env rnd order_request request)
          (@process_order cfg env' rnd order_request request).
Proof. from_upto (@related_upto_process_order cfg rnd). Qed.

Lemma post_order_related {syn : EmailSyntax} body request g l :
  P g l (@post_order syn cfg env rnd body request g).2 ->
  @post_order syn cfg env' rnd body request l =
  @post_order syn cfg env rnd body request g.
Proof.
  unfold post_order. destruct (parse_OrderRequest ["body"] body); [|done].
  cbv zeta. cbn [snd]. intros H. by rewrite (related_process_order _ _ g l H).
Qed.

End Related.
