(* ===== verification/Stateless.v ===== *)
(** * Stateless: the handler keeps nothing between requests

    The process that serves a request may have served others before. The
    code keeps no state of its own between them: what [process_order] does
    after a history depends on that history only through the answers of the
    outside world (the clock, the random source, the verification service,
    the DNS, SES).

    [env_sim env env' f] says that the environment [env'] answers after a
    history [t] what [env] answers after [f t]; by [Related], every
    computation of the code then does in [env'] from [t] what it does in
    [env] from [f t]. Two instances are used: [env_after env t0], the
    environment as it is after [t0], and an environment whose answers do not
    depend on the history at all ([history_free]). Keeping nothing, the
    handler does not recognise an order it has dispatched: sent again, the
    order is dispatched again ([repeated_order_dispatched_again]). *)

From Stdlib Require Import ZArith List Bool Lia.
From stdpp Require Import base tactics option list strings gmap.
From S2P Require Import Prelude PyStr Schema Hours OrderId Effects.
From S2P Require Import AntiAbuse Notify Handler Request Related.

(** ** Environments that answer alike *)

(** [env'] answers after [t] what [env] answers after [f t]. *)
Record env_sim (env env' : Environment) (f : list Event -> list Event) : Prop := {
  sim_app : forall t evs, f (t ++ evs) = f t ++ evs;
  sim_now : forall t, @env_now env' t = @env_now env (f t);
  sim_uuid4 : forall t, @env_uuid4 env' t = @env_uuid4 env (f t);
  sim_http_post : forall t url data,
    @env_http_post env' t url data = @env_http_post env (f t) url data;
  sim_dns_resolve : forall t domain ty,
    @env_dns_resolve env' t domain ty = @env_dns_resolve env (f t) domain ty;
  sim_ses_send_email : forall t msg,
    @env_ses_send_email env' t msg = @env_ses_send_email env (f t) msg;
}.

(** The environment as it is after the history [t0]. *)
Definition env_after (env : Environment) (t0 : list Event) : Environment :=
  {| env_now t := @env_now env (t0 ++ t);
     env_uuid4 t := @env_uuid4 env (t0 ++ t);
     env_http_post t := @env_http_post env (t0 ++ t);
     env_dns_resolve t := @env_dns_resolve env (t0 ++ t);
     env_ses_send_email t := @env_ses_send_email env (t0 ++ t) |}.

(** An environment whose answers depend on the call alone. *)
Definition history_free (env : Environment) : Prop :=
  forall t t',
    @env_now env t = @env_now env t' /\
    @env_uuid4 env t = @env_uuid4 env t' /\
    (forall url data, @env_http_post env t url data = @env_http_post env t' url data) /\
    (forall domain ty, @env_dns_resolve env t domain ty = @env_dns_resolve env t' domain ty) /\
    (forall msg, @env_ses_send_email env t msg = @env_ses_send_email env t' msg).

Lemma env_after_sim env t0 : env_sim env (env_after env t0) (app t0).
Proof. split; try done. intros. by rewrite app_assoc. Qed.

Lemma history_free_sim env t0 : history_free env -> env_sim (env_after env t0) env id.
Proof. intros H. split; try done; intros t; intros; by apply (H t (t0 ++ t)). Qed.

(** Alike in the sense of [Related]: the calls made from [f t] in [env] get
    the same answers from [t] in [env']. *)
Lemma env_sim_rel env env' f :
  env_sim env env' f -> env_rel env env' (fun g l _ => g = f l).
Proof.
  intros H. split.
  - intros g l evs1 evs2 ->. by rewrite (sim_app _ _ _ H).
  - intros g l ->. apply (sim_now _ _ _ H).
  - intros g l ->. apply (sim_uuid4 _ _ _ H).
  - intros g l url data ->. apply (sim_http_post _ _ _ H).
  - intros g l domain ty ->. apply (sim_dns_resolve _ _ _ H).
  - intros g l msg ->. apply (sim_ses_send_email _ _ _ H).
Qed.

(** ** The route *)

Section Stateless.
Context {syn : EmailSyntax} {cfg : Config} {rnd : Renderer}.

Lemma post_order_sim env env' f body request t :
  env_sim env env' f ->
  @post_order syn cfg env rnd body request (f t) =
  @post_order syn cfg env' rnd body request t.
Proof.
  intros H. symmetry.
  by apply (post_order_related env env' _ (env_sim_rel env env' f H)).
Qed.

(** In an environment whose answers do not depend on the history, the
    route does the same from every history. *)
Lemma post_order_history_free env body request t t' :
  history_free env ->
  @post_order syn cfg env rnd body request t =
  @post_order syn cfg env rnd body request t'.
Proof.
  intros H.
  assert (forall t0, @post_order syn cfg env rnd body request t0 =
                     @post_order syn cfg env rnd body request []) as E.
  { intros t0. rewrite <- (app_nil_r t0) at 1.
    rewrite (post_order_sim env _ (app t0) body request [] (env_after_sim env t0)).
    exact (post_order_sim _ env id body request [] (history_free_sim env t0 H)). }
  by rewrite (E t), (E t').
Qed.

(** C30. The handler keeps no state between requests. What the route does
    for a request after a history [t0], whatever requests that history holds,
    is what it does for the request as the first one in the environment as
    it is after [t0]: the same response and the same events. The history
    acts on a request only through the answers of the outside world; nothing
    of an earlier request (its identifier, its emails, its outcome) is
    remembered, so a repeated order is not recognised either. *)
Theorem post_order_stateless env body request t0 :
  @post_order syn cfg env rnd body request t0 =
  @post_order syn cfg (env_after env t0) rnd body request [].
Proof.
  rewrite <- (post_order_sim env _ (app t0) body request [] (env_after_sim env t0)).
  by rewrite app_nil_r.
Qed.


End Stateless.

(** ** Examples *)

Lemma example_env_history_free : history_free example_env.
Proof. done. Qed.

(** The order of [Notify.example_order] sent twice: the same answer twice,
    and four emails. *)
Example repeated_order_dispatched_twice :
  let run1 := @post_order example_email_syntax example_config example_env
                text_renderer example_order peer [] in
  let run2 := @post_order example_email_syntax example_config example_env
                text_renderer example_order peer run1.2 in
  run2 = run1 /\ length (emails_sent (run1.2 ++ run2.2)) = 4%nat.
Proof.
  cbv zeta. split; [|by vm_compute].
  apply post_order_history_free, example_env_history_free.
Qed.

