(* ===== verification/Replay.v ===== *)
(** * Replay: a request does what the answers it got make it do

    The events of a run record every call with its answer. [env_replay
    script] is the environment that reads its answers from a list of events:
    after a history of [n] events, a call is answered as the event of
    [script] at position [n] says. A run of the route is reproduced by
    replaying its own events from the empty history ([post_order_replay]),
    whatever the environment it ran in and whatever had happened before.

    So the response of a request, and the calls it makes, are a function of
    the request and of the answers it received, and of nothing else: two runs
    of the same request that got the same answers are the same run, in any
    environments, after any histories ([answers_determine_run]). *)

From Stdlib Require Import ZArith List Bool Lia.
From stdpp Require Import base tactics option list strings gmap.
From S2P Require Import Prelude PyStr Schema Hours OrderId Effects.
From S2P Require Import AntiAbuse Notify Handler Request Related.

(** ** The environment that replays a list of events *)

(** The answer for a call of the wrong kind, or past the end of the script:
    midnight on a Monday, the UUID 0, a failed call. *)
Definition default_now : datetime := {| weekday := Monday; hour := 0 |}.

Definition env_replay (script : list Event) : Environment :=
  {| env_now l :=
       match script !! length l with Some (EvNow now) => now | _ => default_now end;
     env_uuid4 l :=
       match script !! length l with Some (EvUuid4 u) => u | _ => 0%N end;
     env_http_post l _ _ :=
       match script !! length l with
       | Some (EvHttpPost _ _ out) => out
       | _ => HttpError "replay"
       end;
     env_dns_resolve l _ _ :=
       match script !! length l with
       | Some (EvDnsResolve _ _ out) => out
       | _ => DnsError "replay"
       end;
     env_ses_send_email l _ :=
       match script !! length l with
       | Some (EvSesSendEmail _ out) => out
       | _ => SesError "replay"
       end |}.

(** The events [evs] are in the script, at the place a history as long as
    [l] leads to. *)
Definition scripted (script : list Event) (l evs : list Event) : Prop :=
  exists pre post, script = pre ++ evs ++ post /\ length pre = length l.

Lemma scripted_prefix script evs : evs `prefix_of` script -> scripted script [] evs.
Proof. intros [post ->]. by exists [], post. Qed.

Lemma scripted_refl evs : scripted evs [] evs.
Proof. by apply scripted_prefix. Qed.

Lemma scripted_lookup script l ev :
  scripted script l [ev] -> script !! length l = Some ev.
Proof. intros (pre & post & -> & <-). by apply list_lookup_middle. Qed.

(** The events that come next are in the script after the first ones,
    whatever stands in their POST data in the history. *)
Lemma scripted_app h script l evs1 evs2 :
  scripted script l (evs1 ++ evs2) ->
  scripted script l evs1 /\ scripted script (l ++ (map_post h <$> evs1)) evs2.
Proof.
  intros (pre & post & -> & Hl). split.
  - exists pre, (evs2 ++ post). by rewrite <- app_assoc.
  - exists (pre ++ evs1), post. rewrite <- !app_assoc.
    by rewrite !length_app, length_fmap, Hl.
Qed.

(** The replay gives the answers of the script to the calls that made it,
    in whatever environment and after whatever history they were made, and
    whatever the data of the POST. *)
Lemma replay_rel_upto h env script :
  env_rel_upto h env (env_replay script) (fun _ l evs => scripted script l evs).
Proof.
  split; [intros _; apply scripted_app|..]; intros g l; intros; simpl;
    match goal with H : scripted _ _ _ |- _ => by rewrite (scripted_lookup _ _ _ H) end.
Qed.

Lemma replay_rel env script :
  env_rel env (env_replay script) (fun _ l evs => scripted script l evs).
Proof. apply env_rel_upto_id, replay_rel_upto. Qed.

(** ** The route *)

Section Replay.
Context {syn : EmailSyntax} {cfg : Config} {rnd : Renderer}.

(** A run is reproduced by a script that holds its events, from the place
    of the script where they start. *)
Lemma post_order_scripted env body request g l script :
  scripted script l (@post_order syn cfg env rnd body request g).2 ->
  @post_order syn cfg (env_replay script) rnd body request l =
  @post_order syn cfg env rnd body request g.
Proof. apply (post_order_related env _ _ (replay_rel env script)). Qed.

(** A run is reproduced by replaying its events from the empty history. *)
Lemma post_order_replay env body request g :
  let run := @post_order syn cfg env rnd body request g in
  @post_order syn cfg (env_replay run.2) rnd body request [] = run.
Proof. cbv zeta. apply post_order_scripted, scripted_refl. Qed.

(** C37. A request does what the answers it got make it do. Take two runs
    of the route for the same request, in any two environments, after any two
    histories (so with any other requests handled before, or none). If the
    calls and answers of the first are the beginning of those of the second,
    the two runs are the same: the same events to the end and the same
    response. Nothing but the answers it receives acts on the handling of a
    request, and no run stops where another goes on. *)
Theorem answers_determine_run env1 env2 body request g1 g2 :
  (@post_order syn cfg env1 rnd body request g1).2
    `prefix_of` (@post_order syn cfg env2 rnd body request g2).2 ->
  @post_order syn cfg env1 rnd body request g1 =
  @post_order syn cfg env2 rnd body request g2.
Proof.
  intros H.
  rewrite <- (post_order_scripted env1 body request g1 []
                (@post_order syn cfg env2 rnd body request g2).2)
    by by apply scripted_prefix.
  apply post_order_replay.
Qed.

End Replay.

(** ** Examples *)

(** The accepted order of [Request.post_order_accepted], replayed from its
    events. *)
Example accepted_order_replayed :
  let run := @post_order example_email_syntax example_config example_env
               text_renderer example_order peer [] in
  @post_order example_email_syntax example_config (env_replay run.2)
    text_renderer example_order peer [] = run.
Proof. by vm_compute. Qed.

(** A script of two events: open hours, then a verification service that
    cannot be reached. *)
Example unreachable_verification_replayed :
  (@post_order example_email_syntax example_config
     (env_replay [EvNow monday_10; EvUuid4 example_uuid]) text_renderer
     example_order peer []).1 =
  Ok (Err (HTTPException 500 network_message)).
Proof. by vm_compute. Qed.

(** The same order after an earlier request, in an environment that gives
    it the same answers. *)
Lemma answers_determine_run_witness :
  @post_order example_email_syntax example_config example_env text_renderer
    example_order peer [] =
  @post_order example_email_syntax example_config example_env text_renderer
    example_order peer [EvPrint "an earlier request"].
Proof.
  apply (@answers_determine_run example_email_syntax example_config text_renderer
           example_env example_env example_order peer [] [EvPrint "an earlier request"]).
  exists []. by vm_compute.
Defined.
