(* ===== verification/Secret.v ===== *)
(** * Secret: the secret key reaches the verification call only

    [CLOUDFLARE_KEY] is the one secret of the configuration. The code reads
    it in one place, the data of the POST to the verification service
    ([AntiAbuse.verify_turnstile_token]). This file proves that it goes
    nowhere else, as a statement on two runs of the code with its own
    templates: take a run of the route in a process, start a second process
    whose variables differ in [CLOUDFLARE_KEY] only, each process with the
    configuration it loads ([Effects.load_config]) and the templates of this
    configuration ([Templates.html_renderer]), and give the second run the
    answers the first one got. The second run has the same response and the
    same events, in the same order, but for the value of the field [secret]
    in the data of the POST ([secret_confined]). So the response, the log
    lines, the DNS queries and the two emails say nothing of the key
    ([secret_outside]), for one request and for requests that follow each
    other ([secret_outside_twice]). [same_outside] is the equivalence of two
    sequences of events that differ in their POSTs only; appending and the
    list of the emails respect it.

    The templates are part of the statement: they read the configuration
    (the support address), and templates that printed the key would make the
    emails of the two runs differ ([leaky_template_not_confined]).

    The second run is made in the environment that replays the events of the
    first ([Replay.env_replay]): a service that answers by the key (as the
    verification service does) may answer the second run otherwise, and the
    run may then differ; what is proved is that the key acts through these
    answers only. *)

From Stdlib Require Import ZArith List Bool Lia.
From stdpp Require Import base tactics option list strings gmap.
From S2P Require Import Prelude PyStr Schema Hours OrderId Effects.
From S2P Require Import AntiAbuse Notify Templates Handler Request Related Replay.

(** ** The events with another key *)

(** The data of a POST with the value of its field [secret] replaced. *)
Definition set_secret (key : option string) (data : list (string * option string)) :
  list (string * option string) :=
  (fun kv => if String.eqb kv.1 "secret" then (kv.1, key) else kv) <$> data.

Definition rekey (key : option string) : Event -> Event := map_post (set_secret key).

(** What is seen of a run outside the verification service: the clock
    readings, the draws, the log lines, the DNS queries and the emails. *)
Definition outside (evs : list Event) : list Event :=
  filter (fun ev => is_http_post ev = false) evs.

Lemma set_secret_turnstile_data {cfg : Config} key token :
  set_secret key (turnstile_data token) = @turnstile_data (with_key cfg key) token.
Proof. done. Qed.

Lemma outside_rekey key evs : outside (rekey key <$> evs) = outside evs.
Proof.
  unfold outside. induction evs as [|ev evs IH]; [done|].
  rewrite fmap_cons, !filter_cons, IH. by destruct ev.
Qed.

Lemma emails_sent_rekey key evs : emails_sent (rekey key <$> evs) = emails_sent evs.
Proof. apply emails_sent_map_post. Qed.

(** Two runs look the same from outside the verification service. *)
Definition same_outside (evs evs' : list Event) : Prop := outside evs = outside evs'.

#[export] Instance same_outside_equiv : Equivalence same_outside.
Proof.
  unfold same_outside. split; [by intros ? | by intros ? ? | by intros ? ? ? -> ->].
Qed.

#[export] Instance app_same_outside :
  Proper (same_outside ==> same_outside ==> same_outside) (@app Event).
Proof.
  unfold same_outside, outside. intros a a' Ha b b' Hb. by rewrite !filter_app, Ha, Hb.
Qed.

Lemma emails_sent_outside evs : emails_sent (outside evs) = emails_sent evs.
Proof.
  unfold outside, emails_sent. induction evs as [|ev evs IH]; [done|].
  rewrite filter_cons. destruct ev as [| | | | |msg []]; csimpl; by rewrite ?IH.
Qed.

#[export] Instance emails_sent_same_outside : Proper (same_outside ==> eq) emails_sent.
Proof.
  intros a b H. by rewrite <- (emails_sent_outside a), <- (emails_sent_outside b), H.
Qed.

Lemma rekey_same_outside key evs : same_outside (rekey key <$> evs) evs.
Proof. apply outside_rekey. Qed.

(** ** The handler with another key *)

Section Secret.
Context {syn : EmailSyntax} {cfg : Config} {rnd : Renderer}.

(** The handler and the gates, the templates apart: with templates [rnd]
    that are the same for both keys, a run is reproduced with another key by
    a script that holds its events, from the place of the script where they
    start. *)
Lemma post_order_rekeyed env key' body request g l script :
  scripted script l (@post_order syn cfg env rnd body request g).2 ->
  @post_order syn (with_key cfg key') (env_replay script) rnd body request l =
    ((@post_order syn cfg env rnd body request g).1,
     rekey key' <$> (@post_order syn cfg env rnd body request g).2).
Proof.
  by apply (post_order_related_upto key' (set_secret key') env _ _
              (replay_rel_upto _ env script)).
Qed.

End Secret.

(** ** The templates of the code

    The templates read the support address of the configuration and not the
    key: they are the same for every key. *)

Lemma html_renderer_with_key (cfg : Config) key :
  @html_renderer (with_key cfg key) = @html_renderer cfg.
Proof. reflexivity. Qed.

Section Keys.
Context {syn : EmailSyntax} {cfg : Config}.

(** The route with the templates of the code, from any place of a script
    that holds the events of the run. *)
Lemma post_order_rekeyed_rendered env key' body request g l script :
  scripted script l (@post_order syn cfg env (@html_renderer cfg) body request g).2 ->
  @post_order syn (with_key cfg key') (env_replay script)
    (@html_renderer (with_key cfg key')) body request l =
    ((@post_order syn cfg env (@html_renderer cfg) body request g).1,
     rekey key' <$> (@post_order syn cfg env (@html_renderer cfg) body request g).2).
Proof. rewrite html_renderer_with_key. apply post_order_rekeyed. Qed.

(** The same for any configuration and its key replaced. *)
Lemma secret_confined_rendered env key' body request g :
  let run := @post_order syn cfg env (@html_renderer cfg) body request g in
  @post_order syn (with_key cfg key') (env_replay run.2)
    (@html_renderer (with_key cfg key')) body request [] =
    (run.1, rekey key' <$> run.2).
Proof. cbv zeta. apply post_order_rekeyed_rendered, scripted_refl. Qed.

(** What is seen outside the verification service does not depend on the
    key: the response, and every event but the POST, the emails among
    them. *)
Lemma secret_outside env key key' body request g :
  let run := @post_order syn (with_key cfg key) env
               (@html_renderer (with_key cfg key)) body request g in
  let run' := @post_order syn (with_key cfg key') (env_replay run.2)
                (@html_renderer (with_key cfg key')) body request [] in
  run'.1 = run.1 /\ same_outside run'.2 run.2 /\
  emails_sent run'.2 = emails_sent run.2.
Proof.
  cbv zeta. rewrite !html_renderer_with_key.
  rewrite (post_order_rekeyed (cfg := with_key cfg key) env key' body request g [] _
             (scripted_refl _)).
  cbn [fst snd]. by rewrite rekey_same_outside.
Qed.

(** Nor does what is seen of two requests handled one after the other. *)
Lemma secret_outside_twice env key key' body1 body2 request g :
  let rnd := @html_renderer (with_key cfg key) in
  let rnd' := @html_renderer (with_key cfg key') in
  let run1 := @post_order syn (with_key cfg key) env rnd body1 request g in
  let run2 := @post_order syn (with_key cfg key) env rnd body2 request (g ++ run1.2) in
  let run1' := @post_order syn (with_key cfg key') (env_replay (run1.2 ++ run2.2)) rnd'
                 body1 request [] in
  let run2' := @post_order syn (with_key cfg key') (env_replay (run1.2 ++ run2.2)) rnd'
                 body2 request run1'.2 in
  run1'.1 = run1.1 /\ run2'.1 = run2.1 /\
  same_outside (run1'.2 ++ run2'.2) (run1.2 ++ run2.2).
Proof.
  cbv zeta. rewrite !html_renderer_with_key.
  set (rnd := @html_renderer cfg).
  set (run1 := @post_order syn (with_key cfg key) env rnd body1 request g).
  set (run2 := @post_order syn (with_key cfg key) env rnd body2 request (g ++ run1.2)).
  rewrite (post_order_rekeyed (cfg := with_key cfg key) env key' body1 request g []
             (run1.2 ++ run2.2)) by by apply scripted_prefix, prefix_app_r.
  fold run1. cbn [fst snd].
  rewrite (post_order_rekeyed (cfg := with_key cfg key) env key' body2 request
             (g ++ run1.2) (rekey key' <$> run1.2) (run1.2 ++ run2.2)).
  - fold run2. cbn [fst snd]. by rewrite !rekey_same_outside.
  - exists run1.2, []. rewrite app_nil_r. split; [done|]. by rewrite length_fmap.
Qed.

End Keys.

(** ** Two processes *)

Section Processes.
Context {syn : EmailSyntax}.
Variables (environ : gmap string string) (disposable : gset string).

(** C19. The secret key reaches the verification call only. Take a run of
    the route for a request in a process with the variables [environ], with
    the configuration the module loads from them and the templates of the
    code for this configuration, in any environment, after any history.
    Start a second process whose variable [CLOUDFLARE_KEY] has any other
    value, or is not set, the other variables being the same; it loads its
    own configuration and its templates read that one. Give its route the
    answers of the first run. It gives the same response, and makes the same
    calls in the same order, with the same log lines, the same DNS queries
    and the same emails, character for character: the events of the two runs
    differ in the value of the field [secret] of the verification POST, and
    in nothing else. *)
Theorem secret_confined env key' body request g :
  let cfg := load_config environ disposable in
  let cfg' := load_config (partial_alter (fun _ => key') "CLOUDFLARE_KEY" environ)
                disposable in
  let run := @post_order syn cfg env (@html_renderer cfg) body request g in
  @post_order syn cfg' (env_replay run.2) (@html_renderer cfg') body request [] =
    (run.1, rekey key' <$> run.2).
Proof.
  cbv zeta. rewrite load_config_with_key.
  apply post_order_rekeyed_rendered, scripted_refl.
Qed.

(** The same for two processes whose variables agree but for the key. *)
Lemma secret_confined_agree environ' env body request g :
  (forall name, name <> "CLOUDFLARE_KEY" -> environ' !! name = environ !! name) ->
  let cfg := load_config environ disposable in
  let cfg' := load_config environ' disposable in
  let run := @post_order syn cfg env (@html_renderer cfg) body request g in
  @post_order syn cfg' (env_replay run.2) (@html_renderer cfg') body request [] =
    (run.1, rekey (environ' !! "CLOUDFLARE_KEY") <$> run.2).
Proof.
  intros H. cbv zeta. rewrite (load_config_agree environ environ') by done.
  apply post_order_rekeyed_rendered, scripted_refl.
Qed.

End Processes.

(** ** Examples *)

(** The variables of a process: they give the configuration of the
    examples. *)
Definition example_environ : gmap string string :=
  list_to_map [("BUSINESS_EMAIL", "owner@shop.example");
               ("NO_REPLY_EMAIL", "no-reply@shop.example");
               ("SUPPORT_EMAIL", "support@shop.example");
               ("CLOUDFLARE_KEY", "turnstile-secret")].

Example example_environ_config :
  load_config example_environ (@blocklist example_config) = example_config.
Proof. reflexivity. Qed.

(** The accepted order of [Rendered.example_route] in a process with another
    key: the POST carries the other key, and the rest is the same, the two
    emails among it. *)
Example accepted_order_other_key :
  let cfg' := load_config (<["CLOUDFLARE_KEY" := "another key"]> example_environ)
                (@blocklist example_config) in
  let run := @post_order example_email_syntax example_config example_env
               (@html_renderer example_config) example_order peer [] in
  let run' := @post_order example_email_syntax cfg' example_env
                (@html_renderer cfg') example_order peer [] in
  run' = (run.1, rekey (Some "another key") <$> run.2) /\
  run'.2 <> run.2 /\ outside run'.2 = outside run.2 /\
  length (emails_sent run'.2) = 2%nat.
Proof. by vm_compute. Qed.

(** The templates matter. With a confirmation that printed the key (here
    in place of the whole text), the emails of the two processes differ: the
    route with such templates does not confine the key. *)
Definition leaky_renderer (cfg : Config) : Renderer :=
  {| Notify.create_product_html := @Notify.create_product_html text_renderer;
     Notify.create_order_html := @Notify.create_order_html text_renderer;
     Notify.create_customer_confirmation_html _ _ _ _ :=
       default "None" (@CLOUDFLARE_KEY cfg) |}.

Example leaky_template_not_confined :
  let cfg := example_config in
  let cfg' := with_key example_config (Some "another key") in
  let run := @post_order example_email_syntax cfg example_env
               (leaky_renderer cfg) example_order peer [] in
  let run' := @post_order example_email_syntax cfg' (env_replay run.2)
                (leaky_renderer cfg') example_order peer [] in
  run'.1 = run.1 /\ emails_sent run'.2 <> emails_sent run.2.
Proof. by vm_compute. Qed.
