(* ===== verification/Machine.v ===== *)
(** * Machine: the orchestration as a state machine

    The specification describes the handling of a request as a state
    machine: Received, StructurallyValid, HoursChecked, HoneypotEvaluated,
    then either Accepted without email (a bot) or VerificationChecked,
    DomainChecked, NotificationDispatched and Accepted; a gate that fails
    leads to a Rejected state; Accepted and Rejected lead to Responded.

    [step] is this machine, one rule per transition, each gate being the
    function of the code ([Request.parse_OrderRequest],
    [Hours.business_hours], [AntiAbuse.verify_turnstile_token],
    [AntiAbuse.is_domain_real], [Notify.send_order_emails]) run from the
    history reached so far. [step_fn] is the same machine as a function,
    [steps] its executions and [run] their computation with fuel. The
    theorems state that the route [Request.post_order] refines the machine:
    the executions of the machine from Received to Responded are exactly the
    runs of the route, there is one for every request, and it takes at most
    eight steps; and that the machine is live: no state but Responded is
    stuck, and from every state an execution reaches Responded.

    The machine follows the code where the specification differs from it:
    the order identifier is drawn after the hours gate, and a missing client
    address or a fault of the verification call is an internal error. *)

From Stdlib Require Import ZArith List Bool Lia.
From stdpp Require Import base tactics option list strings gmap.
From S2P Require Import Prelude PyStr Schema Phone Hours OrderId Effects.
From S2P Require Import AntiAbuse Notify Handler Request.

(** ** States *)

Inductive Reason :=
| StructuralValidationError (es : list ErrorItem)
| BusinessHoursError
| VerificationError
| InvalidEmailDomainError
| NotificationDispatchError
| InternalError.

(** What the route answers: validation errors, or the handler's result. *)
Definition Response : Type := result (list ErrorItem) (result exn JSONResponse).

Inductive State :=
| Received
| StructurallyValid (r : OrderRequest)
| HoursChecked (r : OrderRequest) (client_ip : string)
| HoneypotEvaluated (r : OrderRequest) (order_id : string)
| VerificationChecked (r : OrderRequest) (order_id : string)
| DomainChecked (r : OrderRequest) (order_id : string)
| NotificationDispatched (r : OrderRequest) (order_id : string)
| Accepted (order_id : string) (notified : bool)
| Rejected (reason : Reason)
| Responded (resp : Response).

Definition response_of (reason : Reason) : Response :=
  match reason with
  | StructuralValidationError es => Err es
  | BusinessHoursError => Ok (Err (HTTPException 400 hours_message))
  | VerificationError => Ok (Err (HTTPException 400 security_message))
  | InvalidEmailDomainError => Ok (Err (HTTPException 400 domain_message))
  | NotificationDispatchError => Ok (Err (HTTPException 500 dispatch_message))
  | InternalError => Ok (Err (HTTPException 500 network_message))
  end.

(** The number of transitions that are left before Responded, at most. *)
Definition rank (s : State) : nat :=
  match s with
  | Received => 8
  | StructurallyValid _ => 7
  | HoursChecked _ _ => 6
  | HoneypotEvaluated _ _ => 5
  | VerificationChecked _ _ => 4
  | DomainChecked _ _ => 3
  | NotificationDispatched _ _ => 2
  | Accepted _ _ | Rejected _ => 1
  | Responded _ => 0
  end.

(** The log line of an internal fault. *)
Definition fault_line (e : exn) : Event :=
  EvPrint ("Error processing order: " +:+ exn_str e).

Definition honeypot_line (client_ip : string) (r : OrderRequest) : Event :=
  EvPrint ("HONEYPOT TRIGGERED: Bot at " +:+ client_ip +:+ " sent '"
           +:+ verification r +:+ "'").

Definition domain_line (r : OrderRequest) : Event :=
  EvPrint ("SECURITY: Blocked invalid email domain: " +:+ email r).

Section Machine.
Context {syn : EmailSyntax} {cfg : Config} {env : Environment} {rnd : Renderer}.
Variables (body : OrderRequest) (request : Request).

(** ** Transitions

    [step t s evs s']: from history [t], the machine in state [s] moves to
    [s'] and adds the events [evs]. *)

Inductive step (t : list Event) : State -> list Event -> State -> Prop :=
| step_valid r :
    parse_OrderRequest ["body"] body = Ok r ->
    step t Received [] (StructurallyValid r)
| step_invalid es :
    parse_OrderRequest ["body"] body = Err es ->
    step t Received [] (Rejected (StructuralValidationError es))
| step_no_client r :
    client request = None ->
    step t (StructurallyValid r) [fault_line (attribute_error "NoneType" "host")]
      (Rejected InternalError)
| step_open r a :
    client request = Some a -> (business_hours (env_now t)).1 = true ->
    step t (StructurallyValid r) [EvNow (env_now t)] (HoursChecked r (host a))
| step_closed r a :
    client request = Some a -> (business_hours (env_now t)).1 = false ->
    step t (StructurallyValid r) [EvNow (env_now t)] (Rejected BusinessHoursError)
| step_bot r client_ip :
    str_truthy (verification r) = true ->
    step t (HoursChecked r client_ip)
      [EvUuid4 (env_uuid4 t); honeypot_line client_ip r]
      (Accepted (order_id_of_uuid (env_uuid4 t)) false)
| step_human r client_ip :
    str_truthy (verification r) = false ->
    step t (HoursChecked r client_ip) [EvUuid4 (env_uuid4 t)]
      (HoneypotEvaluated r (order_id_of_uuid (env_uuid4 t)))
| step_verified r order_id is_human evs :
    verify_turnstile_token (cf_token r) t = (Ok is_human, evs) ->
    json_truthy is_human = true ->
    step t (HoneypotEvaluated r order_id) evs (VerificationChecked r order_id)
| step_not_verified r order_id is_human evs :
    verify_turnstile_token (cf_token r) t = (Ok is_human, evs) ->
    json_truthy is_human = false ->
    step t (HoneypotEvaluated r order_id) evs (Rejected VerificationError)
| step_verification_fault r order_id e evs :
    verify_turnstile_token (cf_token r) t = (Err e, evs) ->
    step t (HoneypotEvaluated r order_id) (evs ++ [fault_line e]) (Rejected InternalError)
| step_domain_ok r order_id evs :
    is_domain_real (py_lower (email r)) t = (Ok true, evs) ->
    step t (VerificationChecked r order_id) evs (DomainChecked r order_id)
| step_domain_bad r order_id evs :
    is_domain_real (py_lower (email r)) t = (Ok false, evs) ->
    step t (VerificationChecked r order_id) (evs ++ [domain_line r])
      (Rejected InvalidEmailDomainError)
| step_dispatched r order_id evs :
    send_order_emails r order_id t = (Ok true, evs) ->
    step t (DomainChecked r order_id) evs (NotificationDispatched r order_id)
| step_dispatch_failed r order_id evs :
    send_order_emails r order_id t = (Ok false, evs) ->
    step t (DomainChecked r order_id) evs (Rejected NotificationDispatchError)
| step_accepted r order_id :
    step t (NotificationDispatched r order_id) [] (Accepted order_id true)
| step_respond_accepted order_id notified :
    step t (Accepted order_id notified) []
      (Responded (Ok (Ok (success_response order_id))))
| step_respond_rejected reason :
    step t (Rejected reason) [] (Responded (response_of reason)).

(** The executions of the machine: the history grows with every step. *)
Inductive steps : list Event -> State -> list Event -> State -> Prop :=
| steps_refl t s : steps t s [] s
| steps_step t s evs1 s' evs2 s'' :
    step t s evs1 s' -> steps (t ++ evs1) s' evs2 s'' ->
    steps t s (evs1 ++ evs2) s''.

(** ** The machine as a function *)

Definition step_fn (t : list Event) (s : State) : option (list Event * State) :=
  match s with
  | Received =>
      match parse_OrderRequest ["body"] body with
      | Ok r => Some ([], StructurallyValid r)
      | Err es => Some ([], Rejected (StructuralValidationError es))
      end
  | StructurallyValid r =>
      match client request with
      | None =>
          Some ([fault_line (attribute_error "NoneType" "host")], Rejected InternalError)
      | Some a =>
          if (business_hours (env_now t)).1
          then Some ([EvNow (env_now t)], HoursChecked r (host a))
          else Some ([EvNow (env_now t)], Rejected BusinessHoursError)
      end
  | HoursChecked r client_ip =>
      if str_truthy (verification r)
      then Some ([EvUuid4 (env_uuid4 t); honeypot_line client_ip r],
                 Accepted (order_id_of_uuid (env_uuid4 t)) false)
      else Some ([EvUuid4 (env_uuid4 t)],
                 HoneypotEvaluated r (order_id_of_uuid (env_uuid4 t)))
  | HoneypotEvaluated r order_id =>
      match verify_turnstile_token (cf_token r) t with
      | (Ok is_human, evs) =>
          if json_truthy is_human then Some (evs, VerificationChecked r order_id)
          else Some (evs, Rejected VerificationError)
      | (Err e, evs) => Some (evs ++ [fault_line e], Rejected InternalError)
      end
  | VerificationChecked r order_id =>
      match is_domain_real (py_lower (email r)) t with
      | (Ok true, evs) => Some (evs, DomainChecked r order_id)
      | (Ok false, evs) => Some (evs ++ [domain_line r], Rejected InvalidEmailDomainError)
      | (Err _, _) => None
      end
  | DomainChecked r order_id =>
      match send_order_emails r order_id t with
      | (Ok true, evs) => Some (evs, NotificationDispatched r order_id)
      | (Ok false, evs) => Some (evs, Rejected NotificationDispatchError)
      | (Err _, _) => None
      end
  | NotificationDispatched r order_id => Some ([], Accepted order_id true)
  | Accepted order_id _ => Some ([], Responded (Ok (Ok (success_response order_id))))
  | Rejected reason => Some ([], Responded (response_of reason))
  | Responded _ => None
  end.

(** The response reached from [s] within [fuel] steps, with the events. *)
Fixpoint run (fuel : nat) (t : list Event) (s : State) :
  option (list Event * Response) :=
  match s, fuel with
  | Responded resp, _ => Some ([], resp)
  | _, O => None
  | _, S fuel' =>
      '(evs, s') ← step_fn t s;
      '(evs', resp) ← run fuel' (t ++ evs) s';
      Some (evs ++ evs', resp)
  end.

(** ** The function and the relation agree *)

Lemma step_fn_spec t s evs s' : step t s evs s' <-> step_fn t s = Some (evs, s').
Proof.
  split.
  - intros H. destruct H; simpl;
      repeat match goal with H : _ = _ |- _ => rewrite H end; done.
  - destruct s; simpl; intros H; repeat case_match; simplify_eq;
      by econstructor.
Qed.

Lemma step_det t s evs1 s1 evs2 s2 :
  step t s evs1 s1 -> step t s evs2 s2 -> evs1 = evs2 /\ s1 = s2.
Proof. rewrite !step_fn_spec. intros H1 H2. by simplify_eq. Qed.

Lemma step_Responded t resp evs s' : ~ step t (Responded resp) evs s'.
Proof. by rewrite step_fn_spec. Qed.

(** The machine is deterministic: from a state and a history, one response
    at most, with one sequence of events. *)
Lemma steps_det t s evs1 resp1 evs2 resp2 :
  steps t s evs1 (Responded resp1) -> steps t s evs2 (Responded resp2) ->
  evs1 = evs2 /\ resp1 = resp2.
Proof.
  intros H1. remember (Responded resp1) as s1 eqn:E1. revert evs2 resp2.
  induction H1 as [t s|t s evs1 s' evs1' s'' Hs _ IH]; intros evs2 resp2 H2.
  - subst s. inv H2; [done|]. by apply step_Responded in H.
  - inv H2; [by apply step_Responded in Hs|].
    destruct (step_det _ _ _ _ _ _ Hs H) as [-> ->].
    by destruct (IH eq_refl _ _ H0) as [-> ->].
Qed.

Lemma responded_dec s : (exists resp, s = Responded resp) \/ forall resp, s <> Responded resp.
Proof. destruct s; eauto. Qed.

Lemma run_Responded fuel t resp : run fuel t (Responded resp) = Some ([], resp).
Proof. by destruct fuel. Qed.

Lemma run_S fuel t s :
  (forall resp, s <> Responded resp) ->
  run (S fuel) t s =
    '(evs, s') ← step_fn t s;
    '(evs', resp) ← run fuel (t ++ evs) s';
    Some (evs ++ evs', resp).
Proof. intros H. destruct s; try done. by destruct (H resp). Qed.

(** A computed run is an execution. *)
Lemma run_steps fuel t s evs resp :
  run fuel t s = Some (evs, resp) -> steps t s evs (Responded resp).
Proof.
  revert t s evs. induction fuel as [|fuel IH]; intros t s evs.
  - destruct s; simpl; try done. intros [= <- <-]. constructor.
  - destruct (responded_dec s) as [[r ->]|Hn].
    + rewrite run_Responded. intros [= <- <-]. constructor.
    + rewrite run_S by done.
      destruct (step_fn t s) as [[evs1 s']|] eqn:Es; simpl; [|done].
      destruct (run fuel (t ++ evs1) s') as [[evs2 resp']|] eqn:Er; simpl; [|done].
      intros [= <- <-]. eapply steps_step; [by apply step_fn_spec | by apply IH].
Qed.

(** ** The route refines the machine *)

#[local] Ltac machine_simpl :=
  cbn [step_fn mbind option_bind fst snd negb app]; rewrite ?app_nil_r.

#[local] Ltac machine_step :=
  machine_simpl; rewrite run_S by done; machine_simpl.

(** Run the machine to its response and compare. *)
#[local] Ltac machine_finish :=
  repeat machine_step; rewrite ?run_Responded; machine_simpl;
  rewrite <- ?app_assoc; try done.

(** The machine run from a validated request computes the decision table of
    the handler. *)
Lemma machine_run_valid t r :
  run 7 t (StructurallyValid r) =
    Some (trace r request t (outcome r request t),
          Ok (answer t (outcome r request t))).
Proof.
  pose proof (is_domain_real_fst (py_lower (email r))
                (after_uuid t ++ (turnstile_run r t).2)) as Hd.
  destruct (send_order_emails_total r (order_id_at t)
              (after_uuid t ++ (turnstile_run r t).2 ++ (domain_run r t).2)) as [b Hs].
  revert Hd Hs. unfold outcome, trace, dispatch_run, domain_run, turnstile_run,
    order_id_at, after_uuid, after_clock, is_open, is_bot. cbv zeta.
  rewrite <- !app_assoc. intros Hd Hs. machine_step.
  destruct (client request) as [a|]; [|machine_finish].
  destruct (business_hours (env_now t)).1; [|machine_finish].
  machine_step. destruct (str_truthy (verification r)); [machine_finish|].
  machine_step. rewrite <- ?app_assoc.
  destruct (verify_turnstile_token _ _) as [[is_human|e] ts]; [|machine_finish].
  cbn [fst snd] in *. destruct (json_truthy is_human); [|machine_finish].
  machine_step. rewrite <- ?app_assoc.
  destruct (is_domain_real _ _) as [rd dom]. cbn [fst snd] in *. subst rd.
  destruct (domain_verdict _ _); [|machine_finish].
  machine_step. rewrite <- ?app_assoc.
  destruct (send_order_emails _ _ _) as [rs ses]. cbn [fst snd] in *. subst rs.
  destruct b; machine_finish.
Qed.

Lemma machine_run t :
  run 8 t Received =
    Some ((post_order body request t).2, (post_order body request t).1).
Proof.
  unfold post_order. machine_step.
  destruct (parse_OrderRequest ["body"] body) as [r|es]; [|machine_finish].
  machine_simpl. by rewrite machine_run_valid, process_order_run.
Qed.

(** An execution from Received to Responded is the run of the route. *)
Lemma steps_post_order t evs resp :
  steps t Received evs (Responded resp) -> post_order body request t = (resp, evs).
Proof.
  intros H. pose proof (run_steps _ _ _ _ _ (machine_run t)) as Hrun.
  destruct (steps_det _ _ _ _ _ _ H Hrun) as [-> ->].
  by destruct (post_order body request t).
Qed.

(** C39. The route refines the state machine: the executions of the machine
    from Received to Responded are exactly the runs of the route, with the
    same response and the same events in the same order. *)
Theorem post_order_refines_machine t evs resp :
  steps t Received evs (Responded resp) <-> post_order body request t = (resp, evs).
Proof.
  pose proof (run_steps _ _ _ _ _ (machine_run t)) as Hrun. split.
  - intros H. destruct (steps_det _ _ _ _ _ _ H Hrun) as [-> ->].
    by destruct (post_order body request t).
  - intros E. by rewrite E in Hrun.
Qed.

(** Every request is answered: from any history the machine reaches
    Responded within eight steps, and the response and the events are those
    of the route. *)
Theorem machine_responds t :
  exists evs resp,
    run 8 t Received = Some (evs, resp) /\ post_order body request t = (resp, evs).
Proof.
  exists (post_order body request t).2, (post_order body request t).1.
  split; [apply machine_run | by destruct (post_order body request t)].
Qed.

(** ** Progress from every state *)

(** No state but Responded is stuck: the domain check and the dispatch
    catch every exception, so each gate has an outcome with a transition. *)
Lemma step_fn_progress t s :
  (forall resp, s <> Responded resp) -> is_Some (step_fn t s).
Proof.
  intros Hn. destruct s; simpl; try (by repeat case_match); [| |by destruct (Hn resp)].
  - pose proof (is_domain_real_fst (py_lower (email r)) t) as H.
    destruct (is_domain_real _ t) as [[[]|e] evs]; by simplify_eq/=.
  - destruct (send_order_emails_total r order_id t) as [b H].
    destruct (send_order_emails r order_id t) as [[[]|e] evs]; by simplify_eq/=.
Qed.

(** Every transition moves towards Responded. *)
Lemma step_rank t s evs s' : step t s evs s' -> rank s' < rank s.
Proof. destruct 1; simpl; lia. Qed.

Lemma run_rank fuel t s : rank s <= fuel -> is_Some (run fuel t s).
Proof.
  revert t s. induction fuel as [|fuel IH]; intros t s Hr;
    (destruct (responded_dec s) as [[resp ->]|Hn];
       [exists ([], resp); by rewrite ?run_Responded|]).
  - destruct s; simpl in Hr; try lia. by destruct (Hn resp).
  - rewrite run_S by done.
    destruct (step_fn_progress t s Hn) as [[evs s'] Es]. rewrite Es. simpl.
    pose proof (step_rank _ _ _ _ (proj2 (step_fn_spec _ _ _ _) Es)) as Hlt.
    destruct (IH (t ++ evs) s') as [[evs' resp] Er]; [lia|]. by rewrite Er.
Qed.

Lemma steps_app t s evs1 s' evs2 s'' :
  steps t s evs1 s' -> steps (t ++ evs1) s' evs2 s'' -> steps t s (evs1 ++ evs2) s''.
Proof.
  induction 1 as [t s|t s e1 s1 e2 s2 Hs _ IH]; [by rewrite app_nil_r|].
  rewrite (app_assoc t), <- (app_assoc e1). intros H.
  eapply steps_step; [done | by apply IH].
Qed.

(** An execution makes as many transitions as the rank of its first state
    at most. *)
Lemma steps_rank t s evs s' : steps t s evs s' -> rank s' <= rank s.
Proof.
  induction 1 as [|t s evs1 s' evs2 s'' Hs _ IH]; [done|].
  apply step_rank in Hs. lia.
Qed.

(** Every execution can be completed. *)
Lemma steps_complete t s : exists evs resp, steps t s evs (Responded resp).
Proof.
  destruct (run_rank (rank s) t s) as [[evs resp] Hr]; [done|].
  exists evs, resp. by eapply run_steps.
Qed.

(** C15. The machine is live: in whatever state it is and whatever has
    happened before, for every environment, it has an execution that reaches
    Responded, of as many transitions as the rank of the state at most (eight
    from Received). No answer of the clock, of the verification service, of
    the DNS or of SES makes the handling of a request stop without a
    response. *)
Theorem machine_live t s :
  exists evs resp,
    run (rank s) t s = Some (evs, resp) /\ steps t s evs (Responded resp).
Proof.
  destruct (run_rank (rank s) t s) as [[evs resp] Hr]; [done|].
  exists evs, resp. split; [done | by eapply run_steps].
Qed.

End Machine.

(** ** Examples *)

(** The accepted order of [Request.post_order_accepted], step by step. *)
Example machine_accepted :
  @run example_email_syntax example_config example_env text_renderer
    example_order peer 8 [] Received =
  Some ((@post_order example_email_syntax example_config example_env text_renderer
           example_order peer []).2,
        Ok (Ok (success_response "3F2A9C41"))).
Proof. by vm_compute. Qed.

(** Seven steps are not enough for an accepted order. *)
Example machine_needs_eight :
  @run example_email_syntax example_config example_env text_renderer
    example_order peer 7 [] Received = None.
Proof. by vm_compute. Qed.
