(* ===== verification/Calls.v ===== *)
(** * Calls: what the route may call, and with what

    The handler talks to three services. This file states, for every path
    of the handler at once, what it may say to them: [allowed r ev] lists the
    events a request with the validated body [r] can make. The POST goes to
    the verification URL with the secret and the token of the request and
    nothing else of the request; the DNS is asked for the domain of the
    email of the request, in lower case; an email is the owner's notice or
    the customer's confirmation of this request; a log line has one of five
    shapes.

    The proof is by rule induction on the state machine of [Machine]: it is
    an invariant of the executions from Received that the request a state
    carries is the validated body ([carries]), and every transition from
    such a state makes allowed events only ([step_allowed]). The route
    refines the machine, so the events of the route are allowed
    ([route_calls_allowed]).

    In the same way, the calls of a transition are those of the gate its
    state is at ([step_phases]) and a transition leads to a later gate, so
    the calls of a run are in the order of the gates: the clock, the draw,
    the verification, the DNS, SES ([calls_in_order]). And a gate makes a
    bounded number of calls, the verification one, the domain check two, the
    dispatch two, so a run makes at most these, and eight events with its
    log lines ([route_calls_bounded]): the code retries nothing. *)

From Stdlib Require Import ZArith List Bool Lia Ascii String.
From stdpp Require Import base tactics option list sorting strings gmap.
From S2P Require Import Prelude PyStr Schema Phone Hours OrderId Effects.
From S2P Require Import AntiAbuse Notify Handler Request Machine.

Section Calls.
Context {syn : EmailSyntax} {cfg : Config} {env : Environment} {rnd : Renderer}.

(** ** The events of a request *)

(** The lines that the handling of a request prints. *)
Inductive log_line (r : OrderRequest) : string -> Prop :=
| log_fault msg : log_line r ("Error processing order: " +:+ msg)
| log_honeypot client_ip :
    log_line r ("HONEYPOT TRIGGERED: Bot at " +:+ client_ip +:+ " sent '"
                +:+ verification r +:+ "'")
| log_blocklist :
    log_line r ("BLOCKLIST: Caught disposable email domain: "
                +:+ domain_of (py_lower (email r)))
| log_domain : log_line r ("SECURITY: Blocked invalid email domain: " +:+ email r)
| log_ses msg : log_line r ("Error sending email: " +:+ msg).

Inductive allowed (r : OrderRequest) : Event -> Prop :=
| allowed_now now : allowed r (EvNow now)
| allowed_uuid4 u : allowed r (EvUuid4 u)
| allowed_print line : log_line r line -> allowed r (EvPrint line)
| allowed_post out :
    allowed r (EvHttpPost turnstile_url (turnstile_data (cf_token r)) out)
| allowed_dns ty out :
    allowed r (EvDnsResolve (domain_of (py_lower (email r))) ty out)
| allowed_owner order_id out :
    allowed r (EvSesSendEmail (owner_email r order_id) out)
| allowed_customer order_id out :
    allowed r (EvSesSendEmail (customer_email r order_id) out).

(** The request that a state of the machine carries. *)
Definition request_of (s : State) : option OrderRequest :=
  match s with
  | StructurallyValid r | HoursChecked r _ | HoneypotEvaluated r _
  | VerificationChecked r _ | DomainChecked r _ | NotificationDispatched r _ => Some r
  | _ => None
  end.

(** The invariant: the state carries the request [r], if any. *)
Definition carries (r : OrderRequest) (s : State) : Prop :=
  forall r', request_of s = Some r' -> r' = r.

(** The place of a call in the order of the gates: the clock, the draw, the
    verification, the DNS, SES. A log line has none. *)
Definition phase (ev : Event) : option nat :=
  match ev with
  | EvNow _ => Some 1
  | EvUuid4 _ => Some 2
  | EvHttpPost _ _ _ => Some 3
  | EvDnsResolve _ _ _ => Some 4
  | EvSesSendEmail _ _ => Some 5
  | EvPrint _ => None
  end.

Definition phases (evs : list Event) : list nat := omap phase evs.

(** The number of transitions made, at least: the gate a state is at. *)
Definition level (s : State) : nat := 8 - rank s.

(** The number of the calls of the kind [k] (its place in the order of the
    gates) among events. *)
Definition calls (k : nat) (evs : list Event) : nat :=
  length (filter (eq k) (phases evs)).

(** The calls that the gate of a kind makes, at most: one reading of the
    clock, one draw, one POST, two DNS queries, two emails. *)
Definition quota (k : nat) : nat :=
  match k with
  | 1 | 2 | 3 => 1
  | 4 | 5 => 2
  | _ => 0
  end.

(** The events that are left from a state, at most, log lines included. *)
Definition budget (s : State) : nat :=
  match s with
  | Received | StructurallyValid _ => 8
  | HoursChecked _ _ => 7
  | HoneypotEvaluated _ _ => 6
  | VerificationChecked _ _ => 5
  | DomainChecked _ _ => 3
  | _ => 0
  end.

(** ** The gates *)

#[local] Ltac allow :=
  repeat first
    [ apply Forall_nil_2 | apply Forall_cons_2 | apply Forall_app_2
    | apply allowed_print | by constructor ].

Lemma fault_line_allowed r e : allowed r (fault_line e).
Proof. apply allowed_print, log_fault. Qed.

Lemma verify_turnstile_token_allowed r t :
  Forall (allowed r) (verify_turnstile_token (cf_token r) t).2.
Proof. rewrite verify_turnstile_token_snd. allow. Qed.

Lemma is_domain_real_allowed r t :
  Forall (allowed r) (is_domain_real (py_lower (email r)) t).2.
Proof.
  rewrite is_domain_real_run. cbv zeta.
  case_bool_decide; [|destruct (mx_present _ t)]; simpl; allow.
Qed.

Lemma send_order_emails_allowed r order_id t :
  Forall (allowed r) (send_order_emails r order_id t).2.
Proof.
  rewrite send_order_emails_run. cbv zeta.
  destruct (owner_outcome r order_id t), (customer_outcome r order_id t); simpl; allow.
Qed.

(** ** The machine *)

Variables (body : OrderRequest) (request : Request).

(** The events of a gate, from the equation of its run. *)
#[local] Ltac gate_events :=
  match goal with
  | H : ?m = (_, ?evs) |- _ =>
      apply (f_equal snd) in H; cbn [snd] in H; subst evs
  end.

(** Every transition keeps the invariant and makes allowed events. *)
Lemma step_allowed t s evs s' :
  step body request t s evs s' -> carries (validated body) s ->
  carries (validated body) s' /\ Forall (allowed (validated body)) evs.
Proof.
  intros Hs Hc. unfold carries in *.
  destruct Hs; cbn [request_of] in *;
    repeat match goal with
    | H : forall r', Some ?r = Some r' -> _ |- _ => specialize (H _ eq_refl); subst r
    | H : parse_OrderRequest _ _ = Ok _ |- _ =>
        apply parse_OrderRequest_Ok_iff in H as [-> _]
    end;
    (split; [intros r' ?; by simplify_eq|]);
    try gate_events;
    eauto using verify_turnstile_token_allowed, is_domain_real_allowed,
      send_order_emails_allowed, fault_line_allowed, Forall_app_2, Forall_nil_2,
      Forall_cons_2, allowed, log_line.
Qed.

Lemma steps_allowed t s evs s' :
  steps body request t s evs s' -> carries (validated body) s ->
  carries (validated body) s' /\ Forall (allowed (validated body)) evs.
Proof.
  induction 1 as [|t s evs1 s' evs2 s'' Hs _ IH]; intros Hc; [by split|].
  destruct (step_allowed _ _ _ _ Hs Hc) as [Hc' H1].
  destruct (IH Hc') as [Hc'' H2]. split; [done | by apply Forall_app_2].
Qed.

Lemma event_allowed t ev :
  ev ∈ (post_order body request t).2 -> allowed (validated body) ev.
Proof.
  pose proof (run_steps _ _ _ _ _ _ _ (machine_run body request t)) as H.
  apply steps_allowed in H as [_ H]; [|done]. by apply Forall_forall.
Qed.

(** C36. The route calls nothing but what the request allows. Whatever the
    request, the environment and the history, on every path of the handler,
    every event of a run of the route is allowed for the validated body: a
    reading of the clock, a draw, the POST to the verification URL with the
    secret and the token of this request, a DNS query for the domain of its
    email in lower case, the owner's notice or the customer's confirmation
    of this request, or a log line of one of five shapes. *)
Theorem route_calls_allowed t :
  Forall (allowed (validated body)) (post_order body request t).2.
Proof.
  pose proof (run_steps _ _ _ _ _ _ _ (machine_run body request t)) as H.
  by apply steps_allowed in H as [_ H].
Qed.

(** ** What follows for each service *)

(** The verification service is sent the secret and the token, and nothing
    else of the request; no other URL is posted to. *)
Lemma route_posts t url data out :
  EvHttpPost url data out ∈ (post_order body request t).2 ->
  url = turnstile_url /\
  data = [("secret", CLOUDFLARE_KEY); ("response", Some (cf_token body))].
Proof. intros Ha%event_allowed. by inv Ha. Qed.

(** The DNS is asked for the domain of the email of the request, as the
    syntax check returned it and in lower case, and for no other name. *)
Lemma route_dns_queries t domain ty out :
  EvDnsResolve domain ty out ∈ (post_order body request t).2 ->
  domain = domain_of (py_lower (email (validated body))).
Proof. intros Ha%event_allowed. by inv Ha. Qed.

(** SES is given emails from the no-reply address only, to the business
    address or to the address of the request in lower case. *)
Lemma route_emails t msg out :
  EvSesSendEmail msg out ∈ (post_order body request t).2 ->
  Source msg = NO_REPLY_EMAIL /\
  (ToAddresses msg = [BUSINESS_EMAIL] \/
   ToAddresses msg = [Some (py_lower (email (validated body)))]).
Proof. intros Ha%event_allowed. inv Ha; eauto. Qed.

(** ** The order of the calls *)

Lemma phases_app evs1 evs2 : phases (evs1 ++ evs2) = phases evs1 ++ phases evs2.
Proof. apply omap_app. Qed.

(** The calls of a transition are those of the gate the state is at. *)
Lemma step_phases t s evs s' :
  step body request t s evs s' -> Forall (eq (level s)) (phases evs).
Proof.
  destruct 1; try gate_events;
    rewrite ?phases_app, ?verify_turnstile_token_snd, ?is_domain_real_run,
      ?send_order_emails_run;
    cbv zeta; repeat case_match; by repeat constructor.
Qed.

Lemma level_lt t s evs s' : step body request t s evs s' -> level s < level s'.
Proof.
  intros H. pose proof (step_rank _ _ _ _ _ _ H). unfold level.
  destruct s; simpl in *; lia.
Qed.

(** The calls of an execution are in the order of the gates, from the gate
    the first state is at. *)
Lemma steps_phases t s evs s' :
  steps body request t s evs s' ->
  Forall (le (level s)) (phases evs) /\ StronglySorted le (phases evs).
Proof.
  induction 1 as [|t s evs1 s' evs2 s'' Hs _ [IH1 IH2]]; [by split; constructor|].
  pose proof (step_phases _ _ _ _ Hs) as H1. pose proof (level_lt _ _ _ _ Hs) as Hl.
  rewrite phases_app. rewrite Forall_forall in H1, IH1. split.
  - apply Forall_app_2; apply Forall_forall; intros n Hn;
      [rewrite <- (H1 n Hn) | specialize (IH1 n Hn)]; lia.
  - apply StronglySorted_app_2; [|clear IH1 IH2|done].
    + intros n1 n2 <-%H1 ?%IH1. lia.
    + induction (phases evs1) as [|n ns IH]; constructor.
      * apply IH. intros ? ?. apply H1. by right.
      * apply Forall_forall. intros n' Hn'.
        rewrite <- (H1 n), <- (H1 n'); [done | by right | by left].
Qed.

(** C40. The calls are made in the order of the gates. On every path of the
    handler, for every request, environment and history, the calls of a run
    of the route are in this order: the clock, the draw of the identifier,
    the verification service, the DNS, SES. No email is handed to SES before
    the last DNS query was answered, no DNS query is made before the
    verification service answered, and the clock is read before
    anything. *)
Theorem calls_in_order t :
  StronglySorted le (phases (post_order body request t).2).
Proof.
  pose proof (run_steps _ _ _ _ _ _ _ (machine_run body request t)) as H.
  by apply steps_phases in H as [_ H].
Qed.

(** ** The number of the calls *)

Lemma calls_app k evs1 evs2 : calls k (evs1 ++ evs2) = calls k evs1 + calls k evs2.
Proof. unfold calls. by rewrite phases_app, filter_app, length_app. Qed.

(** Calls that are all of one kind. *)
Lemma calls_of_kind n k evs :
  Forall (eq n) (phases evs) ->
  calls k evs = if decide (k = n) then length (phases evs) else 0.
Proof.
  unfold calls. generalize (phases evs). intros ns.
  induction 1 as [|? ns <- _ IH]; [by case_decide|].
  rewrite filter_cons. destruct (decide (k = n)) as [->|Hn]; simpl; by rewrite ?IH.
Qed.

(** A gate makes the calls of its quota at most. *)
Lemma step_quota t s evs s' :
  step body request t s evs s' -> length (phases evs) <= quota (level s).
Proof.
  destruct 1; try gate_events;
    rewrite ?phases_app, ?verify_turnstile_token_snd, ?is_domain_real_run,
      ?send_order_emails_run;
    cbv zeta; repeat case_match; simpl; lia.
Qed.

(** And with the log lines, it leaves the events of the gates that follow. *)
Lemma step_budget t s evs s' :
  step body request t s evs s' -> length evs + budget s' <= budget s.
Proof.
  destruct 1; try gate_events;
    rewrite ?verify_turnstile_token_snd, ?is_domain_real_run, ?send_order_emails_run;
    cbv zeta; repeat case_match; rewrite ?length_app; simpl; lia.
Qed.

Lemma steps_budget t s evs s' :
  steps body request t s evs s' -> length evs + budget s' <= budget s.
Proof.
  induction 1 as [|t s evs1 s' evs2 s'' Hs%step_budget _ IH]; [simpl; lia|].
  rewrite length_app. lia.
Qed.

(** The calls of an execution are within the quotas of the gates from the
    gate the first state is at. *)
Lemma steps_quota t s evs s' k :
  steps body request t s evs s' ->
  calls k evs <= if decide (level s <= k) then quota k else 0.
Proof.
  induction 1 as [|t s evs1 s' evs2 s'' Hs _ IH]; [unfold calls; simpl; lia|].
  pose proof (step_quota _ _ _ _ Hs). pose proof (level_lt _ _ _ _ Hs).
  rewrite calls_app, (calls_of_kind (level s)) by by eapply step_phases.
  repeat case_decide; subst; lia.
Qed.

(** C32. The route makes a bounded number of calls, on every path. For every
    request, environment and history, a run of the route reads the clock
    once at most, draws one identifier at most, posts to the verification
    service once at most, makes two DNS queries at most (MX, then NS) and
    hands two emails to SES at most; with its log lines it makes eight
    events at most. No call is repeated: a failure of a service is answered,
    never retried. *)
Theorem route_calls_bounded t :
  let evs := (post_order body request t).2 in
  calls 1 evs <= 1 /\ calls 2 evs <= 1 /\ calls 3 evs <= 1 /\
  calls 4 evs <= 2 /\ calls 5 evs <= 2 /\ length evs <= 8.
Proof.
  cbv zeta.
  pose proof (run_steps _ _ _ _ _ _ _ (machine_run body request t)) as H.
  pose proof (steps_budget _ _ _ _ H) as Hb.
  pose proof (fun k => steps_quota _ _ _ _ k H) as Hq.
  repeat split; [apply (Hq 1) | apply (Hq 2) | apply (Hq 3) | apply (Hq 4)
                | apply (Hq 5) | simpl in Hb; lia].
Qed.

End Calls.

(** ** Examples *)

(** A POST to another URL, and an email to a third address, are not
    allowed. *)
Example other_url_not_allowed out :
  ~ @allowed example_config text_renderer example_order
      (EvHttpPost "https://example.com/collect" [] out).
Proof. by inversion 1. Qed.

(** The text of the honeypot field is printed as it is: a client that puts
    a line break in it writes lines of its own in the log. Here the second
    line of what is printed for one request reads as the line the handler
    prints when it refuses the email domain of another. *)
Definition forging_order : OrderRequest :=
  {| phone := phone example_order; email := email example_order;
     verification :=
       "x'" +:+ newline +:+ "SECURITY: Blocked invalid email domain: owner@example.com";
     shipping := shipping example_order; order := order example_order;
     cf_token := cf_token example_order |}.

Example forged_log_line :
  exists line,
    EvPrint line ∈ (@post_order example_email_syntax example_config example_env
                      text_renderer forging_order peer []).2 /\
    py_split "010" line !! 1%nat =
      Some "SECURITY: Blocked invalid email domain: owner@example.com'" /\
    @log_line forging_order line.
Proof.
  eexists. split; [|split]; [vm_compute; do 2 right; left | by vm_compute |].
  apply (log_honeypot forging_order "203.0.113.7").
Qed.

(** The bounds are reached: an order whose confirmation SES refuses makes
    every call and one log line, eight events. *)
Example bounds_reached :
  let evs := (@post_order example_email_syntax example_config throttled_env
                text_renderer example_order peer []).2 in
  calls 1 evs = 1 /\ calls 2 evs = 1 /\ calls 3 evs = 1 /\
  calls 4 evs = 2 /\ calls 5 evs = 2 /\ length evs = 8.
Proof. by vm_compute. Qed.

Example other_recipient_not_allowed order_id out :
  ~ @allowed example_config text_renderer example_order
      (EvSesSendEmail
         {| Source := @NO_REPLY_EMAIL example_config;
            ToAddresses := [Some "someone@example.org"];
            Subject := "Order Confirmation - " +:+ order_id;
            Html := "" |} out).
Proof. by inversion 1. Qed.
