(* ===== verification/Interleave.v ===== *)
(** * Interleave: requests handled at the same time

    The specification asks the handler to be reentrant: every request runs
    its own instance of the state machine, and requests that are handled at
    the same time do not interfere. The code has no variable that a request
    writes and another reads; what the requests share is the outside world.

    A [Task] is a request with the state its machine is in, and a pool is a
    list of tasks. [istep_fn] makes one transition of one task, from the
    history that all the tasks share, and [isteps] are the executions of the
    pool: transitions of any tasks in any order, each adding its events to
    the shared history. [irun] computes the execution that a schedule (the
    list of the tasks to move, in order) gives.

    A transition is the unit of interleaving, and a call is recorded with
    its answer as one event. The pool is the most permissive scheduler: any
    task may move at any time. The event loop of the code is less
    permissive (between two suspension points a request keeps the loop, and
    the DNS queries and the SES calls are blocking calls that suspend
    nothing), so its schedules are among those of [isteps] and what holds of
    every execution of the pool holds of them.

    What the pool does not say: how long a request waits. A task of the pool
    can always move, by the definition of [istep_fn]; in the code a request
    waits while another resolves a domain or sends its emails. Time, and
    the order the event loop chooses, are not modelled, and no theorem of
    this file is about progress under load.

    The theorems are safety properties of every interleaving: each request
    does what the route does for it alone when given the same answers
    ([interleaved_request_isolated]); an accepted order has its two emails
    in the shared history ([concurrent_order_notified]); every email of the
    shared history is for a valid order of the pool whose honeypot field is
    empty ([pool_emails_for_valid_orders]); every event of the shared
    history is allowed for a request of the pool ([pool_events_allowed]);
    when the answers of the outside world do not depend on the history, the
    order of the transitions does not matter ([schedule_independent]).
    They rest on [step_fn_related]: a transition of the machine is made in
    a second environment when its calls get the same answers there
    ([Related]). *)

From Stdlib Require Import ZArith List Bool Lia.
From stdpp Require Import base tactics option list strings gmap.
From S2P Require Import Prelude PyStr Schema Phone Hours OrderId Effects.
From S2P Require Import AntiAbuse Notify Handler Request Related Stateless Replay.
From S2P Require Import Machine Calls.

(** ** One transition in two environments *)

Section StepRelated.
Context {syn : EmailSyntax} {cfg : Config} {rnd : Renderer}.
Context (env env' : Environment).
Context (P : list Event -> list Event -> list Event -> Prop).
Context (Hrel : env_rel env env' P).
Variables (body : OrderRequest) (request : Request).

Lemma related_run {A} (m m' : M A) g l r evs :
  related P m m' -> m g = (r, evs) -> P g l evs -> m' l = (r, evs).
Proof. intros H E HP. rewrite <- E. apply H. by rewrite E. Qed.

Lemma rel_app_l g l evs1 evs2 : P g l (evs1 ++ evs2) -> P g l evs1.
Proof. by intros [H _]%(rel_app _ _ _ Hrel). Qed.

(** A transition made from [g] in [env] is made from [l] in [env'], when
    its calls get the same answers there. *)
Lemma step_fn_related g l s evs s' :
  @step_fn syn cfg env rnd body request g s = Some (evs, s') -> P g l evs ->
  @step_fn syn cfg env' rnd body request l s = Some (evs, s').
Proof.
  destruct s; simpl; try done.
  - destruct (client request); [|done].
    destruct (business_hours (@env_now env g)).1 eqn:E; intros [= <- <-] HP;
      by rewrite (rel_now _ _ _ Hrel g l HP), E.
  - destruct (str_truthy (verification r)); intros [= <- <-] HP;
      [apply (rel_app_l g l [_] [_]) in HP|];
      by rewrite (rel_uuid4 _ _ _ Hrel g l HP).
  - destruct (verify_turnstile_token _ g) as [[is_human|e] ts] eqn:E.
    + destruct (json_truthy is_human) eqn:Ej; intros [= <- <-] HP;
        by rewrite (related_run _ _ _ _ _ _
                      (related_verify_turnstile_token env env' P Hrel _) E HP), Ej.
    + intros [= <- <-] HP%rel_app_l.
      by rewrite (related_run _ _ _ _ _ _
                    (related_verify_turnstile_token env env' P Hrel _) E HP).
  - destruct (is_domain_real _ g) as [[[]|e] ds] eqn:E; intros [= <- <-] HP;
      [|apply rel_app_l in HP];
      by rewrite (related_run _ _ _ _ _ _
                    (related_is_domain_real env env' P Hrel _) E HP).
  - destruct (send_order_emails _ _ g) as [[[]|e] ds] eqn:E; intros [= <- <-] HP;
      by rewrite (related_run _ _ _ _ _ _
                    (related_send_order_emails env env' P Hrel _ _) E HP).
Qed.

End StepRelated.

(** ** The pool *)

Record Task := {
  task_body : OrderRequest;
  task_request : Request;
  task_state : State;
}.

(** A request that has just arrived. *)
Definition submit (body : OrderRequest) (request : Request) : Task :=
  {| task_body := body; task_request := request; task_state := Received |}.

Definition set_state (k : Task) (s : State) : Task :=
  {| task_body := task_body k; task_request := task_request k; task_state := s |}.

(** The events of an execution: every transition with the task that made
    it. [events] is what they add to the shared history, [events_of i] the
    events of the task [i]. *)
Definition Schedule : Type := list (nat * list Event).

Definition events (tr : Schedule) : list Event := concat (tr.*2).

Fixpoint events_of (i : nat) (tr : Schedule) : list Event :=
  match tr with
  | [] => []
  | (j, evs) :: tr' =>
      if decide (j = i) then evs ++ events_of i tr' else events_of i tr'
  end.

Section Interleave.
Context {syn : EmailSyntax} {cfg : Config} {env : Environment} {rnd : Renderer}.

(** One transition of the task [i], from the shared history [g]. *)
Definition istep_fn (g : list Event) (pool : list Task) (i : nat) :
  option (list Event * list Task) :=
  k ← pool !! i;
  '(evs, s') ← step_fn (task_body k) (task_request k) g (task_state k);
  Some (evs, <[i := set_state k s']> pool).

(** The executions of the pool. *)
Inductive isteps : list Event -> list Task -> Schedule -> list Task -> Prop :=
| isteps_refl g pool : isteps g pool [] pool
| isteps_step g pool i evs pool' tr pool'' :
    istep_fn g pool i = Some (evs, pool') ->
    isteps (g ++ evs) pool' tr pool'' ->
    isteps g pool ((i, evs) :: tr) pool''.

(** The execution that moves the tasks in the order of [sched]; a task that
    has responded, or that is not in the pool, is passed over. *)
Fixpoint irun (sched : list nat) (g : list Event) (pool : list Task) :
  Schedule * list Task :=
  match sched with
  | [] => ([], pool)
  | i :: sched' =>
      match istep_fn g pool i with
      | Some (evs, pool') =>
          let r := irun sched' (g ++ evs) pool' in ((i, evs) :: r.1, r.2)
      | None => irun sched' g pool
      end
  end.

(** ** A transition of the pool *)

Lemma istep_fn_Some g pool i evs pool' :
  istep_fn g pool i = Some (evs, pool') <->
  exists k s', pool !! i = Some k /\
    step (task_body k) (task_request k) g (task_state k) evs s' /\
    pool' = <[i := set_state k s']> pool.
Proof.
  unfold istep_fn. setoid_rewrite step_fn_spec. split.
  - destruct (pool !! i) as [k|]; simpl; [|done].
    destruct (step_fn _ _ g _) as [[evs1 s']|] eqn:E; simpl; [|done].
    intros [= <- <-]. by exists k, s'.
  - intros (k & s' & Hi & Hs & ->). rewrite Hi. simpl. by rewrite Hs.
Qed.

(** The task that moves, after the transition; the others are as before. *)
Lemma istep_fn_lookup g pool i evs pool' j k :
  istep_fn g pool i = Some (evs, pool') -> pool !! j = Some k ->
  if decide (i = j)
  then exists s', pool' !! j = Some (set_state k s') /\
         step (task_body k) (task_request k) g (task_state k) evs s'
  else pool' !! j = Some k.
Proof.
  intros (k' & s' & Hi & Hs & ->)%istep_fn_Some Hj. destruct (decide (i = j)) as [->|Hn].
  - simplify_eq. exists s'. split; [|done].
    apply list_lookup_insert_eq. by eapply lookup_lt_Some.
  - by rewrite list_lookup_insert_ne.
Qed.

Lemma istep_fn_length g pool i evs pool' :
  istep_fn g pool i = Some (evs, pool') -> length pool' = length pool.
Proof. intros (k & s' & _ & _ & ->)%istep_fn_Some. apply length_insert. Qed.

Lemma istep_fn_Responded g pool i k resp :
  pool !! i = Some k -> task_state k = Responded resp -> istep_fn g pool i = None.
Proof. intros Hi Hs. unfold istep_fn. rewrite Hi. simpl. by rewrite Hs. Qed.

Lemma irun_isteps sched g pool :
  isteps g pool (irun sched g pool).1 (irun sched g pool).2.
Proof.
  revert g pool. induction sched as [|i sched IH]; intros g pool; simpl; [constructor|].
  destruct (istep_fn g pool i) as [[evs pool']|] eqn:E; [|apply IH].
  eapply isteps_step; [done | apply IH].
Qed.

(** Every execution is the execution of a schedule: the tasks that moved,
    in order. *)
Lemma isteps_irun g pool tr pool' :
  isteps g pool tr pool' -> irun (tr.*1) g pool = (tr, pool').
Proof.
  induction 1 as [|g pool i evs pool' tr pool'' Hi _ IH]; csimpl; [done|].
  by rewrite Hi, IH.
Qed.

(** ** One request at a time *)

(** The schedule that moves one task only runs its machine. *)
Lemma irun_alone fuel g pool i k evs resp :
  pool !! i = Some k ->
  run (task_body k) (task_request k) fuel g (task_state k) = Some (evs, resp) ->
  events (irun (replicate fuel i) g pool).1 = evs /\
  (irun (replicate fuel i) g pool).2 = <[i := set_state k (Responded resp)]> pool.
Proof.
  revert g pool k evs. induction fuel as [|fuel IH]; intros g pool k evs Hi;
    (destruct (responded_dec (task_state k)) as [[resp' E]|Hn];
       [rewrite E, run_Responded; intros [= <- <-]|]).
  - split; [done|]. simpl. symmetry. apply list_insert_id.
    rewrite Hi, <- E. by destruct k.
  - by destruct k as [? ? []]; simpl in *; try done; destruct (Hn resp0).
  - simpl. rewrite (istep_fn_Responded _ _ _ _ _ Hi E).
    apply IH; [done|]. by rewrite E, run_Responded.
  - rewrite run_S by done. simpl. unfold istep_fn. rewrite Hi. simpl.
    destruct (step_fn _ _ g _) as [[evs1 s']|]; simpl; [|done].
    destruct (run _ _ fuel (g ++ evs1) s') as [[evs2 resp']|] eqn:Er; simpl; [|done].
    intros [= <- <-].
    destruct (IH (g ++ evs1) (<[i := set_state k s']> pool) (set_state k s') evs2)
      as [IH1 IH2]; [apply list_lookup_insert_eq; by eapply lookup_lt_Some | done |].
    unfold events in *. csimpl. rewrite IH1, IH2. split; [done|].
    apply list_insert_insert_eq.
Qed.

(** A request that is handled alone, from arrival to response, is handled
    as the route handles it: the pool moves on by the events of the route
    and the request has the response of the route. *)
Lemma irun_serial g pool i body request :
  pool !! i = Some (submit body request) ->
  events (irun (replicate 8 i) g pool).1 = (post_order body request g).2 /\
  (irun (replicate 8 i) g pool).2 =
    <[i := set_state (submit body request) (Responded (post_order body request g).1)]> pool.
Proof. intros Hi. apply (irun_alone 8 g pool i _ _ _ Hi), machine_run. Qed.

(** ** Each task on its own *)

Section Project.
Context (env' : Environment) (Q : list Event -> list Event -> Prop).
Context (Hrel : env_rel env env' (fun _ l evs => Q l evs)).

(** The events of a task are an execution of its machine from a history
    of its own, in an environment that gives it the same answers there. *)
Lemma isteps_project g pool tr pool' :
  isteps g pool tr pool' -> forall i k l,
  pool !! i = Some k -> Q l (events_of i tr) ->
  exists s', pool' !! i = Some (set_state k s') /\
    @steps syn cfg env' rnd (task_body k) (task_request k)
      l (task_state k) (events_of i tr) s'.
Proof.
  induction 1 as [g pool|g pool j evs pool' tr pool'' Hj _ IH]; intros i k l Hi HQ.
  { exists (task_state k). split; [by destruct k | constructor]. }
  pose proof (istep_fn_lookup _ _ _ _ _ _ _ Hj Hi) as Hl. simpl in *.
  destruct (decide (j = i)) as [->|Hn]; [|by apply IH].
  destruct Hl as (s1 & Hl & Hs%step_fn_spec).
  apply (rel_app _ _ _ Hrel g) in HQ as [HQ1 HQ2].
  destruct (IH i _ (l ++ evs) Hl HQ2) as (s' & Hp & Hst).
  exists s'. split; [done|]. eapply steps_step; [|exact Hst].
  apply step_fn_spec. by eapply (step_fn_related env env' _ Hrel).
Qed.

(** The response of a task is the answer of the route, run alone. *)
Lemma isteps_post_order g pool tr pool' i body request resp :
  isteps g pool tr pool' ->
  pool !! i = Some (submit body request) ->
  task_state <$> pool' !! i = Some (Responded resp) ->
  forall l, Q l (events_of i tr) ->
  @post_order syn cfg env' rnd body request l = (resp, events_of i tr).
Proof.
  intros H Hi Hr l HQ.
  destruct (isteps_project _ _ _ _ H i _ l Hi HQ) as (s' & Hp & Hst).
  rewrite Hp in Hr. simpl in Hr. simplify_eq. by apply steps_post_order.
Qed.

End Project.

(** C24. Requests that are handled at the same time do not interfere. It
    is an invariant of the executions of a pool, whatever the other requests
    are and in whatever order the transitions of all of them are made: every
    request is in a state that its own machine reaches alone, from the empty
    history, by the events of this request, when its calls are answered as
    they were; and a request that has its response got the response, and
    made the calls, of the route run for it alone with these answers. *)
Theorem interleaved_request_isolated g pool tr pool' i body request :
  isteps g pool tr pool' ->
  pool !! i = Some (submit body request) ->
  exists s,
    pool' !! i = Some (set_state (submit body request) s) /\
    @steps syn cfg (env_replay (events_of i tr)) rnd body request
      [] Received (events_of i tr) s /\
    forall resp, s = Responded resp ->
      @post_order syn cfg (env_replay (events_of i tr)) rnd body request [] =
        (resp, events_of i tr).
Proof.
  intros H Hi.
  destruct (isteps_project _ _ (replay_rel env (events_of i tr)) _ _ _ _ H i _ [] Hi)
    as (s & Hp & Hst); [apply scripted_refl|].
  exists s. split; [done|]. split; [done|]. intros resp ->. by apply steps_post_order.
Qed.

(** ** The emails of an accepted order *)

Lemma events_of_emails_sublist i tr :
  emails_sent (events_of i tr) `sublist_of` emails_sent (events tr).
Proof.
  induction tr as [|[j evs] tr IH]; [done|]. unfold events in *. simpl.
  rewrite emails_sent_app. destruct (decide (j = i)).
  - rewrite emails_sent_app. by apply sublist_app.
  - by apply sublist_inserts_l.
Qed.

(** C33. Every order that is accepted while others are handled has had its
    two emails sent. When a request whose honeypot field is empty is answered
    with a success in an execution of a pool, the emails that SES accepted
    for it are the owner's notice and the customer's confirmation, in this
    order, both with the order identifier of its response and with the
    fields of its own body, and they are among the emails of the shared
    history, in this order. *)
Theorem concurrent_order_notified g pool tr pool' i body request resp :
  isteps g pool tr pool' ->
  pool !! i = Some (submit body request) ->
  task_state <$> pool' !! i = Some (Responded (Ok (Ok resp))) ->
  is_bot body = false ->
  exists order_id,
    resp = success_response order_id /\
    emails_sent (events_of i tr) =
      [owner_email (validated body) order_id;
       customer_email (validated body) order_id] /\
    [owner_email (validated body) order_id;
     customer_email (validated body) order_id]
      `sublist_of` emails_sent (events tr).
Proof.
  intros H Hi Hr Hb.
  pose proof (isteps_post_order _ _ (replay_rel env (events_of i tr))
                _ _ _ _ _ _ _ _ H Hi Hr [] (scripted_refl _)) as E.
  destruct (post_order_handled (env := env_replay (events_of i tr))
              body request [] (Ok resp)) as [_ E']; [by rewrite E|].
  rewrite E in E'. injection E' as E1 E2.
  destruct (accepted_emails (env := env_replay (events_of i tr))
              (validated body) request []) as [Ea Es]; [by rewrite <- E1|done|].
  rewrite <- E1 in Ea. injection Ea as ->. rewrite <- E2 in Es.
  eexists. split; [done|]. split; [done|].
  rewrite <- Es. apply events_of_emails_sublist.
Qed.

(** ** The emails of the pool *)

(** An event of the shared history is an event of a task. *)
Lemma events_elem ev tr : ev ∈ events tr -> exists i, ev ∈ events_of i tr.
Proof.
  induction tr as [|[j evs] tr IH]; [by intros ?%elem_of_nil|].
  unfold events in *. simpl. rewrite elem_of_app. intros [H|H].
  - exists j. rewrite decide_True by done. rewrite elem_of_app. by left.
  - destruct (IH H) as [i Hi]. exists i. destruct (decide (j = i)); [|done].
    rewrite elem_of_app. by right.
Qed.

Lemma emails_sent_events msg tr :
  msg ∈ emails_sent (events tr) -> exists i, msg ∈ emails_sent (events_of i tr).
Proof.
  unfold emails_sent. rewrite list_elem_of_omap. intros (ev & [i Hi]%events_elem & Hf).
  exists i. apply list_elem_of_omap. eauto.
Qed.

(** Only the tasks of the pool make events. *)
Lemma isteps_events_of_None g pool tr pool' i :
  isteps g pool tr pool' -> pool !! i = None -> events_of i tr = [].
Proof.
  induction 1 as [|g pool j evs pool' tr pool'' Hj _ IH]; intros Hi; [done|]. simpl.
  apply istep_fn_Some in Hj as (k & s' & Hk & _ & ->).
  destruct (decide (j = i)) as [->|]; [congruence|].
  apply IH. by rewrite list_lookup_insert_ne.
Qed.

(** The events of a task are the beginning of a run of the route for it
    alone, in the environment that replays them. *)
Lemma isteps_prefix_post_order g pool tr pool' i body request :
  isteps g pool tr pool' ->
  pool !! i = Some (submit body request) ->
  events_of i tr `prefix_of`
    (@post_order syn cfg (env_replay (events_of i tr)) rnd body request []).2.
Proof.
  intros H Hi.
  destruct (isteps_project _ _ (replay_rel env (events_of i tr)) _ _ _ _ H i _ [] Hi)
    as (s & _ & Hst); [apply scripted_refl|].
  destruct (steps_complete (env := env_replay (events_of i tr))
              body request (events_of i tr) s) as (evs' & resp & Hst').
  pose proof (steps_post_order _ _ _ _ _ (steps_app _ _ _ _ _ _ _ _ Hst Hst')) as E.
  simpl in E. rewrite E. by exists evs'.
Qed.

(** C38. Under any load, every email that leaves is for a valid order of a
    client that is not a bot. In every execution of a pool of requests that
    have arrived, in whatever order their transitions are made, an email
    that SES accepted is the owner's notice or the customer's confirmation
    of one request of the pool, written with the validated body of this
    request and one order identifier; the body of this request is valid (the
    phone, the email and the cart) and its honeypot field is empty. No
    request makes an email leave for another. *)
Theorem pool_emails_for_valid_orders g pool tr pool' msg :
  isteps g pool tr pool' ->
  Forall (fun k => task_state k = Received) pool ->
  msg ∈ emails_sent (events tr) ->
  exists i body request order_id,
    pool !! i = Some (submit body request) /\
    request_ok body /\ is_bot body = false /\
    (msg = owner_email (validated body) order_id \/
     msg = customer_email (validated body) order_id).
Proof.
  intros H Hall [i Hm]%emails_sent_events.
  destruct (pool !! i) as [[body request s]|] eqn:Hi;
    [|rewrite (isteps_events_of_None _ _ _ _ _ H Hi) in Hm; by apply elem_of_nil in Hm].
  pose proof (Forall_lookup_1 _ _ _ _ Hall Hi) as Hs. simpl in Hs. subst s.
  destruct (isteps_prefix_post_order _ _ _ _ _ _ _ H Hi) as [evs' E].
  destruct (post_order_emails (env := env_replay (events_of i tr)) body request [] msg)
    as [Hok [Hb Hor]%emails_sent_elem].
  { rewrite E, emails_sent_app, elem_of_app. by left. }
  by exists i, body, request, (order_id_at (env := env_replay (events_of i tr)) []).
Qed.

(** Under any load, the pool calls nothing but what its requests allow:
    every event of the shared history is allowed for the validated body of
    a request of the pool ([Calls.allowed]). *)
Lemma pool_events_allowed g pool tr pool' ev :
  isteps g pool tr pool' ->
  Forall (fun k => task_state k = Received) pool ->
  ev ∈ events tr ->
  exists i body request,
    pool !! i = Some (submit body request) /\ allowed (validated body) ev.
Proof.
  intros H Hall [i Hev]%events_elem.
  destruct (pool !! i) as [[body request s]|] eqn:Hi;
    [|rewrite (isteps_events_of_None _ _ _ _ _ H Hi) in Hev; by apply elem_of_nil in Hev].
  pose proof (Forall_lookup_1 _ _ _ _ Hall Hi) as Hs. simpl in Hs. subst s.
  destruct (isteps_prefix_post_order _ _ _ _ _ _ _ H Hi) as [evs' E].
  exists i, body, request. split; [done|].
  apply (event_allowed (env := env_replay (events_of i tr)) body request []).
  rewrite E, elem_of_app. by left.
Qed.

(** ** The order of the transitions *)

Lemma history_free_rel : history_free env -> env_rel env env (fun _ _ _ => True).
Proof. intros H. split; try done; intros g l; intros; by apply (H l g). Qed.

(** When the answers of the outside world do not depend on what
    happened before, the order in which the requests are handled does not
    matter: in every execution of a pool, a request that has its response
    got the response, and made the calls, of the route run for it alone from
    any history. Two schedules of the same pool give every request the same
    response. *)
Theorem schedule_independent g pool tr pool' i body request resp t :
  history_free env ->
  isteps g pool tr pool' ->
  pool !! i = Some (submit body request) ->
  task_state <$> pool' !! i = Some (Responded resp) ->
  post_order body request t = (resp, events_of i tr).
Proof.
  intros Hf H Hi Hr.
  by apply (isteps_post_order env (fun _ _ => True) (history_free_rel Hf)
              _ _ _ _ _ _ _ _ H Hi Hr).
Qed.

End Interleave.

(** ** Examples

    The order of [Notify.example_order] and the order of a bot, handled at
    the same time in the environment of [Effects]. *)

Definition example_pool : list Task :=
  [submit example_order peer; submit bot_order peer].

Definition example_schedule : list nat := [0; 1; 1; 0; 0; 1; 0; 1; 0; 0; 0; 0].

Definition example_execution : Schedule * list Task :=
  @irun example_email_syntax example_config example_env text_renderer
    example_schedule [] example_pool.

(** Both requests are answered, and every move of the schedule was a
    transition: eight for the order, four for the bot. *)
Example example_execution_responses :
  task_state <$> example_execution.2 =
    [Responded (Ok (Ok (success_response (order_id_of_uuid example_uuid))));
     Responded (Ok (Ok (success_response (order_id_of_uuid example_uuid))))] /\
  example_execution.1.*1 = example_schedule.
Proof. by vm_compute. Qed.

(** The shared history has the events of both, and the two emails of the
    order. *)
Example example_execution_emails :
  length (events example_execution.1) =
    length (events_of 0 example_execution.1) + length (events_of 1 example_execution.1) /\
  emails_sent (events example_execution.1) =
    emails_sent (events_of 0 example_execution.1) /\
  length (emails_sent (events example_execution.1)) = 2.
Proof. by vm_compute. Qed.

Lemma interleaved_request_isolated_witness :
  exists s,
    example_execution.2 !! 0 = Some (set_state (submit example_order peer) s) /\
    @steps example_email_syntax example_config
      (env_replay (events_of 0 example_execution.1)) text_renderer
      example_order peer [] Received (events_of 0 example_execution.1) s /\
    forall resp, s = Responded resp ->
      @post_order example_email_syntax example_config
        (env_replay (events_of 0 example_execution.1)) text_renderer
        example_order peer [] = (resp, events_of 0 example_execution.1).
Proof.
  apply (@interleaved_request_isolated example_email_syntax example_config
           example_env text_renderer [] example_pool
           example_execution.1 example_execution.2 0 example_order peer).
  - apply irun_isteps.
  - reflexivity.
Defined.

Lemma concurrent_order_notified_witness :
  exists order_id,
    success_response (order_id_of_uuid example_uuid) = success_response order_id /\
    emails_sent (events_of 0 example_execution.1) =
      [@owner_email example_config text_renderer (@validated example_email_syntax example_order) order_id;
       @customer_email example_config text_renderer (@validated example_email_syntax example_order) order_id] /\
    [@owner_email example_config text_renderer (@validated example_email_syntax example_order) order_id;
     @customer_email example_config text_renderer (@validated example_email_syntax example_order) order_id]
      `sublist_of` emails_sent (events example_execution.1).
Proof.
  apply (@concurrent_order_notified example_email_syntax example_config
           example_env text_renderer [] example_pool
           example_execution.1 example_execution.2 0 example_order peer).
  - apply irun_isteps.
  - reflexivity.
  - by vm_compute.
  - reflexivity.
Defined.

(** The owner's notice of the order, which is in the shared history. *)
Definition example_notice : SesEmail :=
  @owner_email example_config text_renderer
    (@validated example_email_syntax example_order) (order_id_of_uuid example_uuid).

Lemma pool_emails_for_valid_orders_witness :
  exists i body request order_id,
    example_pool !! i = Some (submit body request) /\
    @request_ok example_email_syntax body /\ is_bot body = false /\
    (example_notice =
       @owner_email example_config text_renderer
         (@validated example_email_syntax body) order_id \/
     example_notice =
       @customer_email example_config text_renderer
         (@validated example_email_syntax body) order_id).
Proof.
  apply (@pool_emails_for_valid_orders example_email_syntax example_config
           example_env text_renderer [] example_pool
           example_execution.1 example_execution.2 example_notice).
  - apply irun_isteps.
  - by repeat constructor.
  - vm_compute. by left.
Defined.

(** The same pool, the bot first: the same responses. *)
Lemma schedule_independent_witness :
  @post_order example_email_syntax example_config example_env text_renderer
    example_order peer (events_of 1 example_execution.1) =
  (Ok (Ok (success_response (order_id_of_uuid example_uuid))),
   events_of 0 example_execution.1).
Proof.
  apply (@schedule_independent example_email_syntax example_config
           example_env text_renderer [] example_pool
           example_execution.1 example_execution.2 0).
  - apply example_env_history_free.
  - apply irun_isteps.
  - reflexivity.
  - by vm_compute.
Defined.
